(** * A shallow embedding of the local vault API (backend/api/app)

    The development follows the Python sources module by module:
    [crypto.py], [audit.py], [sessions.py], [schemas.py], [backup.py],
    [middleware.py], [routes/vault.py], [routes/entries.py] and
    [routes/backup.py].  Library calls (cryptography, argon2, json, base64,
    pydantic's scalar coercions, str methods) are fields of the class [Lib];
    the code of the repository itself is written out as Rocq functions. *)

From Stdlib Require Import ZArith String Ascii Strings.Byte List Lia Permutation.
From Stdlib Require Import Sorting.Sorted.
From stdpp Require Import base option list gmap strings countable.

#[local] Set Warnings "-register-all,-clear-no-such-hyp".
#[local] Open Scope string_scope.
#[local] Open Scope Z_scope.
#[local] Open Scope list_scope.

(** ** Python values *)

(** [bytes] objects. *)
Abbreviation bytes := (list byte).

(** [datetime.datetime]: naive values carry the wall-clock microseconds only,
    aware values the UTC instant in microseconds and the UTC offset in
    seconds. *)
Inductive datetime :=
| Naive (wall_us : Z)
| Aware (utc_us : Z) (utcoffset_s : Z).

(** The exceptions the modelled code raises or lets through.  The comments
    give the Python base class that [except] clauses see. *)
Inductive exn :=
| ValueError (msg : string)
| CryptoIntegrityError (msg : string)      (* crypto.py; a ValueError *)
| UnicodeDecodeError                       (* bytes.decode; a ValueError *)
| JSONDecodeError                          (* json; a ValueError *)
| RecursionError                           (* a RuntimeError *)
| ValidationError                          (* pydantic; a ValueError *)
| InvalidHashError                         (* argon2; a ValueError *)
| HashingError                             (* argon2; an Argon2Error *)
| TypeError (msg : string)
| IntegrityError                           (* sqlalchemy.exc *)
| AppError (code message : string) (status_code : Z).

(** [isinstance(e, ValueError)]. *)
Definition is_ValueError (e : exn) : bool :=
  match e with
  | ValueError _ | CryptoIntegrityError _ | UnicodeDecodeError
  | JSONDecodeError | ValidationError | InvalidHashError => true
  | _ => false
  end.

(** [isinstance(e, json.JSONDecodeError)]. *)
Definition is_JSONDecodeError (e : exn) : bool :=
  match e with JSONDecodeError => true | _ => false end.

(** [isinstance(e, CryptoIntegrityError)]. *)
Definition is_CryptoIntegrityError (e : exn) : bool :=
  match e with CryptoIntegrityError _ => true | _ => false end.

(** The result of running a piece of Python: a value or a raised exception. *)
Inductive outcome (A : Type) :=
| Ok (a : A)
| Raise (e : exn).
Arguments Ok {A} a.
Arguments Raise {A} e.

#[global] Instance outcome_ret : MRet outcome := λ A a, Ok a.
#[global] Instance outcome_bind : MBind outcome := λ A B f m,
  match m with Ok a => f a | Raise e => Raise e end.
#[global] Instance outcome_fmap : FMap outcome := λ A B f m,
  match m with Ok a => Ok (f a) | Raise e => Raise e end.

(** [try: body except <class>: handler(e)]. *)
Definition try_except {A} (body : outcome A) (catches : exn → bool)
    (handler : exn → outcome A) : outcome A :=
  match body with
  | Ok a => Ok a
  | Raise e => if catches e then handler e else Raise e
  end.

(** [for x in l: <body>], the body updating the loop's variables [s]. *)
Fixpoint for_loop {A S} (body : S → A → outcome S) (s : S) (l : list A)
    : outcome S :=
  match l with
  | [] => Ok s
  | x :: l' => match body s x with
               | Ok s' => for_loop body s' l'
               | Raise e => Raise e
               end
  end.

(** An optional library result turned into a raise. *)
Definition or_raise {A} (o : option A) (e : exn) : outcome A :=
  match o with Some a => Ok a | None => Raise e end.

(** What [json.loads] builds and [json.dumps] accepts.  A [dict] is a finite
    map: Python compares dicts without regard to insertion order and every
    consumer below reads them by key. *)
Inductive pyval :=
| PNone
| PBool (b : bool)
| PInt (z : Z)
| PFloat (bits : Z)
| PStr (s : string)
| PList (l : list pyval)
| PDict (m : gmap string pyval).

(** Truthiness of an optional string ([if s:] on [str | None]). *)
Definition str_truthy (s : option string) : bool :=
  match s with
  | Some s => negb (String.eqb s "")
  | None => false
  end.

(** [needle in haystack] on [str]. *)
Fixpoint str_contains (needle haystack : string) : bool :=
  if String.prefix needle haystack then true
  else match haystack with
       | EmptyString => false
       | String _ rest => str_contains needle rest
       end.

(** [s.endswith(suffix)]. *)
Definition str_endswith (suffix s : string) : bool :=
  let n := String.length s in
  let k := String.length suffix in
  (k <=? n)%nat && String.eqb (String.substring (n - k) k s) suffix.

(** A [str] is a string of 8-bit characters, the code points below 256.
    On these, [str.lower], [str.strip] and pydantic's whitespace stripping
    are the functions below; [str.upper] leaves the range (at U+00FF, U+00B5
    and U+00DF) and is a library function of [Lib]. *)

Definition chr_in (lo hi : N) (c : ascii) : bool :=
  ((lo <=? N_of_ascii c) && (N_of_ascii c <=? hi))%N.

(** [c.lower()]: A-Z, and U+00C0..U+00DE but for the multiplication sign. *)
Definition chr_lower (c : ascii) : ascii :=
  if chr_in 65 90 c || (chr_in 192 222 c && negb (N_of_ascii c =? 215)%N)
  then ascii_of_N (N_of_ascii c + 32)
  else c.

Definition str_lower (s : string) : string :=
  string_of_list_ascii (map chr_lower (list_ascii_of_string s)).

(** [c.isspace()]. *)
Definition chr_isspace (c : ascii) : bool :=
  chr_in 9 13 c || chr_in 28 32 c || chr_in 133 133 c || chr_in 160 160 c.

(** Unicode's White_Space property, which pydantic's [str_strip_whitespace]
    goes by. *)
Definition chr_white_space (c : ascii) : bool :=
  chr_in 9 13 c || chr_in 32 32 c || chr_in 133 133 c || chr_in 160 160 c.

Fixpoint drop_while {A} (p : A → bool) (l : list A) : list A :=
  match l with
  | [] => []
  | x :: l' => if p x then drop_while p l' else l
  end.

Definition strip_chars (p : ascii → bool) (s : string) : string :=
  string_of_list_ascii
    (rev (drop_while p (rev (drop_while p (list_ascii_of_string s))))).

(** [s.strip()]. *)
Definition str_strip : string → string := strip_chars chr_isspace.

(** What [str_strip_whitespace=True] does to a validated [str]. *)
Definition strip_whitespace : string → string := strip_chars chr_white_space.

(** [b.decode("latin1")]. *)
Definition latin1_decode (b : bytes) : string :=
  string_of_list_ascii (map ascii_of_byte b).

(** ** Library functions

    Everything below is code of a dependency, not of the repository. *)

(** [urllib.parse.SplitResult], the two attributes the code reads. *)
Record SplitResult := { scheme : string; netloc : string }.

(** What [PasswordHasher.verify] can do. *)
Inductive verify_result :=
| VerifyTrue                 (* returns True *)
| VerifyMismatch             (* raises VerifyMismatchError *)
| VerificationFailed         (* raises VerificationError *)
| VerifyInvalidHash.         (* raises InvalidHashError *)

(** What [json.loads] can do. *)
Inductive loads_result :=
| Loaded (v : pyval)         (* returns the value *)
| LoadsDecodeError           (* raises json.JSONDecodeError: not JSON *)
| LoadsValueError (msg : string)
                             (* raises ValueError: an integer literal beyond
                                the digit limit of int() *)
| LoadsRecursionError.       (* raises RecursionError: nesting beyond the
                                recursion limit *)

(** crypto.py's dataclass of Argon2 parameters; the password hasher takes
    all five. *)
Record Argon2Params := {
  memory_cost : Z;
  time_cost : Z;
  parallelism : Z;
  hash_len : Z;
  salt_len : Z;
}.

(** [uuid.UUID], by its 128-bit integer. *)
Record UUID := { uuid_int : Z }.

Class Lib := {
  (* str.upper(), str.encode("utf-8") and bytes.decode("utf-8") *)
  str_upper : string → string;
  utf8_encode : string → bytes;
  utf8_decode : bytes → option string;
  (* json.dumps(_, sort_keys=True, separators=(",", ":"), ensure_ascii=False)
     and json.loads *)
  json_dumps : pyval → string;
  json_loads_result : string → loads_result;
  (* base64.b64encode(_).decode("ascii") and base64.b64decode(_, validate=True) *)
  b64encode : bytes → string;
  b64decode : string → option bytes;
  (* AESGCM(key).encrypt(nonce, data, aad) and .decrypt; None is InvalidTag *)
  aesgcm_encrypt : bytes → bytes → bytes → bytes → bytes;
  aesgcm_decrypt : bytes → bytes → bytes → bytes → option bytes;
  (* HKDF(SHA256, length=32, salt=None, info).derive(ikm) *)
  hkdf_sha256 : bytes → bytes → bytes;
  (* argon2.low_level.hash_secret_raw(secret, salt, time_cost, memory_cost,
     parallelism, hash_len=32, type=ID); None is a HashingError *)
  hash_secret_raw : bytes → bytes → Z → Z → Z → option bytes;
  (* PasswordHasher(...).hash(password), with the salt it draws made explicit *)
  argon2_hash : Argon2Params → bytes → string → string;
  (* PasswordHasher().verify(hash, password) *)
  argon2_verify : string → string → verify_result;
  (* urllib.parse.urlsplit; None is a ValueError *)
  urlsplit : string → option SplitResult;
  (* secrets.token_urlsafe(32) and uuid.uuid4(), from the bytes they draw *)
  token_urlsafe : bytes → string;
  uuid4_of : bytes → UUID;
  uuid_str : UUID → string;
  (* pydantic's scalar validators on python input, and its json-mode
     serialisers of datetime *)
  validate_bool : pyval → option bool;
  validate_int : pyval → option Z;
  validate_uuid : pyval → option UUID;
  validate_datetime : pyval → option datetime;
  serialize_datetime : datetime → string;
}.

(** [json.loads(s)], with the exceptions it raises. *)
Definition json_loads `{L : Lib} (s : string) : outcome pyval :=
  match json_loads_result s with
  | Loaded v => Ok v
  | LoadsDecodeError => Raise JSONDecodeError
  | LoadsValueError msg => Raise (ValueError msg)
  | LoadsRecursionError => Raise RecursionError
  end.

(** ** crypto.py *)

Section Crypto.
Context `{L : Lib}.

Definition AES_GCM_NONCE_BYTES : nat := 12.
Definition AES_GCM_AAD : bytes :=
  map byte_of_ascii (list_ascii_of_string "local-vault-entry-v1").

(** [Argon2Params(memory_cost=.., time_cost=.., parallelism=..)] with the
    dataclass defaults of the last two fields. *)
Definition Argon2Params_of (m t p : Z) : Argon2Params :=
  {| memory_cost := m; time_cost := t; parallelism := p;
     hash_len := 32; salt_len := 16 |}.

Definition DEFAULT_ARGON2_PARAMS : Argon2Params :=
  {| memory_cost := 65536; time_cost := 3; parallelism := 4;
     hash_len := 32; salt_len := 16 |}.

Definition verify_password (password verifier_hash : string) : outcome bool :=
  match argon2_verify verifier_hash password with
  | VerifyTrue => Ok true
  | VerifyMismatch | VerificationFailed => Ok false
  | VerifyInvalidHash => Raise InvalidHashError
  end.

Definition derive_master_key_raw (password : string) (salt : bytes)
    (params : Argon2Params) : outcome bytes :=
  if negb ((12 <=? String.length password)%nat
           && (String.length password <=? 128)%nat) then
    Raise (ValueError "Master password must be between 12 and 128 characters.")
  else if (length salt <? 16)%nat then
    Raise (ValueError "Argon2 salt must be at least 16 bytes.")
  else
    or_raise (hash_secret_raw (utf8_encode password) salt (time_cost params)
                (memory_cost params) (parallelism params))
             HashingError.

Definition _derive_key (master_key context : bytes) : outcome bytes :=
  if negb (length master_key =? 32)%nat then
    Raise (ValueError "Master key must be 32 bytes.")
  else Ok (hkdf_sha256 context master_key).

Definition ascii_bytes (s : string) : bytes :=
  map byte_of_ascii (list_ascii_of_string s).

Definition derive_enc_key (master_key : bytes) : outcome bytes :=
  _derive_key master_key (ascii_bytes "vault/enc_key/v1").

Definition derive_audit_key (master_key : bytes) : outcome bytes :=
  _derive_key master_key (ascii_bytes "vault/audit_key/v1").

Definition derive_backup_key (master_key : bytes) : outcome bytes :=
  _derive_key master_key (ascii_bytes "vault/backup_key/v1").

Definition _canonical_json (data : pyval) : bytes :=
  utf8_encode (json_dumps data).

Record EncryptedPayload := { nonce : bytes; ciphertext : bytes }.

Definition decrypt_json (enc_key nonce ciphertext : bytes) : outcome pyval :=
  if negb (length enc_key =? 32)%nat then
    Raise (ValueError "Encryption key must be 32 bytes.")
  else if negb (length nonce =? AES_GCM_NONCE_BYTES)%nat then
    Raise (ValueError "AES-GCM nonce must be 12 bytes.")
  else
    plaintext ← or_raise (aesgcm_decrypt enc_key nonce ciphertext AES_GCM_AAD)
                  (CryptoIntegrityError "Ciphertext integrity check failed.");
    try_except
      (text ← or_raise (utf8_decode plaintext) UnicodeDecodeError;
       json_loads text)
      is_JSONDecodeError
      (λ _, Raise (CryptoIntegrityError "Decrypted payload is invalid.")).

End Crypto.

(** ** datetime arithmetic *)

(** [a < b] on datetimes: comparing a naive with an aware value raises. *)
Definition dt_lt (a b : datetime) : outcome bool :=
  match a, b with
  | Naive x, Naive y => Ok (x <? y)%Z
  | Aware x _, Aware y _ => Ok (x <? y)%Z
  | _, _ => Raise (TypeError "can't compare offset-naive and offset-aware datetimes")
  end.

(** [a > b]. *)
Definition dt_gt (a b : datetime) : outcome bool := dt_lt b a.

(** [a - b] as a timedelta in microseconds. *)
Definition dt_sub (a b : datetime) : outcome Z :=
  match a, b with
  | Naive x, Naive y => Ok (x - y)
  | Aware x _, Aware y _ => Ok (x - y)
  | _, _ => Raise (TypeError "can't subtract offset-naive and offset-aware datetimes")
  end.

(** [d + timedelta(seconds=s)]. *)
Definition dt_add_seconds (d : datetime) (s : Z) : datetime :=
  match d with
  | Naive x => Naive (x + s * 1000000)
  | Aware x off => Aware (x + s * 1000000) off
  end.

(** [d.tzinfo is None]. *)
Definition tzinfo_is_None (d : datetime) : bool :=
  match d with Naive _ => true | Aware _ _ => false end.

(** [d.replace(tzinfo=UTC)]: the wall clock is kept and read as UTC. *)
Definition replace_tzinfo_UTC (d : datetime) : datetime :=
  match d with
  | Naive x => Aware x 0
  | Aware x off => Aware (x + off * 1000000) 0
  end.

(** [int(td.total_seconds())] for a timedelta of [us] microseconds:
    truncation towards zero. *)
Definition total_seconds_int (us : Z) : Z := Z.quot us 1000000.

(** ** models.py *)

Record VaultMetadata := {
  schema_version : Z;
  hint : option string;
  argon2_salt : option bytes;
  argon2_memory_cost : option Z;
  argon2_time_cost : option Z;
  argon2_parallelism : option Z;
  pw_verifier : option string;
}.

Record EntryRecord := {
  er_id : string;
  er_nonce : bytes;
  er_ciphertext : bytes;
  er_updated_at : datetime;
}.

Record SettingsRecord := {
  auto_lock_minutes : Z;
  clipboard_clear_seconds : Z;
  require_reauth_for_copy : bool;
}.

Record AuditRecord := {
  ar_id : string;
  ar_ts : datetime;
  ar_type : string;
  ar_outcome : string;
  ar_meta : option (gmap string pyval);
}.

Record UnlockThrottleRecord := {
  failed_attempts : Z;
  next_allowed_at : option datetime;
}.

(** The tables.  The three singletons have primary key 1; [entries] and
    [audit] list their rows in table order. *)
Record Database := {
  vault_metadata : option VaultMetadata;
  unlock_throttle : option UnlockThrottleRecord;
  settings : option SettingsRecord;
  entries : list EntryRecord;
  audit : list AuditRecord;
}.

Definition empty_database : Database :=
  {| vault_metadata := None; unlock_throttle := None; settings := None;
     entries := []; audit := [] |}.

(** ** sessions.py: the data *)

Record SessionData := {
  token : string;
  csrf_token : string;
  enc_key : bytes;
  created_at : datetime;
  last_seen : datetime;
}.

(** ** The process and its surroundings *)

(** Calls whose absence the specification speaks about, recorded as they
    happen. *)
Inductive event :=
| VerifierConsulted (password verifier_hash : string)
| FileRead.

(** [committed] is the database file; [tx] is the SQLAlchemy session of the
    request in progress (rows added, flushed or changed, not yet committed);
    [sessions] is [session_store._sessions]; [clock] and [entropy] are what
    successive [datetime.now(UTC)] and [os.urandom] calls return. *)
Record World := {
  committed : Database;
  tx : Database;
  sessions : gmap string SessionData;
  app_session_idle_minutes : Z;
  clock : nat → Z;
  clock_reads : nat;
  entropy : nat → byte;
  entropy_drawn : nat;
  events : list event;
}.

Definition with_tx (w : World) (d : Database) : World :=
  {| committed := committed w; tx := d; sessions := sessions w;
     app_session_idle_minutes := app_session_idle_minutes w;
     clock := clock w; clock_reads := clock_reads w;
     entropy := entropy w; entropy_drawn := entropy_drawn w;
     events := events w |}.

Definition with_committed (w : World) (d : Database) : World :=
  {| committed := d; tx := tx w; sessions := sessions w;
     app_session_idle_minutes := app_session_idle_minutes w;
     clock := clock w; clock_reads := clock_reads w;
     entropy := entropy w; entropy_drawn := entropy_drawn w;
     events := events w |}.

Definition with_sessions (w : World) (s : gmap string SessionData) : World :=
  {| committed := committed w; tx := tx w; sessions := s;
     app_session_idle_minutes := app_session_idle_minutes w;
     clock := clock w; clock_reads := clock_reads w;
     entropy := entropy w; entropy_drawn := entropy_drawn w;
     events := events w |}.

Definition with_clock_reads (w : World) (n : nat) : World :=
  {| committed := committed w; tx := tx w; sessions := sessions w;
     app_session_idle_minutes := app_session_idle_minutes w;
     clock := clock w; clock_reads := n;
     entropy := entropy w; entropy_drawn := entropy_drawn w;
     events := events w |}.

Definition with_entropy_drawn (w : World) (n : nat) : World :=
  {| committed := committed w; tx := tx w; sessions := sessions w;
     app_session_idle_minutes := app_session_idle_minutes w;
     clock := clock w; clock_reads := clock_reads w;
     entropy := entropy w; entropy_drawn := n;
     events := events w |}.

Definition with_events (w : World) (l : list event) : World :=
  {| committed := committed w; tx := tx w; sessions := sessions w;
     app_session_idle_minutes := app_session_idle_minutes w;
     clock := clock w; clock_reads := clock_reads w;
     entropy := entropy w; entropy_drawn := entropy_drawn w;
     events := l |}.

(** Python code with effects: the world is threaded through, and a raise
    keeps the effects that happened before it. *)
Definition M (A : Type) : Type := World → outcome A * World.

#[global] Instance M_ret : MRet M := λ A a w, (Ok a, w).
#[global] Instance M_bind : MBind M := λ A B f m w,
  match m w with
  | (Ok a, w') => f a w'
  | (Raise e, w') => (Raise e, w')
  end.

Definition lift {A} (o : outcome A) : M A := λ w, (o, w).
Definition raise {A} (e : exn) : M A := λ w, (Raise e, w).
Definition get_world : M World := λ w, (Ok w, w).
Definition put_world (w' : World) : M unit := λ _, (Ok tt, w').

(** [try: body except <class>: handler]. *)
Definition try_exceptM {A} (body : M A) (catches : exn → bool)
    (handler : exn → M A) : M A := λ w,
  match body w with
  | (Ok a, w') => (Ok a, w')
  | (Raise e, w') => if catches e then handler e w' else (Raise e, w')
  end.

(** [for x in l: <body>] with effects. *)
Fixpoint for_loopM {A S} (body : S → A → M S) (s : S) (l : list A) : M S :=
  match l with
  | [] => mret s
  | x :: l' => s' ← body s x; for_loopM body s' l'
  end.

(** [datetime.now(UTC)]. *)
Definition datetime_now : M datetime := λ w,
  (Ok (Aware (clock w (clock_reads w)) 0), with_clock_reads w (S (clock_reads w))).

(** [os.urandom(n)]. *)
Definition os_urandom (n : nat) : M bytes := λ w,
  (Ok (map (λ i, entropy w (entropy_drawn w + i)%nat) (seq 0 n)),
   with_entropy_drawn w (entropy_drawn w + n)%nat).

Definition record_event (e : event) : M unit := λ w,
  (Ok tt, with_events w (events w ++ [e])).

(** The SQLAlchemy session. *)
Definition db_read : M Database := λ w, (Ok (tx w), w).
Definition db_write (d : Database) : M unit := λ w, (Ok tt, with_tx w d).

(** [db.commit()]: the flush fails when two rows of [entries] share the
    primary key.  The rows are kept as the session holds them; what a later
    session loads of them is [sqlite_reload], below. *)
Definition db_commit : M unit := λ w,
  if bool_decide (NoDup (map er_id (entries (tx w)))) then
    (Ok tt, with_committed w (tx w))
  else (Raise IntegrityError, w).

Definition db_rollback : M unit := λ w, (Ok tt, with_tx w (committed w)).

Definition set_vault_metadata (d : Database) (m : VaultMetadata) : Database :=
  {| vault_metadata := Some m; unlock_throttle := unlock_throttle d;
     settings := settings d; entries := entries d; audit := audit d |}.

Definition set_unlock_throttle (d : Database) (t : UnlockThrottleRecord) : Database :=
  {| vault_metadata := vault_metadata d; unlock_throttle := Some t;
     settings := settings d; entries := entries d; audit := audit d |}.

Definition set_settings (d : Database) (s : SettingsRecord) : Database :=
  {| vault_metadata := vault_metadata d; unlock_throttle := unlock_throttle d;
     settings := Some s; entries := entries d; audit := audit d |}.

Definition set_entries (d : Database) (l : list EntryRecord) : Database :=
  {| vault_metadata := vault_metadata d; unlock_throttle := unlock_throttle d;
     settings := settings d; entries := l; audit := audit d |}.

Definition add_audit (d : Database) (r : AuditRecord) : Database :=
  {| vault_metadata := vault_metadata d; unlock_throttle := unlock_throttle d;
     settings := settings d; entries := entries d; audit := audit d ++ [r] |}.

(** ** HTTP responses (errors.py, security.py) *)

(** [response.set_cookie(...)] and [response.delete_cookie(...)]. *)
Inductive cookie_op :=
| SetCookie (key value : string) (httponly secure : bool)
            (samesite path : string) (max_age : Z)
| DeleteCookie (key path : string).

Record Response := {
  status_code : Z;
  content : option pyval;
  cookie_ops : list cookie_op;
}.

Definition SESSION_COOKIE_NAME : string := "session_token".
Definition CSRF_COOKIE_NAME : string := "csrf_token".
Definition CSRF_HEADER_NAME : string := "X-CSRF-Token".

Definition set_session_cookies (session : SessionData) (max_age_seconds : Z)
    : list cookie_op :=
  [ SetCookie SESSION_COOKIE_NAME (token session) true false "lax" "/" max_age_seconds;
    SetCookie CSRF_COOKIE_NAME (csrf_token session) false false "lax" "/" max_age_seconds ].

Definition clear_session_cookies : list cookie_op :=
  [ DeleteCookie SESSION_COOKIE_NAME "/"; DeleteCookie CSRF_COOKIE_NAME "/" ].

Definition build_error_response (status : Z) (code message : string) : Response :=
  {| status_code := status;
     content := Some (PDict {[ "error" :=
                  PDict (<["code" := PStr code]> {[ "message" := PStr message ]}) ]});
     cookie_ops := [] |}.

(** [app_error_handler] and [unhandled_exception_handler], as registered by
    [register_exception_handlers]. *)
Definition exception_response (e : exn) : Response :=
  match e with
  | AppError code message status => build_error_response status code message
  | _ => build_error_response 500 "INTERNAL_ERROR" "Unexpected error."
  end.

(** One request through [get_db_session] and the exception handlers: the
    endpoint runs on a fresh SQLAlchemy session, which is closed afterwards,
    so that whatever was not committed is gone. *)
Definition run_endpoint (endpoint : M Response) : World → Response * World := λ w,
  match endpoint (with_tx w (committed w)) with
  | (Ok r, w') => (r, with_tx w' (committed w'))
  | (Raise e, w') => (exception_response e, with_tx w' (committed w'))
  end.

(** ** db.py: what the next session reads

    The engine is SQLite, whose [DateTime] type stores the date and time
    fields of a value and not its timezone ([timezone=True] makes no
    difference there), and every request runs on a session of its own.  A
    datetime that one request committed is a naive one, with the same
    wall-clock fields, for the requests after it.  [run_endpoint] is one
    request on the rows as it finds them; what a request finds after
    another one is [sqlite_reload] of what that one committed. *)
Definition sqlite_datetime (d : datetime) : datetime :=
  match d with
  | Naive wall => Naive wall
  | Aware utc offset => Naive (utc + offset * 1000000)
  end.

Definition sqlite_reload (d : Database) : Database :=
  {| vault_metadata := vault_metadata d;
     unlock_throttle :=
       (λ t, {| failed_attempts := failed_attempts t;
                next_allowed_at := sqlite_datetime <$> next_allowed_at t |})
       <$> unlock_throttle d;
     settings := settings d;
     entries :=
       (λ row, {| er_id := er_id row; er_nonce := er_nonce row;
                  er_ciphertext := er_ciphertext row;
                  er_updated_at := sqlite_datetime (er_updated_at row) |})
       <$> entries d;
     audit :=
       (λ row, {| ar_id := ar_id row; ar_ts := sqlite_datetime (ar_ts row);
                  ar_type := ar_type row; ar_outcome := ar_outcome row;
                  ar_meta := ar_meta row |})
       <$> audit d |}.

(** The world as the next request finds it. *)
Definition next_request (w : World) : World :=
  with_committed w (sqlite_reload (committed w)).

Section App.
Context `{L : Lib}.

(** ** audit.py *)

Definition FORBIDDEN_META_HINTS : list string :=
  ["password"; "secret"; "token"; "key"; "master"].

(** [any(hint in lowered for hint in FORBIDDEN_META_HINTS)]. *)
Definition has_forbidden_hint (key : string) : bool :=
  existsb (λ hint, str_contains hint (str_lower key)) FORBIDDEN_META_HINTS.

(** [isinstance(value, bool | str | int | float)]. *)
Definition is_bool_str_int_float (value : pyval) : bool :=
  match value with
  | PBool _ | PStr _ | PInt _ | PFloat _ => true
  | _ => false
  end.

(** The loop body of [_sanitize_meta]. *)
Definition sanitize_step (key : string) (value : pyval)
    (sanitized : gmap string pyval) : gmap string pyval :=
  if has_forbidden_hint key then sanitized
  else if is_bool_str_int_float value then <[key := value]> sanitized
  else sanitized.

Definition _sanitize_meta (meta : option (gmap string pyval))
    : option (gmap string pyval) :=
  match meta with
  | None => None
  | Some m =>
      if (size m =? 0)%nat then None
      else
        let sanitized := map_fold sanitize_step ∅ m in
        if (size sanitized =? 0)%nat then None else Some sanitized
  end.

Definition write_audit_event (event_type outcome : string)
    (meta : option (gmap string pyval)) : M unit :=
  id_bytes ← os_urandom 16;
  ts ← datetime_now;
  let record := {| ar_id := uuid_str (uuid4_of id_bytes); ar_ts := ts;
                   ar_type := event_type; ar_outcome := outcome;
                   ar_meta := _sanitize_meta meta |} in
  d ← db_read;
  db_write (add_audit d record).

(** ** sessions.py *)

Definition idle_timeout_us (w : World) : Z :=
  app_session_idle_minutes w * 60 * 1000000.

Definition set_last_seen (s : SessionData) (now : datetime) : SessionData :=
  {| token := token s; csrf_token := csrf_token s; enc_key := enc_key s;
     created_at := created_at s; last_seen := now |}.

Definition create_session (key : bytes) : M SessionData :=
  if negb (length key =? 32)%nat then
    raise (ValueError "Session encryption key must be 32 bytes.")
  else
    now ← datetime_now;
    token_bytes ← os_urandom 32;
    csrf_bytes ← os_urandom 32;
    let session := {| token := token_urlsafe token_bytes;
                      csrf_token := token_urlsafe csrf_bytes;
                      enc_key := key; created_at := now; last_seen := now |} in
    w ← get_world;
    put_world (with_sessions w (<[token session := session]> (sessions w)));;
    mret session.

Definition get_session (token : option string) : M (option SessionData) :=
  if negb (str_truthy token) then mret None
  else
    let tok := default "" token in
    now ← datetime_now;
    w ← get_world;
    match sessions w !! tok with
    | None => mret None
    | Some session =>
        idle ← lift (dt_sub now (last_seen session));
        if (idle >? idle_timeout_us w)%Z then
          put_world (with_sessions w (delete tok (sessions w)));;
          mret None
        else
          let session' := set_last_seen session now in
          put_world (with_sessions w (<[tok := session']> (sessions w)));;
          mret (Some session')
    end.

Definition peek_session (token : option string) : M (option SessionData) :=
  if negb (str_truthy token) then mret None
  else
    let tok := default "" token in
    now ← datetime_now;
    w ← get_world;
    match sessions w !! tok with
    | None => mret None
    | Some session =>
        idle ← lift (dt_sub now (last_seen session));
        if (idle >? idle_timeout_us w)%Z then
          put_world (with_sessions w (delete tok (sessions w)));;
          mret None
        else mret (Some session)
    end.

Definition destroy_session (token : option string) : M unit :=
  if negb (str_truthy token) then mret tt
  else
    w ← get_world;
    put_world (with_sessions w (delete (default "" token) (sessions w))).

Definition clear_sessions : M unit :=
  w ← get_world; put_world (with_sessions w ∅).


(** ** middleware.py *)

(** The ASGI connection scope, with the keys the middleware reads;
    a missing key is [None]. *)
Record Scope := {
  scope_type : string;
  scope_method : option string;
  scope_path : option string;
  scope_headers : option (list (bytes * bytes));
}.

Definition STATE_CHANGING_METHODS : list string :=
  ["POST"; "PUT"; "DELETE"; "PATCH"].

Definition CSRF_EXEMPT_PATHS : list string :=
  ["/vault/setup"; "/vault/unlock"; "/health"; "/openapi.json"; "/docs";
   "/docs/oauth2-redirect"; "/redoc"].

(** [s.split(sep)] for a one-character separator. *)
Fixpoint str_split (sep : ascii) (s : string) : list string :=
  match s with
  | EmptyString => [EmptyString]
  | String c rest =>
      if Ascii.eqb c sep then EmptyString :: str_split sep rest
      else match str_split sep rest with
           | [] => [String c EmptyString]
           | h :: t => String c h :: t
           end
  end.

(** [s.split(sep, 1)] when [sep in s]; [None] when it is not. *)
Fixpoint str_split_once (sep : ascii) (s : string) : option (string * string) :=
  match s with
  | EmptyString => None
  | String c rest =>
      if Ascii.eqb c sep then Some (EmptyString, rest)
      else match str_split_once sep rest with
           | Some (a, b) => Some (String c a, b)
           | None => None
           end
  end.

Definition parse_cookie_item (result : gmap string string) (item : string)
    : gmap string string :=
  let chunk := str_strip item in
  if String.eqb chunk "" then result
  else match str_split_once "="%char chunk with
       | None => result
       | Some (key, value) => <[str_strip key := str_strip value]> result
       end.

Definition _parse_cookies (raw_cookie_header : string) : gmap string string :=
  if String.eqb raw_cookie_header "" then ∅
  else fold_left parse_cookie_item (str_split ";"%char raw_cookie_header) ∅.

(** [{k.decode("latin1").lower(): v.decode("latin1") for k, v in headers_raw}]. *)
Definition decode_headers (headers_raw : list (bytes * bytes)) : gmap string string :=
  fold_left (λ acc kv, <[str_lower (latin1_decode kv.1) := latin1_decode kv.2]> acc)
            headers_raw ∅.

Definition unauthorized_response : Response :=
  build_error_response 401 "UNAUTHORIZED" "Authentication required.".

Definition csrf_invalid_response : Response :=
  build_error_response 403 "CSRF_INVALID" "Request not allowed.".

(** [CSRFMiddleware.__call__]; [app] is the wrapped application applied to
    the same scope. *)
Definition CSRFMiddleware (scope : Scope) (app : M Response) : M Response :=
  if negb (String.eqb (scope_type scope) "http") then app
  else
    let method := str_upper (default "" (scope_method scope)) in
    let path := default "" (scope_path scope) in
    if String.eqb method "OPTIONS"
       || negb (bool_decide (method ∈ STATE_CHANGING_METHODS))
       || bool_decide (path ∈ CSRF_EXEMPT_PATHS)
    then app
    else
      let headers := decode_headers (default [] (scope_headers scope)) in
      let cookie_header := default "" (headers !! "cookie") in
      let cookies := _parse_cookies cookie_header in
      let session_token := cookies !! SESSION_COOKIE_NAME in
      let csrf_cookie := cookies !! CSRF_COOKIE_NAME in
      let csrf_header := headers !! str_lower CSRF_HEADER_NAME in
      if negb (str_truthy session_token) then mret unauthorized_response
      else
        session ← get_session session_token;
        match session with
        | None => mret unauthorized_response
        | Some session =>
            if negb (str_truthy csrf_cookie) || negb (str_truthy csrf_header)
            then mret csrf_invalid_response
            else if negb (bool_decide (csrf_cookie = csrf_header))
                    || negb (bool_decide (Some (csrf_token session) = csrf_header))
            then mret csrf_invalid_response
            else app
        end.


(** ** crypto.py, the functions that draw random bytes *)

Definition generate_argon2_salt (length : Z) : M bytes :=
  if (length <? 16)%Z then raise (ValueError "Salt length must be at least 16 bytes.")
  else os_urandom (Z.to_nat length).

(** [PasswordHasher(...).hash(password)] draws a salt of [salt_len] bytes. *)
Definition hash_password_verifier (password : string) (params : Argon2Params)
    : M string :=
  drawn_salt ← os_urandom (Z.to_nat (salt_len params));
  mret (argon2_hash params drawn_salt password).

Definition encrypt_json (key : bytes) (obj : pyval) : M EncryptedPayload :=
  if negb (length key =? 32)%nat then
    raise (ValueError "Encryption key must be 32 bytes.")
  else
    drawn ← os_urandom AES_GCM_NONCE_BYTES;
    let plaintext := _canonical_json obj in
    mret {| nonce := drawn;
            ciphertext := aesgcm_encrypt key drawn plaintext AES_GCM_AAD |}.

(** ** schemas.py *)

Record Entry := {
  title : string;
  url : option string;
  username : string;
  password : string;
  notes : option string;
  tags : list string;
  favorite : bool;
  entry_id : UUID;
  updatedAt : datetime;
}.

Record EntrySummary := {
  es_id : UUID;
  es_title : string;
  es_username : string;
  es_url : option string;
  es_favorite : bool;
  es_updatedAt : datetime;
}.

Record SettingsModel := {
  autoLockMinutes : Z;
  clipboardClearSeconds : Z;
  requireReauthForCopy : bool;
}.

Record BackupImportPreviewResponse := {
  added : Z;
  updated : Z;
  skipped : Z;
  errors : list string;
}.

(** [extra="forbid"]: every key of the input names a field. *)
Definition no_extra_keys (fields : list string) (m : gmap string pyval) : bool :=
  forallb (λ kv, bool_decide (kv.1 ∈ fields)) (map_to_list m).

(** A [str] field with [StringConstraints(min_length, max_length)];
    [strip] is the model's [str_strip_whitespace]. *)
Definition validate_str (strip : bool) (min_length : nat) (max_length : option nat)
    (v : pyval) : option string :=
  match v with
  | PStr s =>
      let s := if strip then strip_whitespace s else s in
      if (min_length <=? String.length s)%nat
         && match max_length with
            | Some n => (String.length s <=? n)%nat
            | None => true
            end
      then Some s else None
  | _ => None
  end.

(** [T | None]. *)
Definition validate_optional {A} (validate : pyval → option A) (v : pyval)
    : option (option A) :=
  match v with
  | PNone => Some None
  | _ => Some <$> validate v
  end.

(** A field that may be left out of the input. *)
Definition with_default {A} (field : option pyval) (validate : pyval → option A)
    (default_value : A) : option A :=
  match field with
  | None => Some default_value
  | Some v => validate v
  end.

(** A field that must be present. *)
Definition required {A} (field : option pyval) (validate : pyval → option A)
    : option A :=
  v ← field; validate v.

(** [TAG_PATTERN.fullmatch(tag)] for [^[A-Za-z0-9 _-]+$]. *)
Definition tag_char (c : ascii) : bool :=
  let n := N_of_ascii c in
  ((65 <=? n) && (n <=? 90) || (97 <=? n) && (n <=? 122)
   || (48 <=? n) && (n <=? 57) || (n =? 32) || (n =? 95) || (n =? 45))%N.

Definition TAG_PATTERN_fullmatch (tag : string) : bool :=
  negb (String.eqb tag "") && forallb tag_char (list_ascii_of_string tag).

(** [EntryBase.validate_url_scheme]; [None] is the raised [ValueError]. *)
Definition validate_url_scheme (value : option string) : option (option string) :=
  match value with
  | None => Some None
  | Some v =>
      if String.eqb v "" then Some None
      else
        parts ← urlsplit v;
        if negb (bool_decide (str_lower (scheme parts) ∈ ["http"; "https"])) then None
        else if String.eqb (netloc parts) "" then None
        else Some (Some v)
  end.

(** [EntryBase.validate_tags]. *)
Definition validate_tags (values : list string) : option (list string) :=
  mapM (λ tag, if TAG_PATTERN_fullmatch tag then Some tag else None) values.

Definition Entry_fields : list string :=
  ["title"; "url"; "username"; "password"; "notes"; "tags"; "favorite";
   "id"; "updatedAt"].

(** [Entry.model_validate(payload)]; [None] is the [ValidationError]. *)
Definition Entry_model_validate (payload : pyval) : option Entry :=
  match payload with
  | PDict m =>
      if negb (no_extra_keys Entry_fields m) then None
      else
        title ← required (m !! "title") (validate_str true 1 (Some 128%nat));
        url ← with_default (m !! "url")
                (validate_optional (validate_str true 0 None)) None;
        url ← validate_url_scheme url;
        username ← required (m !! "username") (validate_str true 1 (Some 128%nat));
        password ← required (m !! "password") (validate_str true 1 (Some 256%nat));
        notes ← with_default (m !! "notes")
                  (validate_optional (validate_str true 0 (Some 2000%nat))) None;
        tags ← with_default (m !! "tags")
                 (λ v, match v with
                       | PList l =>
                           ts ← mapM (validate_str true 1 (Some 24%nat)) l;
                           if (length ts <=? 10)%nat then validate_tags ts else None
                       | _ => None
                       end) [];
        favorite ← with_default (m !! "favorite") validate_bool false;
        id ← required (m !! "id") validate_uuid;
        updatedAt ← required (m !! "updatedAt") validate_datetime;
        Some {| title := title; url := url; username := username;
                password := password; notes := notes; tags := tags;
                favorite := favorite; entry_id := id; updatedAt := updatedAt |}
  | _ => None
  end.

Definition dump_optional_str (s : option string) : pyval :=
  match s with Some s => PStr s | None => PNone end.

(** [entry.model_dump(mode="json")]. *)
Definition Entry_model_dump (e : Entry) : pyval :=
  PDict (list_to_map
    [("title", PStr (title e)); ("url", dump_optional_str (url e));
     ("username", PStr (username e)); ("password", PStr (password e));
     ("notes", dump_optional_str (notes e)); ("tags", PList (PStr <$> tags e));
     ("favorite", PBool (favorite e)); ("id", PStr (uuid_str (entry_id e)));
     ("updatedAt", PStr (serialize_datetime (updatedAt e)))]).

(** The JSON object FastAPI sends for an [EntrySummary]. *)
Definition EntrySummary_model_dump (s : EntrySummary) : pyval :=
  PDict (list_to_map
    [("id", PStr (uuid_str (es_id s))); ("title", PStr (es_title s));
     ("username", PStr (es_username s)); ("url", dump_optional_str (es_url s));
     ("favorite", PBool (es_favorite s));
     ("updatedAt", PStr (serialize_datetime (es_updatedAt s)))]).

Definition validate_int_range (ge le : Z) (v : pyval) : option Z :=
  n ← validate_int v;
  if (ge <=? n)%Z && (n <=? le)%Z then Some n else None.

Definition SettingsModel_fields : list string :=
  ["autoLockMinutes"; "clipboardClearSeconds"; "requireReauthForCopy"].

Definition SettingsModel_model_validate (payload : pyval) : option SettingsModel :=
  match payload with
  | PDict m =>
      if negb (no_extra_keys SettingsModel_fields m) then None
      else
        a ← required (m !! "autoLockMinutes") (validate_int_range 1 120);
        c ← required (m !! "clipboardClearSeconds") (validate_int_range 5 120);
        r ← required (m !! "requireReauthForCopy") validate_bool;
        Some {| autoLockMinutes := a; clipboardClearSeconds := c;
                requireReauthForCopy := r |}
  | _ => None
  end.

Definition SettingsModel_model_dump (s : SettingsModel) : pyval :=
  PDict (list_to_map
    [("autoLockMinutes", PInt (autoLockMinutes s));
     ("clipboardClearSeconds", PInt (clipboardClearSeconds s));
     ("requireReauthForCopy", PBool (requireReauthForCopy s))]).

Definition BackupImportPreviewResponse_model_dump (r : BackupImportPreviewResponse)
    : pyval :=
  PDict (list_to_map
    [("added", PInt (added r)); ("updated", PInt (updated r));
     ("skipped", PInt (skipped r)); ("errors", PList (PStr <$> errors r))]).


(** ** backup.py *)

Record BackupKDFParams := {
  memoryCost : Z;
  timeCost : Z;
  kdf_parallelism : Z;
}.

Record BackupCipherPayload := {
  payload_nonce : string;
  payload_ciphertext : string;
}.

Record BackupEnvelope := {
  version : Z;
  createdAt : datetime;
  kdfParams : option BackupKDFParams;
  salt : option string;
  export : BackupCipherPayload;
  note : string;
}.

Record BackupBundle := {
  bundle_entries : list Entry;
  bundle_settings : SettingsModel;
  exportedAt : datetime;
}.

Definition validate_int_gt (bound : Z) (v : pyval) : option Z :=
  n ← validate_int v;
  if (bound <? n)%Z then Some n else None.

Definition BackupKDFParams_model_validate (payload : pyval) : option BackupKDFParams :=
  match payload with
  | PDict m =>
      if negb (no_extra_keys ["memoryCost"; "timeCost"; "parallelism"] m) then None
      else
        mc ← required (m !! "memoryCost") (validate_int_gt 0);
        tc ← required (m !! "timeCost") (validate_int_gt 0);
        pa ← required (m !! "parallelism") (validate_int_gt 0);
        Some {| memoryCost := mc; timeCost := tc; kdf_parallelism := pa |}
  | _ => None
  end.

Definition BackupCipherPayload_model_validate (payload : pyval)
    : option BackupCipherPayload :=
  match payload with
  | PDict m =>
      if negb (no_extra_keys ["nonce"; "ciphertext"] m) then None
      else
        n ← required (m !! "nonce") (validate_str false 0 None);
        c ← required (m !! "ciphertext") (validate_str false 0 None);
        Some {| payload_nonce := n; payload_ciphertext := c |}
  | _ => None
  end.

Definition BackupEnvelope_model_validate (payload : pyval) : option BackupEnvelope :=
  match payload with
  | PDict m =>
      if negb (no_extra_keys
                 ["version"; "createdAt"; "kdfParams"; "salt"; "export"; "note"] m)
      then None
      else
        v ← with_default (m !! "version") validate_int 1;
        c ← required (m !! "createdAt") validate_datetime;
        k ← with_default (m !! "kdfParams")
              (validate_optional BackupKDFParams_model_validate) None;
        s ← with_default (m !! "salt")
              (validate_optional (validate_str false 0 None)) None;
        e ← required (m !! "export") BackupCipherPayload_model_validate;
        n ← with_default (m !! "note") (validate_str false 0 None) "encrypted-only";
        Some {| version := v; createdAt := c; kdfParams := k; salt := s;
                export := e; note := n |}
  | _ => None
  end.

Definition BackupBundle_model_validate (payload : pyval) : option BackupBundle :=
  match payload with
  | PDict m =>
      if negb (no_extra_keys ["entries"; "settings"; "exportedAt"] m) then None
      else
        es ← required (m !! "entries")
               (λ v, match v with
                     | PList l => mapM Entry_model_validate l
                     | _ => None
                     end);
        st ← required (m !! "settings") SettingsModel_model_validate;
        ex ← required (m !! "exportedAt") validate_datetime;
        Some {| bundle_entries := es; bundle_settings := st; exportedAt := ex |}
  | _ => None
  end.

(** [bundle.model_dump(mode="json")]. *)
Definition BackupBundle_model_dump (b : BackupBundle) : pyval :=
  PDict (list_to_map
    [("entries", PList (Entry_model_dump <$> bundle_entries b));
     ("settings", SettingsModel_model_dump (bundle_settings b));
     ("exportedAt", PStr (serialize_datetime (exportedAt b)))]).

Definition _b64encode (data : bytes) : string := b64encode data.

Definition _b64decode (value : string) : outcome bytes :=
  or_raise (b64decode value) (ValueError "Invalid backup encoding.").

Definition build_backup_envelope (entries : list Entry) (settings : SettingsModel)
    (session_enc_key : bytes) (export_password : option string)
    : M BackupEnvelope :=
  if negb (length session_enc_key =? 32)%nat then
    raise (ValueError "Session key unavailable.")
  else
    now ← datetime_now;
    let bundle := {| bundle_entries := entries; bundle_settings := settings;
                     exportedAt := now |} in
    '(backup_key, kdf_params, salt_b64) ←
      (if str_truthy export_password then
         drawn_salt ← generate_argon2_salt (salt_len DEFAULT_ARGON2_PARAMS);
         master_key ← lift (derive_master_key_raw (default "" export_password)
                              drawn_salt DEFAULT_ARGON2_PARAMS);
         backup_key ← lift (derive_backup_key master_key);
         mret (backup_key,
               Some {| memoryCost := memory_cost DEFAULT_ARGON2_PARAMS;
                       timeCost := time_cost DEFAULT_ARGON2_PARAMS;
                       kdf_parallelism := parallelism DEFAULT_ARGON2_PARAMS |},
               Some (_b64encode drawn_salt))
       else mret (session_enc_key, None, None));
    encrypted ← encrypt_json backup_key (BackupBundle_model_dump bundle);
    created ← datetime_now;
    mret {| version := 1; createdAt := created; kdfParams := kdf_params;
            salt := salt_b64;
            export := {| payload_nonce := _b64encode (nonce encrypted);
                         payload_ciphertext := _b64encode (ciphertext encrypted) |};
            note := "encrypted-only" |}.

Definition invalid_backup_file : exn := ValueError "Invalid backup file.".

Definition parse_backup_json (raw_bytes : bytes) : outcome BackupEnvelope :=
  raw_text ← or_raise (utf8_decode raw_bytes) invalid_backup_file;
  parsed ← try_except (json_loads raw_text) is_JSONDecodeError
             (λ _, Raise invalid_backup_file);
  or_raise (BackupEnvelope_model_validate parsed) invalid_backup_file.

Definition _resolve_import_key (envelope : BackupEnvelope) (session_enc_key : bytes)
    (import_password : option string) : outcome bytes :=
  match kdfParams envelope, salt envelope with
  | None, None => Ok session_enc_key
  | Some kdf, Some salt_b64 =>
      if negb (str_truthy import_password) then
        Raise (ValueError "Import password required.")
      else
        drawn_salt ← _b64decode salt_b64;
        let params := Argon2Params_of (memoryCost kdf) (timeCost kdf)
                        (kdf_parallelism kdf) in
        master_key ← derive_master_key_raw (default "" import_password)
                       drawn_salt params;
        derive_backup_key master_key
  | _, _ => Raise invalid_backup_file
  end.

Definition load_backup_bundle (envelope : BackupEnvelope) (session_enc_key : bytes)
    (import_password : option string) : outcome BackupBundle :=
  key ← _resolve_import_key envelope session_enc_key import_password;
  nonce ← _b64decode (payload_nonce (export envelope));
  ciphertext ← _b64decode (payload_ciphertext (export envelope));
  decrypted ← try_except (decrypt_json key nonce ciphertext) is_CryptoIntegrityError
                 (λ _, Raise (ValueError "Backup decryption failed."));
  or_raise (BackupBundle_model_validate decrypted) invalid_backup_file.


(** ** routes/vault.py *)

(** [request.cookies]: Starlette's own parse of the Cookie header, kept
    apart from the middleware's [_parse_cookies]. *)
Record Request := {
  request_scope : Scope;
  request_cookies : gmap string string;
}.

Record VaultSetupRequest := {
  setup_masterPassword : string;
  setup_hint : option string;
}.

Record VaultUnlockRequest := {
  masterPassword : string;
}.

Definition GenericOkResponse_model_dump (ok : bool) : pyval :=
  PDict {[ "ok" := PBool ok ]}.

Definition VaultStatusResponse_model_dump (status : string) : pyval :=
  PDict {[ "status" := PStr status ]}.

Definition _get_vault_metadata : M (option VaultMetadata) :=
  d ← db_read; mret (vault_metadata d).

Definition _get_or_create_unlock_throttle : M UnlockThrottleRecord :=
  d ← db_read;
  match unlock_throttle d with
  | Some throttle => mret throttle
  | None =>
      let throttle := {| failed_attempts := 0; next_allowed_at := None |} in
      db_write (set_unlock_throttle d throttle);;
      mret throttle
  end.

Definition _get_or_create_settings : M SettingsRecord :=
  d ← db_read;
  match settings d with
  | Some app_settings => mret app_settings
  | None =>
      let app_settings := {| auto_lock_minutes := 5; clipboard_clear_seconds := 15;
                             require_reauth_for_copy := true |} in
      db_write (set_settings d app_settings);;
      mret app_settings
  end.

Definition vault_status (request : Request) : M Response :=
  metadata ← _get_vault_metadata;
  if negb (str_truthy (metadata ≫= pw_verifier)) then
    mret {| status_code := 200;
            content := Some (VaultStatusResponse_model_dump "NO_VAULT");
            cookie_ops := [] |}
  else
    current_session ← peek_session (request_cookies request !! SESSION_COOKIE_NAME);
    mret {| status_code := 200;
            content := Some (VaultStatusResponse_model_dump
                               (match current_session with
                                | None => "LOCKED"
                                | Some _ => "UNLOCKED"
                                end));
            cookie_ops := [] |}.

Definition vault_setup (payload : VaultSetupRequest) : M Response :=
  metadata ← _get_vault_metadata;
  if str_truthy (metadata ≫= pw_verifier) then
    write_audit_event "VAULT_SETUP" "FAILURE"
      (Some {[ "reason" := PStr "already_initialized" ]});;
    db_commit;;
    raise (AppError "VAULT_EXISTS" "Vault already initialized." 409)
  else
    drawn_salt ← generate_argon2_salt (salt_len DEFAULT_ARGON2_PARAMS);
    verifier ← hash_password_verifier (setup_masterPassword payload)
                 DEFAULT_ARGON2_PARAMS;
    let metadata :=
      {| schema_version := 1;
         hint := setup_hint payload;
         argon2_salt := Some drawn_salt;
         argon2_memory_cost := Some (memory_cost DEFAULT_ARGON2_PARAMS);
         argon2_time_cost := Some (time_cost DEFAULT_ARGON2_PARAMS);
         argon2_parallelism := Some (parallelism DEFAULT_ARGON2_PARAMS);
         pw_verifier := Some verifier |} in
    d ← db_read;
    db_write (set_vault_metadata d metadata);;
    _get_or_create_settings;;
    _get_or_create_unlock_throttle;;
    write_audit_event "VAULT_SETUP" "SUCCESS"
      (Some {[ "hint_set" := PBool (str_truthy (setup_hint payload)) ]});;
    db_commit;;
    mret {| status_code := 201; content := Some (GenericOkResponse_model_dump true);
            cookie_ops := [] |}.

(** [min(300, 2 ** min(failed_attempts, 8))].  (For a negative count Python's
    power is a float; the model's is 0.  The count is never negative in a
    row the code has written.) *)
Definition delay_seconds_of (failed_attempts : Z) : Z :=
  Z.min 300 (2 ^ Z.min failed_attempts 8).

(** [throttle.next_allowed_at and now < throttle.next_allowed_at]. *)
Definition throttle_gate (throttle : UnlockThrottleRecord) (now : datetime)
    : outcome bool :=
  match next_allowed_at throttle with
  | None => Ok false
  | Some t => dt_lt now t
  end.

Definition vault_unlock (payload : VaultUnlockRequest) : M Response :=
  metadata ← _get_vault_metadata;
  if negb (str_truthy (metadata ≫= pw_verifier)) then
    write_audit_event "VAULT_UNLOCK" "FAILURE"
      (Some {[ "reason" := PStr "vault_missing" ]});;
    db_commit;;
    raise (AppError "VAULT_NOT_INITIALIZED" "Vault not initialized." 400)
  else
    match metadata ≫= pw_verifier, metadata ≫= argon2_salt,
          metadata ≫= argon2_memory_cost, metadata ≫= argon2_time_cost,
          metadata ≫= argon2_parallelism with
    | Some verifier, Some vault_salt, Some mem, Some time, Some par =>
        throttle ← _get_or_create_unlock_throttle;
        now ← datetime_now;
        throttled ← lift (throttle_gate throttle now);
        if (throttled : bool) then
          remaining ← lift (dt_sub (default now (next_allowed_at throttle)) now);
          let retry_after_seconds := Z.max 1 (total_seconds_int remaining) in
          write_audit_event "VAULT_UNLOCK" "FAILURE"
            (Some (<["reason" := PStr "throttled"]>
                     {[ "retry_after_seconds" := PInt retry_after_seconds ]}));;
          db_commit;;
          raise (AppError "RATE_LIMITED" "Too many attempts. Try again later." 429)
        else
          record_event (VerifierConsulted (masterPassword payload) verifier);;
          verified ← lift (verify_password (masterPassword payload) verifier);
          if negb verified then
            let attempts := (failed_attempts throttle + 1)%Z in
            let delay_seconds := delay_seconds_of attempts in
            let throttle := {| failed_attempts := attempts;
                               next_allowed_at :=
                                 Some (dt_add_seconds now delay_seconds) |} in
            d ← db_read;
            db_write (set_unlock_throttle d throttle);;
            write_audit_event "VAULT_UNLOCK" "FAILURE"
              (Some (<["failed_attempts" := PInt attempts]>
                       {[ "delay_seconds" := PInt delay_seconds ]}));;
            db_commit;;
            raise (AppError "UNAUTHORIZED" "Unlock failed." 401)
          else
            let params := Argon2Params_of mem time par in
            master_key ← lift (derive_master_key_raw (masterPassword payload)
                                 vault_salt params);
            key ← lift (derive_enc_key master_key);
            d ← db_read;
            db_write (set_unlock_throttle d
                        {| failed_attempts := 0; next_allowed_at := None |});;
            active_session ← create_session key;
            w ← get_world;
            let cookies := set_session_cookies active_session
                             (app_session_idle_minutes w * 60) in
            write_audit_event "VAULT_UNLOCK" "SUCCESS" None;;
            db_commit;;
            mret {| status_code := 200;
                    content := Some (GenericOkResponse_model_dump true);
                    cookie_ops := cookies |}
    | _, _, _, _, _ =>
        raise (AppError "VAULT_INVALID" "Vault unavailable." 500)
    end.

Definition vault_lock (request : Request) : M Response :=
  let session_token := request_cookies request !! SESSION_COOKIE_NAME in
  destroy_session session_token;;
  write_audit_event "VAULT_LOCK" "SUCCESS" None;;
  db_commit;;
  mret {| status_code := 204; content := None; cookie_ops := clear_session_cookies |}.


(** ** routes/entries.py *)

Definition _require_unlocked_session (request : Request) : M SessionData :=
  session ← get_session (request_cookies request !! SESSION_COOKIE_NAME);
  match session with
  | None => raise (AppError "UNAUTHORIZED" "Authentication required." 401)
  | Some session => mret session
  end.

Definition entry_unavailable : exn :=
  AppError "ENTRY_UNAVAILABLE" "Entry unavailable." 500.

Definition _decrypt_entry (row : EntryRecord) (key : bytes) : outcome Entry :=
  payload ← try_except (decrypt_json key (er_nonce row) (er_ciphertext row))
               is_CryptoIntegrityError (λ _, Raise entry_unavailable);
  or_raise (Entry_model_validate payload) entry_unavailable.

Definition _to_summary (entry : Entry) : EntrySummary :=
  {| es_id := entry_id entry; es_title := title entry;
     es_username := username entry; es_url := url entry;
     es_favorite := favorite entry; es_updatedAt := updatedAt entry |}.

(** [entries.sort(key=lambda item: item.updatedAt, reverse=True)]: a stable
    sort, largest key first, by the keys' own [<], which raises between a
    naive and an aware datetime.  [insert_desc] puts an entry in front of
    the entries that followed it in the list, already sorted. *)
Fixpoint insert_desc (x : Entry) (l : list Entry) : outcome (list Entry) :=
  match l with
  | [] => Ok [x]
  | y :: l' =>
      lt ← dt_lt (updatedAt x) (updatedAt y);
      if (lt : bool) then r ← insert_desc x l'; Ok (y :: r)
      else Ok (x :: y :: l')
  end.

Definition sort_updatedAt_desc (l : list Entry) : outcome (list Entry) :=
  foldr (λ x sorted, sorted ← sorted; insert_desc x sorted) (Ok []) l.

(** The handler of GET /entries: its return value. *)
Definition list_entries (request : Request) : M (list EntrySummary) :=
  session ← _require_unlocked_session request;
  d ← db_read;
  let rows := entries d in
  decrypted ← lift (mapM (λ row, _decrypt_entry row (enc_key session)) rows);
  sorted ← lift (sort_updatedAt_desc decrypted);
  let summaries := _to_summary <$> sorted in
  write_audit_event "ENTRY_LIST" "SUCCESS"
    (Some {[ "count" := PInt (Z.of_nat (length summaries)) ]});;
  db_commit;;
  mret summaries.

(** The response FastAPI builds from it ([response_model=list[EntrySummary]]). *)
Definition list_entries_endpoint (request : Request) : M Response :=
  summaries ← list_entries request;
  mret {| status_code := 200;
          content := Some (PList (EntrySummary_model_dump <$> summaries));
          cookie_ops := [] |}.

(** ** routes/backup.py *)

Record UploadFile := {
  filename : option string;
  file_content : bytes;
}.

(** [await file.read()]. *)
Definition file_read (file : UploadFile) : M bytes :=
  record_event FileRead;; mret (file_content file).

(** [existing_updated.replace(tzinfo=UTC) if existing_updated.tzinfo is None]. *)
Definition as_utc (d : datetime) : datetime :=
  if tzinfo_is_None d then replace_tzinfo_UTC d else d.

(** [{row.id: row for row in existing_rows}]. *)
Definition existing_map_of (rows : list EntryRecord) : gmap string EntryRecord :=
  fold_left (λ acc row, <[er_id row := row]> acc) rows ∅.

(** The loop of [_compute_import_summary]: the counters after one entry. *)
Definition import_summary_step (existing_map : gmap string EntryRecord)
    (counts : Z * Z * Z) (incoming : Entry) : outcome (Z * Z * Z) :=
  let '(added, updated, skipped) := counts in
  match existing_map !! uuid_str (entry_id incoming) with
  | None => Ok ((added + 1)%Z, updated, skipped)
  | Some existing =>
      let existing_updated := as_utc (er_updated_at existing) in
      let incoming_updated := as_utc (updatedAt incoming) in
      newer ← dt_gt incoming_updated existing_updated;
      if (newer : bool) then Ok (added, (updated + 1)%Z, skipped)
      else Ok (added, updated, (skipped + 1)%Z)
  end.

Definition _compute_import_summary (incoming_entries : list Entry)
    : M (Z * Z * Z * list string * gmap string EntryRecord) :=
  d ← db_read;
  let existing_map := existing_map_of (entries d) in
  '(added, updated, skipped) ←
      lift (for_loop (import_summary_step existing_map) (0, 0, 0)%Z incoming_entries);
  mret (added, updated, skipped, [], existing_map).


Definition invalid_backup_preview : BackupImportPreviewResponse :=
  {| added := 0; updated := 0; skipped := 0; errors := ["Invalid backup file."] |}.

(** [not file.filename or not file.filename.lower().endswith(".json")]. *)
Definition bad_backup_filename (file : UploadFile) : bool :=
  negb (str_truthy (filename file))
  || negb (str_endswith ".json" (str_lower (default "" (filename file)))).

Definition summary_meta (added updated skipped errors : Z) : gmap string pyval :=
  <["added" := PInt added]> (<["updated" := PInt updated]>
    (<["skipped" := PInt skipped]> {[ "errors" := PInt errors ]})).

(** The handler of POST /backup/import/preview: its return value. *)
Definition preview_import_backup (request : Request) (file : UploadFile)
    (password : option string) : M BackupImportPreviewResponse :=
  session ← _require_unlocked_session request;
  if bad_backup_filename file then
    write_audit_event "BACKUP_IMPORT_PREVIEW" "FAILURE"
      (Some {[ "reason" := PStr "invalid_file_extension" ]});;
    db_commit;;
    mret invalid_backup_preview
  else
    raw_bytes ← file_read file;
    match parse_backup_json raw_bytes with
    | Raise e =>
        if is_ValueError e then
          write_audit_event "BACKUP_IMPORT_PREVIEW" "FAILURE"
            (Some {[ "reason" := PStr "invalid_file" ]});;
          db_commit;;
          mret invalid_backup_preview
        else raise e
    | Ok envelope =>
        match load_backup_bundle envelope (enc_key session) password with
        | Raise e =>
            if is_ValueError e then
              write_audit_event "BACKUP_IMPORT_PREVIEW" "FAILURE"
                (Some {[ "reason" := PStr "decrypt_failed" ]});;
              db_commit;;
              mret invalid_backup_preview
            else raise e
        | Ok bundle =>
            '(added, updated, skipped, errors, _) ←
                _compute_import_summary (bundle_entries bundle);
            write_audit_event "BACKUP_IMPORT_PREVIEW"
              (match errors with [] => "SUCCESS" | _ => "FAILURE" end)
              (Some (summary_meta added updated skipped
                       (Z.of_nat (length errors))));;
            db_commit;;
            mret {| added := added; updated := updated; skipped := skipped;
                    errors := errors |}
        end
    end.

(** [row.nonce = ...; row.ciphertext = ...; row.updated_at = ...] on the row
    object with primary key [rid]: every later read of that row sees it. *)
Definition assign_row (rid : string) (encrypted : EncryptedPayload)
    (updated_at : datetime) (rows : list EntryRecord) : list EntryRecord :=
  map (λ row, if String.eqb (er_id row) rid
              then {| er_id := rid; er_nonce := nonce encrypted;
                      er_ciphertext := ciphertext encrypted;
                      er_updated_at := updated_at |}
              else row) rows.

(** The body of the loop of [apply_import_backup].  [existing_map] holds the
    row objects that were in the table before the loop; their fields are
    read from the SQLAlchemy session, where earlier iterations changed them. *)
Definition apply_import_step (key : bytes) (existing_map : gmap string EntryRecord)
    (_ : unit) (incoming : Entry) : M unit :=
  let rid := uuid_str (entry_id incoming) in
  encrypted ← encrypt_json key (Entry_model_dump incoming);
  d ← db_read;
  match existing_map !! rid with
  | None =>
      db_write (set_entries d (entries d ++
        [ {| er_id := rid; er_nonce := nonce encrypted;
             er_ciphertext := ciphertext encrypted;
             er_updated_at := updatedAt incoming |} ]))
  | Some original =>
      let row := default original
                   (find (λ r, String.eqb (er_id r) rid) (entries d)) in
      let existing_updated := as_utc (er_updated_at row) in
      let incoming_updated := as_utc (updatedAt incoming) in
      newer ← lift (dt_gt incoming_updated existing_updated);
      if (newer : bool) then
        db_write (set_entries d
                    (assign_row rid encrypted (updatedAt incoming) (entries d)))
      else mret tt
  end.

(** The handler of POST /backup/import/apply: its return value. *)
Definition apply_import_backup (request : Request) (file : UploadFile)
    (password : option string) : M BackupImportPreviewResponse :=
  session ← _require_unlocked_session request;
  if bad_backup_filename file then
    write_audit_event "BACKUP_IMPORT_APPLY" "FAILURE"
      (Some {[ "reason" := PStr "invalid_file_extension" ]});;
    db_commit;;
    mret invalid_backup_preview
  else
    raw_bytes ← file_read file;
    match envelope ← parse_backup_json raw_bytes;
          load_backup_bundle envelope (enc_key session) password with
    | Raise e =>
        if is_ValueError e then
          write_audit_event "BACKUP_IMPORT_APPLY" "FAILURE"
            (Some {[ "reason" := PStr "invalid_file" ]});;
          db_commit;;
          mret invalid_backup_preview
        else raise e
    | Ok bundle =>
        '(added, updated, skipped, errors, existing_map) ←
            _compute_import_summary (bundle_entries bundle);
        match errors with
        | _ :: _ =>
            write_audit_event "BACKUP_IMPORT_APPLY" "FAILURE"
              (Some (summary_meta added updated skipped
                       (Z.of_nat (length errors))));;
            db_commit;;
            mret {| added := added; updated := updated; skipped := skipped;
                    errors := errors |}
        | [] =>
            try_exceptM
              (for_loopM (apply_import_step (enc_key session) existing_map) tt
                 (bundle_entries bundle);;
               d ← db_read;
               db_write (set_settings d
                 {| auto_lock_minutes := autoLockMinutes (bundle_settings bundle);
                    clipboard_clear_seconds :=
                      clipboardClearSeconds (bundle_settings bundle);
                    require_reauth_for_copy :=
                      requireReauthForCopy (bundle_settings bundle) |});;
               write_audit_event "BACKUP_IMPORT_APPLY" "SUCCESS"
                 (Some (summary_meta added updated skipped 0));;
               db_commit)
              (λ _, true)
              (λ _, db_rollback;;
                    write_audit_event "BACKUP_IMPORT_APPLY" "FAILURE"
                      (Some {[ "reason" := PStr "transaction_failed" ]});;
                    db_commit;;
                    raise (AppError "IMPORT_FAILED" "Import failed." 400));;
            mret {| added := added; updated := updated; skipped := skipped;
                    errors := [] |}
        end
    end.

(** The response FastAPI builds from either handler
    ([response_model=BackupImportPreviewResponse]). *)
Definition import_endpoint (handler : M BackupImportPreviewResponse) : M Response :=
  r ← handler;
  mret {| status_code := 200;
          content := Some (BackupImportPreviewResponse_model_dump r);
          cookie_ops := [] |}.

(** ** main.py: the endpoints behind the request gate *)

(** A request as the application sees it: through [CSRFMiddleware], then
    the route with its database session and the exception handlers. *)
Definition app_call (request : Request) (endpoint : M Response)
    : World → Response * World :=
  λ w, match CSRFMiddleware (request_scope request)
               (λ w, let '(r, w') := run_endpoint endpoint w in (Ok r, w')) w with
       | (Ok r, w') => (r, w')
       | (Raise e, w') => (exception_response e, w')
       end.

End App.

(** * More of the application *)

Section Routes.
Context `{L : Lib}.

(** ** schemas.py: models the handlers build *)

(** [EntryCreateRequest] and [EntryUpdateRequest]: the fields of
    [EntryBase], as the handler gets them from FastAPI, which has validated
    the body of the request against the model by then (see
    [EntryBase_model_validate] and the routes with a body below). *)
Record EntryBase := {
  base_title : string;
  base_url : option string;
  base_username : string;
  base_password : string;
  base_notes : option string;
  base_tags : list string;
  base_favorite : bool;
}.

(** [Entry(id=.., title=payload.title, .., updatedAt=..)]: the constructor
    validates the fields again; [None] is the [ValidationError]. *)
Definition Entry_init (id : UUID) (payload : EntryBase) (stamp : datetime)
    : option Entry :=
  title ← validate_str true 1 (Some 128%nat) (PStr (base_title payload));
  url ← validate_optional (validate_str true 0 None)
          (dump_optional_str (base_url payload));
  url ← validate_url_scheme url;
  username ← validate_str true 1 (Some 128%nat) (PStr (base_username payload));
  password ← validate_str true 1 (Some 256%nat) (PStr (base_password payload));
  notes ← validate_optional (validate_str true 0 (Some 2000%nat))
            (dump_optional_str (base_notes payload));
  tags ← (ts ← mapM (validate_str true 1 (Some 24%nat)) (PStr <$> base_tags payload);
          if (length ts <=? 10)%nat then validate_tags ts else None);
  Some {| title := title; url := url; username := username;
          password := password; notes := notes; tags := tags;
          favorite := base_favorite payload; entry_id := id;
          updatedAt := stamp |}.

Definition EntryBase_fields : list string :=
  ["title"; "url"; "username"; "password"; "notes"; "tags"; "favorite"].

(** [EntryCreateRequest.model_validate(body)] and
    [EntryUpdateRequest.model_validate(body)]; [None] is the
    [ValidationError]. *)
Definition EntryBase_model_validate (body : pyval) : option EntryBase :=
  match body with
  | PDict m =>
      if negb (no_extra_keys EntryBase_fields m) then None
      else
        title ← required (m !! "title") (validate_str true 1 (Some 128%nat));
        url ← with_default (m !! "url")
                (validate_optional (validate_str true 0 None)) None;
        url ← validate_url_scheme url;
        username ← required (m !! "username") (validate_str true 1 (Some 128%nat));
        password ← required (m !! "password") (validate_str true 1 (Some 256%nat));
        notes ← with_default (m !! "notes")
                  (validate_optional (validate_str true 0 (Some 2000%nat))) None;
        tags ← with_default (m !! "tags")
                 (λ v, match v with
                       | PList l =>
                           ts ← mapM (validate_str true 1 (Some 24%nat)) l;
                           if (length ts <=? 10)%nat then validate_tags ts else None
                       | _ => None
                       end) [];
        favorite ← with_default (m !! "favorite") validate_bool false;
        Some {| base_title := title; base_url := url; base_username := username;
                base_password := password; base_notes := notes;
                base_tags := tags; base_favorite := favorite |}
  | _ => None
  end.

(** [SettingsModel(autoLockMinutes=.., clipboardClearSeconds=..,
    requireReauthForCopy=..)]. *)
Definition SettingsModel_init (auto_lock clipboard : Z) (reauth : bool)
    : option SettingsModel :=
  if (1 <=? auto_lock)%Z && (auto_lock <=? 120)%Z
     && (5 <=? clipboard)%Z && (clipboard <=? 120)%Z
  then Some {| autoLockMinutes := auto_lock; clipboardClearSeconds := clipboard;
               requireReauthForCopy := reauth |}
  else None.

(** [AuditEvent.validate_meta_keys]; [None] is the raised [ValueError]. *)
Definition validate_meta_keys (value : option (gmap string pyval))
    : option (option (gmap string pyval)) :=
  match value with
  | None => Some None
  | Some m =>
      if existsb (λ kv, has_forbidden_hint kv.1) (map_to_list m) then None
      else Some (Some m)
  end.

(** ** routes/entries.py *)

(** [db.get(EntryRecord, rid)]. *)
Definition db_get_entry (rid : string) (d : Database) : option EntryRecord :=
  find (λ row, String.eqb (er_id row) rid) (entries d).

Definition entry_not_found : exn :=
  AppError "ENTRY_NOT_FOUND" "Entry not found." 404.

Definition not_found_meta (rid : string) : gmap string pyval :=
  <["entry_id" := PStr rid]> {[ "reason" := PStr "not_found" ]}.

Definition create_entry (payload : EntryBase) (request : Request) : M Entry :=
  session ← _require_unlocked_session request;
  now ← datetime_now;
  id_bytes ← os_urandom 16;
  entry ← lift (or_raise (Entry_init (uuid4_of id_bytes) payload now) ValidationError);
  encrypted ← encrypt_json (enc_key session) (Entry_model_dump entry);
  d ← db_read;
  db_write (set_entries d (entries d ++
    [ {| er_id := uuid_str (entry_id entry); er_nonce := nonce encrypted;
         er_ciphertext := ciphertext encrypted; er_updated_at := now |} ]));;
  write_audit_event "ENTRY_CREATE" "SUCCESS"
    (Some {[ "entry_id" := PStr (uuid_str (entry_id entry)) ]});;
  db_commit;;
  mret entry.

Definition get_entry (entry_id : UUID) (request : Request) : M Entry :=
  session ← _require_unlocked_session request;
  d ← db_read;
  match db_get_entry (uuid_str entry_id) d with
  | None =>
      write_audit_event "ENTRY_GET" "FAILURE"
        (Some (not_found_meta (uuid_str entry_id)));;
      db_commit;;
      raise entry_not_found
  | Some row =>
      entry ← lift (_decrypt_entry row (enc_key session));
      write_audit_event "ENTRY_GET" "SUCCESS"
        (Some {[ "entry_id" := PStr (uuid_str entry_id) ]});;
      db_commit;;
      mret entry
  end.

Definition update_entry (entry_id : UUID) (payload : EntryBase) (request : Request)
    : M Entry :=
  session ← _require_unlocked_session request;
  d ← db_read;
  match db_get_entry (uuid_str entry_id) d with
  | None =>
      write_audit_event "ENTRY_UPDATE" "FAILURE"
        (Some (not_found_meta (uuid_str entry_id)));;
      db_commit;;
      raise entry_not_found
  | Some row =>
      now ← datetime_now;
      entry ← lift (or_raise (Entry_init entry_id payload now) ValidationError);
      encrypted ← encrypt_json (enc_key session) (Entry_model_dump entry);
      d ← db_read;
      db_write (set_entries d
                  (assign_row (uuid_str entry_id) encrypted now (entries d)));;
      write_audit_event "ENTRY_UPDATE" "SUCCESS"
        (Some {[ "entry_id" := PStr (uuid_str entry_id) ]});;
      db_commit;;
      mret entry
  end.

(** [db.delete(row)] for the row with primary key [rid]. *)
Definition delete_row (rid : string) (rows : list EntryRecord) : list EntryRecord :=
  List.filter (λ row, negb (String.eqb (er_id row) rid)) rows.

Definition delete_entry (entry_id : UUID) (request : Request) : M unit :=
  _require_unlocked_session request;;
  d ← db_read;
  match db_get_entry (uuid_str entry_id) d with
  | None =>
      write_audit_event "ENTRY_DELETE" "FAILURE"
        (Some (not_found_meta (uuid_str entry_id)));;
      db_commit;;
      raise entry_not_found
  | Some row =>
      db_write (set_entries d (delete_row (uuid_str entry_id) (entries d)));;
      write_audit_event "ENTRY_DELETE" "SUCCESS"
        (Some {[ "entry_id" := PStr (uuid_str entry_id) ]});;
      db_commit
  end.

(** The responses FastAPI builds: [response_model=Entry], with
    [status_code=201] for the creation, and 204 without a body. *)
Definition entry_endpoint (status : Z) (handler : M Entry) : M Response :=
  entry ← handler;
  mret {| status_code := status; content := Some (Entry_model_dump entry);
          cookie_ops := [] |}.

Definition delete_entry_endpoint (entry_id : UUID) (request : Request) : M Response :=
  delete_entry entry_id request;;
  mret {| status_code := 204; content := None; cookie_ops := [] |}.

(** errors.py: [validation_error_handler], the answer to a request FastAPI
    could not validate. *)
Definition validation_error_response : Response :=
  build_error_response 422 "VALIDATION_ERROR" "Invalid request data.".

(** A route with a JSON body: FastAPI validates the body against the
    request model and calls the handler with the result; a body that does
    not validate raises [RequestValidationError] and the handler does not
    run. *)
Definition with_body {A} (validate : pyval → option A) (body : pyval)
    (route : A → M Response) : M Response :=
  match validate body with
  | None => mret validation_error_response
  | Some payload => route payload
  end.

(** POST /entries and PUT /entries/{entry_id}, from the body of the
    request. *)
Definition create_entry_route (body : pyval) (request : Request) : M Response :=
  with_body EntryBase_model_validate body
    (λ payload, entry_endpoint 201 (create_entry payload request)).

Definition update_entry_route (entry_id : UUID) (body : pyval) (request : Request)
    : M Response :=
  with_body EntryBase_model_validate body
    (λ payload, entry_endpoint 200 (update_entry entry_id payload request)).

(** ** routes/settings.py *)

Definition _require_unlocked (request : Request) : M unit :=
  session ← get_session (request_cookies request !! SESSION_COOKIE_NAME);
  match session with
  | None => raise (AppError "UNAUTHORIZED" "Authentication required." 401)
  | Some _ => mret tt
  end.

(** [SettingsModel(...)] from a row. *)
Definition settings_model_of (record : SettingsRecord) : M SettingsModel :=
  lift (or_raise (SettingsModel_init (auto_lock_minutes record)
                    (clipboard_clear_seconds record)
                    (require_reauth_for_copy record)) ValidationError).

(** [_get_or_create_settings] is the function of that name in
    routes/vault.py, word for word. *)
Definition get_settings (request : Request) : M SettingsModel :=
  _require_unlocked request;;
  record ← _get_or_create_settings;
  db_commit;;
  settings_model_of record.

Definition update_settings (payload : SettingsModel) (request : Request)
    : M SettingsModel :=
  _require_unlocked request;;
  _get_or_create_settings;;
  let record := {| auto_lock_minutes := autoLockMinutes payload;
                   clipboard_clear_seconds := clipboardClearSeconds payload;
                   require_reauth_for_copy := requireReauthForCopy payload |} in
  d ← db_read;
  db_write (set_settings d record);;
  write_audit_event "SETTINGS_UPDATE" "SUCCESS" None;;
  db_commit;;
  settings_model_of record.

Definition settings_endpoint (handler : M SettingsModel) : M Response :=
  model ← handler;
  mret {| status_code := 200; content := Some (SettingsModel_model_dump model);
          cookie_ops := [] |}.

(** ** routes/backup.py: the export *)

(** [envelope.model_dump(mode="json")]. *)
Definition BackupKDFParams_model_dump (k : BackupKDFParams) : pyval :=
  PDict (list_to_map
    [("memoryCost", PInt (memoryCost k)); ("timeCost", PInt (timeCost k));
     ("parallelism", PInt (kdf_parallelism k))]).

Definition BackupEnvelope_model_dump (e : BackupEnvelope) : pyval :=
  PDict (list_to_map
    [("version", PInt (version e));
     ("createdAt", PStr (serialize_datetime (createdAt e)));
     ("kdfParams", from_option BackupKDFParams_model_dump PNone (kdfParams e));
     ("salt", dump_optional_str (salt e));
     ("export", PDict (list_to_map
        [("nonce", PStr (payload_nonce (export e)));
         ("ciphertext", PStr (payload_ciphertext (export e)))]));
     ("note", PStr (note e))]).

(** schemas.py: [BackupExportRequest], [BackupExportBlob] and
    [BackupExportResponse].  The response has the fields of the envelope, in
    a [StrictSchema], which strips the strings it validates; its
    [BackupKDFParams] has the fields and bounds of the one of backup.py. *)
Record BackupExportRequest := {
  exportPassword : option string;
}.

Record BackupExportBlob := {
  blob_nonce : string;
  blob_ciphertext : string;
}.

Record BackupExportResponse := {
  response_version : Z;
  response_createdAt : datetime;
  response_kdfParams : option BackupKDFParams;
  response_salt : option string;
  response_export : BackupExportBlob;
  response_note : string;
}.

Definition BackupExportBlob_model_validate (payload : pyval)
    : option BackupExportBlob :=
  match payload with
  | PDict m =>
      if negb (no_extra_keys ["nonce"; "ciphertext"] m) then None
      else
        n ← required (m !! "nonce") (validate_str true 0 None);
        c ← required (m !! "ciphertext") (validate_str true 0 None);
        Some {| blob_nonce := n; blob_ciphertext := c |}
  | _ => None
  end.

Definition BackupExportResponse_model_validate (payload : pyval)
    : option BackupExportResponse :=
  match payload with
  | PDict m =>
      if negb (no_extra_keys
                 ["version"; "createdAt"; "kdfParams"; "salt"; "export"; "note"] m)
      then None
      else
        v ← with_default (m !! "version") validate_int 1;
        c ← required (m !! "createdAt") validate_datetime;
        k ← with_default (m !! "kdfParams")
              (validate_optional BackupKDFParams_model_validate) None;
        s ← with_default (m !! "salt")
              (validate_optional (validate_str true 0 None)) None;
        e ← required (m !! "export") BackupExportBlob_model_validate;
        n ← with_default (m !! "note") (validate_str true 0 None) "encrypted-only";
        Some {| response_version := v; response_createdAt := c;
                response_kdfParams := k; response_salt := s;
                response_export := e; response_note := n |}
  | _ => None
  end.

Definition BackupExportResponse_model_dump (r : BackupExportResponse) : pyval :=
  PDict (list_to_map
    [("version", PInt (response_version r));
     ("createdAt", PStr (serialize_datetime (response_createdAt r)));
     ("kdfParams", from_option BackupKDFParams_model_dump PNone
                     (response_kdfParams r));
     ("salt", dump_optional_str (response_salt r));
     ("export", PDict (list_to_map
        [("nonce", PStr (blob_nonce (response_export r)));
         ("ciphertext", PStr (blob_ciphertext (response_export r)))]));
     ("note", PStr (response_note r))]).

(** [_load_settings]: the row, made with the defaults when there is none,
    as a [SettingsModel]. *)
Definition _load_settings : M SettingsModel :=
  d ← db_read;
  record ← match settings d with
           | Some record => mret record
           | None =>
               let record := {| auto_lock_minutes := 5;
                                clipboard_clear_seconds := 15;
                                require_reauth_for_copy := true |} in
               db_write (set_settings d record);;
               mret record
           end;
  settings_model_of record.

(** One turn of the loop of [_decrypt_rows_as_entries]: a row that does not
    authenticate is an [AppError]; the [ValidationError] of
    [Entry.model_validate] is not caught. *)
Definition decrypt_row_as_entry (enc_key : bytes) (row : EntryRecord)
    : outcome Entry :=
  payload ← try_except (decrypt_json enc_key (er_nonce row) (er_ciphertext row))
               is_CryptoIntegrityError (λ _, Raise entry_unavailable);
  or_raise (Entry_model_validate payload) ValidationError.

Definition _decrypt_rows_as_entries (rows : list EntryRecord) (enc_key : bytes)
    : outcome (list Entry) :=
  mapM (decrypt_row_as_entry enc_key) rows.

Definition export_meta (entry_count : nat) (password_protected : bool)
    : gmap string pyval :=
  <["entry_count" := PInt (Z.of_nat entry_count)]>
    {[ "password_protected" := PBool password_protected ]}.

Definition export_backup (payload : BackupExportRequest) (request : Request)
    : M BackupExportResponse :=
  session ← _require_unlocked_session request;
  d ← db_read;
  let rows := entries d in
  entries ← lift (_decrypt_rows_as_entries rows (enc_key session));
  app_settings ← _load_settings;
  envelope ← build_backup_envelope entries app_settings (enc_key session)
               (exportPassword payload);
  write_audit_event "BACKUP_EXPORT" "SUCCESS"
    (Some (export_meta (length entries) (str_truthy (exportPassword payload))));;
  db_commit;;
  lift (or_raise (BackupExportResponse_model_validate
                    (BackupEnvelope_model_dump envelope)) ValidationError).

Definition export_endpoint (handler : M BackupExportResponse) : M Response :=
  r ← handler;
  mret {| status_code := 200;
          content := Some (BackupExportResponse_model_dump r);
          cookie_ops := [] |}.

End Routes.

(** ** routes/audit.py *)

Module routes_audit.
Section RoutesAudit.
Context `{L : Lib}.

(** [isinstance(value, bool | str | int | float) or value is None]. *)
Definition is_meta_value (value : pyval) : bool :=
  is_bool_str_int_float value
  || match value with PNone => true | _ => false end.

Definition sanitize_step (key : string) (value : pyval)
    (sanitized : gmap string pyval) : gmap string pyval :=
  if has_forbidden_hint key then sanitized
  else if is_meta_value value then <[key := value]> sanitized
  else sanitized.

(** The sanitizer GET /audit applies to the stored meta of each row. *)
Definition _sanitize_meta (meta : option (gmap string pyval))
    : option (gmap string pyval) :=
  match meta with
  | None => None
  | Some m =>
      if (size m =? 0)%nat then None
      else
        let sanitized := map_fold sanitize_step ∅ m in
        if (size sanitized =? 0)%nat then None else Some sanitized
  end.

End RoutesAudit.
End routes_audit.

(** ** utils.py *)

Section Logging.

(** [logging.LogRecord], the two attributes the filter touches. *)
Record LogRecord := {
  log_msg : string;
  log_args : list pyval;
}.

(** [msg % args], the formatting of the standard library; [None] when it
    raises (arguments that do not fit the format). *)
Variable percent_format : string → list pyval → option string.

(** [record.getMessage()]: the message is formatted only when there are
    arguments. *)
Definition getMessage (record : LogRecord) : option string :=
  match log_args record with
  | [] => Some (log_msg record)
  | args => percent_format (log_msg record) args
  end.

Definition BLOCKED_HINTS : list string := ["password"; "secret"; "token"; "key"].

(** [SecretFilter.filter]: the record after the call, and the returned
    flag; [None] when [getMessage] raises, which the filter lets through. *)
Definition SecretFilter_filter (record : LogRecord) : option (LogRecord * bool) :=
  message ← getMessage record;
  let message := str_lower message in
  if existsb (λ hint, str_contains hint message) BLOCKED_HINTS
  then Some ({| log_msg := "[REDACTED_SENSITIVE_LOG]"; log_args := [] |}, true)
  else Some (record, true).

End Logging.

(** ** A small library to run the model with

    [plain_lib] implements [Lib] with stand-ins that are simple enough to
    compute with: text is its own encoding, "encryption" prepends the key,
    and values are printed through their [Countable] code. *)

Definition pyleaf : Type := (unit + bool + Z + Z + string)%type.

Fixpoint pyval_to_tree (v : pyval) : gen_tree pyleaf :=
  match v with
  | PNone => GenLeaf (inl (inl (inl (inl tt))))
  | PBool b => GenLeaf (inl (inl (inl (inr b))))
  | PInt z => GenLeaf (inl (inl (inr z)))
  | PFloat z => GenLeaf (inl (inr z))
  | PStr s => GenLeaf (inr s)
  | PList l => GenNode 0 (pyval_to_tree <$> l)
  | PDict m =>
      GenNode 1 (map_fold (λ k x acc,
                   GenNode 2 [GenLeaf (inr k); pyval_to_tree x] :: acc) [] m)
  end.

Fixpoint tree_to_pyval (t : gen_tree pyleaf) : option pyval :=
  match t with
  | GenLeaf (inl (inl (inl (inl _)))) => Some PNone
  | GenLeaf (inl (inl (inl (inr b)))) => Some (PBool b)
  | GenLeaf (inl (inl (inr z))) => Some (PInt z)
  | GenLeaf (inl (inr z)) => Some (PFloat z)
  | GenLeaf (inr s) => Some (PStr s)
  | GenNode 0 ts => PList <$> mapM tree_to_pyval ts
  | GenNode 1 ts =>
      (λ kvs, PDict (list_to_map kvs)) <$>
      mapM (λ t, match t with
                 | GenNode 2 [GenLeaf (inr k); tv] =>
                     v ← tree_to_pyval tv; Some (k, v)
                 | _ => None
                 end) ts
  | _ => None
  end.

Fixpoint pyval_size (v : pyval) : nat :=
  match v with
  | PList l => S (foldr (λ x acc, pyval_size x + acc)%nat 0%nat l)
  | PDict m => S (map_fold (λ _ x acc, pyval_size x + acc)%nat 0%nat m)
  | _ => 1
  end.

Lemma pyval_size_list x l : x ∈ l → (pyval_size x < pyval_size (PList l))%nat.
Proof. simpl. induction 1; simpl; lia. Qed.

Lemma map_fold_cons_fmap {A B} (f : string → A → B) (m : gmap string A) :
  map_fold (λ k x acc, f k x :: acc) [] m = (λ kv, f kv.1 kv.2) <$> map_to_list m.
Proof.
  induction m as [|k x m Hk Hfold IH] using map_first_key_ind.
  - by rewrite map_fold_empty, map_to_list_empty.
  - rewrite map_fold_insert_first_key by done.
    rewrite map_to_list_insert_first_key by done. simpl. by rewrite IH.
Qed.

Lemma pyval_size_dict k x (m : gmap string pyval) :
  m !! k = Some x → (pyval_size x < pyval_size (PDict m))%nat.
Proof.
  simpl. revert k x.
  induction m as [|k' x' m Hk Hfold IH] using map_first_key_ind; intros k x.
  - by rewrite lookup_empty.
  - rewrite map_fold_insert_first_key by done.
    rewrite lookup_insert. case_decide; intros Hx; simplify_eq.
    + lia.
    + specialize (IH _ _ Hx). lia.
Qed.

Lemma tree_of_pyval v : tree_to_pyval (pyval_to_tree v) = Some v.
Proof.
  remember (pyval_size v) as n eqn:Hn.
  revert v Hn. induction n as [n IH] using lt_wf_ind. intros v ->.
  destruct v as [| | | | |l|m]; simpl; try done.
  - assert (mapM tree_to_pyval (pyval_to_tree <$> l) = Some l) as ->; [|done].
    apply mapM_Some. rewrite Forall2_fmap_l. apply Forall_Forall2_diag.
    apply Forall_forall. intros x Hx%list_elem_of_In. simpl.
    eapply IH; [|done]. by apply pyval_size_list.
  - rewrite map_fold_cons_fmap.
    match goal with |- _ <$> mapM ?f _ = _ =>
      assert (mapM f ((λ kv, GenNode 2 [GenLeaf (inr kv.1); pyval_to_tree kv.2])
                        <$> map_to_list m) = Some (map_to_list m)) as -> end.
    + apply mapM_Some. rewrite Forall2_fmap_l. apply Forall_Forall2_diag.
      apply Forall_forall. intros [k x] Hx%list_elem_of_In. simpl.
      apply elem_of_map_to_list in Hx.
      erewrite IH; [done| |done]. by eapply pyval_size_dict.
    + simpl. by rewrite list_to_map_to_list.
Qed.

#[global] Instance pyval_eq_dec : EqDecision pyval.
Proof.
  intros x y. destruct (decide (pyval_to_tree x = pyval_to_tree y)) as [H|H].
  - left. apply (f_equal tree_to_pyval) in H. rewrite !tree_of_pyval in H.
    congruence.
  - right. congruence.
Defined.

#[global] Instance pyval_countable : Countable pyval :=
  inj_countable pyval_to_tree tree_to_pyval tree_of_pyval.

#[global] Instance datetime_eq_dec : EqDecision datetime.
Proof. solve_decision. Defined.

#[global] Instance datetime_countable : Countable datetime :=
  inj_countable'
    (λ d, match d with Naive x => inl x | Aware x off => inr (x, off) end)
    (λ c, match c with inl x => Naive x | inr (x, off) => Aware x off end)
    (λ d, match d with Naive _ => eq_refl | Aware _ _ => eq_refl end).

#[global] Instance UUID_eq_dec : EqDecision UUID.
Proof. solve_decision. Defined.

#[global] Instance UUID_countable : Countable UUID :=
  inj_countable' uuid_int Build_UUID (λ u, match u with Build_UUID _ => eq_refl end).

(** A positive number in binary, least significant digit first. *)
Fixpoint pos_to_bits (p : positive) : string :=
  match p with
  | xH => EmptyString
  | xO p => String "0" (pos_to_bits p)
  | xI p => String "1" (pos_to_bits p)
  end.

Fixpoint bits_to_pos (s : string) : positive :=
  match s with
  | EmptyString => xH
  | String c s => if Ascii.eqb c "1" then xI (bits_to_pos s) else xO (bits_to_pos s)
  end.

Definition show `{Countable A} (a : A) : string := pos_to_bits (encode a).
Definition read `{Countable A} (s : string) : option A := decode (bits_to_pos s).

Definition text_bytes (s : string) : bytes :=
  map byte_of_ascii (list_ascii_of_string s).

Definition bytes_text (b : bytes) : string :=
  string_of_list_ascii (map ascii_of_byte b).

Definition ascii_upper (c : ascii) : ascii :=
  if chr_in 97 122 c then ascii_of_N (N_of_ascii c - 32) else c.

#[global] Instance byte_eqdec : EqDecision byte := Byte.byte_eq_dec.

Definition bytes_eqb (a b : bytes) : bool := bool_decide (a = b).

Definition bytes_to_Z (b : bytes) : Z :=
  foldr (λ x acc, Z.of_N (Byte.to_N x) + 256 * acc)%Z 0%Z b.

Definition drop_scheme (prefix s : string) : option string :=
  if String.prefix prefix s
  then Some (String.substring (String.length prefix)
               (String.length s - String.length prefix) s)
  else None.

(** What the stand-in for [json.loads] raises on a text it does not read:
    [RecursionError] when the text opens a thousand arrays, [ValueError]
    when it is an integer literal of more than 4300 digits, and
    [JSONDecodeError] otherwise. *)
Definition is_digit (c : ascii) : bool := chr_in 48 57 c.

Definition plain_json_error (s : string) : loads_result :=
  if String.prefix (string_of_list_ascii (replicate 1000 "["%char)) s
  then LoadsRecursionError
  else if (4300 <? String.length s)%nat
          && forallb is_digit (list_ascii_of_string s)
  then LoadsValueError
         "Exceeds the limit (4300 digits) for integer string conversion"
  else LoadsDecodeError.

#[global] Instance plain_lib : Lib := {|
  str_upper s := string_of_list_ascii (map ascii_upper (list_ascii_of_string s));
  utf8_encode := text_bytes;
  utf8_decode b := Some (bytes_text b);
  json_dumps v := show v;
  json_loads_result s := match read s with
                         | Some v => Loaded v
                         | None => plain_json_error s
                         end;
  b64encode := bytes_text;
  b64decode s := Some (text_bytes s);
  aesgcm_encrypt key nonce data aad := (key ++ data)%list;
  aesgcm_decrypt key nonce data aad :=
    if bytes_eqb (take (length key) data) key
    then Some (drop (length key) data) else None;
  hkdf_sha256 info ikm := take 32 (info ++ ikm ++ replicate 32 x00)%list;
  hash_secret_raw secret salt t m p :=
    Some (take 32 (secret ++ salt ++ replicate 32 x00)%list);
  argon2_hash params drawn_salt password := ("$plain$" ++ password)%string;
  argon2_verify hash password :=
    if String.eqb hash ("$plain$" ++ password)%string then VerifyTrue
    else VerifyMismatch;
  urlsplit s :=
    match drop_scheme "https://" s, drop_scheme "http://" s with
    | Some rest, _ => Some {| scheme := "https"; netloc := rest |}
    | None, Some rest => Some {| scheme := "http"; netloc := rest |}
    | None, None => Some {| scheme := ""; netloc := "" |}
    end;
  token_urlsafe := bytes_text;
  uuid4_of b := {| uuid_int := bytes_to_Z b |};
  uuid_str u := show u;
  validate_bool v := match v with PBool b => Some b | _ => None end;
  validate_int v := match v with PInt z => Some z | _ => None end;
  validate_uuid v := match v with PStr s => read s | _ => None end;
  validate_datetime v := match v with PStr s => read s | _ => None end;
  serialize_datetime d := show d;
|}.

(** ** A vault to run the requests on

    The worlds, requests and entries the properties below are exercised on. *)

Definition demo_world : World :=
  {| committed := empty_database; tx := empty_database; sessions := ∅;
     app_session_idle_minutes := 15;
     clock := λ n, Z.of_nat n * 1000000; clock_reads := 0;
     entropy := λ _, "a"%byte; entropy_drawn := 0; events := [] |}.

Definition demo_password : string := "CorrectHorseBatteryStaple!".

Definition demo_setup : VaultSetupRequest :=
  {| setup_masterPassword := demo_password; setup_hint := None |}.

(** The vault after POST /vault/setup. *)
Definition demo_vault : World := snd (run_endpoint (vault_setup demo_setup) demo_world).

Definition demo_unlock : VaultUnlockRequest := {| masterPassword := demo_password |}.

Definition demo_wrong_unlock : VaultUnlockRequest :=
  {| masterPassword := "wrong-password-1" |}.

(** The vault after a failed unlock, with the deadline as SQLite hands it
    back: the same wall-clock time, without the timezone. *)
Definition demo_throttled_naive : World :=
  with_committed demo_vault
    (set_unlock_throttle (committed demo_vault)
       {| failed_attempts := 1; next_allowed_at := Some (Naive 3600000000) |}).

Definition demo_key : bytes := replicate 32 "k"%byte.

Definition demo_session : SessionData :=
  {| token := "session-1"; csrf_token := "csrf-1"; enc_key := demo_key;
     created_at := Aware 0 0; last_seen := Aware 0 0 |}.

(** The same vault with one live session. *)
Definition demo_unlocked : World :=
  with_sessions demo_vault {[ "session-1" := demo_session ]}.

Definition demo_scope (method path : string) (headers : list (string * string))
    : Scope :=
  {| scope_type := "http"; scope_method := Some method; scope_path := Some path;
     scope_headers := Some ((λ kv, (text_bytes kv.1, text_bytes kv.2)) <$> headers) |}.

Definition demo_request (method path : string) (headers : list (string * string))
    (cookies : list (string * string)) : Request :=
  {| request_scope := demo_scope method path headers;
     request_cookies := list_to_map cookies |}.

Definition demo_cookies : list (string * string) :=
  [("session_token", "session-1"); ("csrf_token", "csrf-1")].

Definition demo_cookie_header : string * string :=
  ("Cookie", "session_token=session-1; csrf_token=csrf-1").

(** A request with the session's cookies and the CSRF header. *)
Definition demo_authorized (method path : string) : Request :=
  demo_request method path [demo_cookie_header; ("X-CSRF-Token", "csrf-1")]
    demo_cookies.

(** The same request without the CSRF header. *)
Definition demo_no_csrf (method path : string) : Request :=
  demo_request method path [demo_cookie_header] demo_cookies.

(** A request without cookies. *)
Definition demo_anonymous (method path : string) : Request :=
  demo_request method path [] [].

Definition demo_entry (name : string) (stamp : Z) (id : Z) : Entry :=
  {| title := name; url := Some "https://example.org/login"; username := "alice";
     password := "hunter2"; notes := None; tags := ["work"]; favorite := false;
     entry_id := {| uuid_int := id |}; updatedAt := Aware stamp 0 |}.

Definition demo_entries : list Entry :=
  [demo_entry "mail" 1000000 1; demo_entry "bank" 2000000 2].

Definition demo_settings : SettingsModel :=
  {| autoLockMinutes := 5; clipboardClearSeconds := 15;
     requireReauthForCopy := true |}.

(** The row of an entry, encrypted under [demo_key]. *)
Definition demo_row (e : Entry) : EntryRecord :=
  {| er_id := uuid_str (entry_id e);
     er_nonce := replicate 12 "n"%byte;
     er_ciphertext := aesgcm_encrypt demo_key (replicate 12 "n"%byte)
                        (_canonical_json (Entry_model_dump e)) AES_GCM_AAD;
     er_updated_at := updatedAt e |}.

(** The unlocked vault with the entries stored. *)
Definition demo_listing : World :=
  with_committed demo_unlocked
    (set_entries (committed demo_unlocked) (demo_row <$> demo_entries)).

Definition demo_upload : UploadFile :=
  {| filename := Some "backup.txt"; file_content := text_bytes "{}" |}.

Definition demo_meta : gmap string pyval :=
  <["password" := PStr "hunter2"]>
    (<["count" := PInt 3]> (<["errors" := PList []]> {[ "note" := PNone ]})).


(** Two texts [json.loads] does not take for other reasons than their
    syntax: a thousand opened arrays, and an integer of 4301 digits. *)
Definition demo_deep_json : string :=
  string_of_list_ascii (replicate 1000 "["%char).



(** What [get_session] does to a world in which ["session-1"] is live:
    one read of the clock, which becomes the session's [last_seen]. *)
Definition demo_seen_at (w : World) : SessionData :=
  set_last_seen demo_session (Aware (clock w (clock_reads w)) 0).

Definition demo_seen_world (w : World) : World :=
  with_clock_reads
    (with_sessions w (<["session-1" := demo_seen_at w]> (sessions w)))
    (S (clock_reads w)).

Definition demo_seen : SessionData := demo_seen_at demo_unlocked.

Definition demo_lock_anonymous : Request := demo_anonymous "POST" "/vault/lock".

Definition demo_lock_authorized : Request := demo_authorized "POST" "/vault/lock".

Definition demo_import : Request := demo_authorized "POST" "/backup/import/apply".

Definition demo_list : Request := demo_authorized "GET" "/entries".


(** The body of a PUT /entries/{id} that validates, and one whose title
    is empty. *)
Definition demo_body : pyval :=
  PDict (list_to_map [("title", PStr "forum"); ("username", PStr "alice");
                      ("password", PStr "hunter3")]).

Definition demo_bad_body : pyval :=
  PDict (list_to_map [("title", PStr ""); ("username", PStr "alice");
                      ("password", PStr "hunter3")]).

(** An upload with a permitted name and a content that is not a backup. *)
Definition demo_json_upload : UploadFile :=
  {| filename := Some "backup.json"; file_content := text_bytes "not a backup" |}.

(** A live session on a database without a settings row. *)
Definition demo_bare : World :=
  with_sessions demo_world {[ "session-1" := demo_session ]}.

(** An upload with a permitted name whose content opens a thousand
    arrays. *)
Definition demo_deep_upload : UploadFile :=
  {| filename := Some "backup.json"; file_content := text_bytes demo_deep_json |}.


(** An export request without a password, and one with a password the
    request schema accepts and the KDF does not. *)
Definition demo_export : BackupExportRequest := {| exportPassword := None |}.

Definition demo_export_short : BackupExportRequest :=
  {| exportPassword := Some "short" |}.

(** A backup of one entry under [demo_key], as a client saves it. *)
Definition demo_backup : UploadFile :=
  {| filename := Some "backup.json";
     file_content :=
       match build_backup_envelope [demo_entry "mail" 1000000 1] demo_settings
               demo_key None demo_world with
       | (Ok envelope, _) =>
           utf8_encode (json_dumps (BackupEnvelope_model_dump envelope))
       | _ => []
       end |}.

(** * Properties *)

(** ** crypto.py *)

Section CryptoFacts.
Context `{L : Lib}.

Lemma decrypt_json_bad_key key nonce ct :
  length key ≠ 32%nat →
  decrypt_json key nonce ct = Raise (ValueError "Encryption key must be 32 bytes.").
Proof.
  intros H. unfold decrypt_json.
  destruct (Nat.eqb_spec (length key) 32) as [|_]; [done|reflexivity].
Qed.


Lemma decrypt_json_run key nonce ct :
  length key = 32%nat → length nonce = 12%nat →
  decrypt_json key nonce ct =
    (plaintext ← or_raise (aesgcm_decrypt key nonce ct AES_GCM_AAD)
                   (CryptoIntegrityError "Ciphertext integrity check failed.");
     try_except
       (text ← or_raise (utf8_decode plaintext) UnicodeDecodeError;
        json_loads text)
       is_JSONDecodeError
       (λ _, Raise (CryptoIntegrityError "Decrypted payload is invalid."))).
Proof.
  intros Hk Hn. unfold decrypt_json, AES_GCM_NONCE_BYTES. by rewrite Hk, Hn.
Qed.



End CryptoFacts.

(** ** audit.py *)

(** What [_sanitize_meta] keeps of an entry. *)
Definition kept (key : string) (value : pyval) : bool :=
  negb (has_forbidden_hint key) && is_bool_str_int_float value.

(** The scalar values of the specification: bool, int, float, string, null. *)
Definition is_scalar (value : pyval) : bool :=
  match value with
  | PNone | PBool _ | PInt _ | PFloat _ | PStr _ => true
  | _ => false
  end.

Lemma sanitize_loop_lookup (m : gmap string pyval) key :
  map_fold sanitize_step ∅ m !! key =
    (v ← m !! key; if kept key v then Some v else None).
Proof.
  apply (map_fold_weak_ind
    (λ r m, r !! key = (v ← m !! key; if kept key v then Some v else None))).
  - by rewrite !lookup_empty.
  - intros i x m' r Hi IH. unfold sanitize_step, kept.
    destruct (decide (i = key)) as [->|Hne].
    + rewrite lookup_insert_eq. simpl.
      rewrite Hi in IH. simpl in IH.
      destruct (has_forbidden_hint key); simpl; [done|].
      destruct (is_bool_str_int_float x); [by rewrite lookup_insert_eq|done].
    + rewrite (lookup_insert_ne m') by done.
      destruct (has_forbidden_hint i); [done|].
      destruct (is_bool_str_int_float x); [by rewrite lookup_insert_ne|done].
Qed.

Lemma size_zero_empty (m : gmap string pyval) : (size m =? 0)%nat = true ↔ m = ∅.
Proof. rewrite Nat.eqb_eq. apply map_size_empty_iff. Qed.

Lemma sanitize_meta_Some meta m :
  _sanitize_meta meta = Some m ↔
  ∃ m0, meta = Some m0 ∧ m = map_fold sanitize_step ∅ m0 ∧ m ≠ ∅.
Proof.
  unfold _sanitize_meta. destruct meta as [m0|]; [|naive_solver].
  destruct (size m0 =? 0)%nat eqn:E0.
  - apply size_zero_empty in E0 as ->. split; [done|].
    intros (? & [= <-] & -> & Hne). by rewrite map_fold_empty in Hne.
  - destruct (size (map_fold sanitize_step ∅ m0) =? 0)%nat eqn:E1.
    + apply size_zero_empty in E1. split; [done|]. intros (? & [= <-] & -> & ?). done.
    + split.
      * intros [= <-]. eexists; split_and!; try done.
        intros Hm. apply size_zero_empty in Hm. congruence.
      * by intros (? & [= <-] & -> & ?).
Qed.

(** C6: of a meta mapping handed to the audit writer, every key whose
    lowercase form contains one of password, secret, token, key, master is
    dropped; whatever is retained is an entry of the mapping whose value is a
    scalar (the writer keeps bool, int, float and string); every entry with
    a permitted key and such a value is retained; and a result without
    entries is stored as null. *)
Theorem sanitize_meta_spec (meta : option (gmap string pyval)) :
  (∀ m key value,
     _sanitize_meta meta = Some m → m !! key = Some value →
     has_forbidden_hint key = false
     ∧ is_scalar value = true
     ∧ (meta ≫= (.!! key)) = Some value)
  ∧ (∀ key value,
       (meta ≫= (.!! key)) = Some value →
       has_forbidden_hint key = false → is_bool_str_int_float value = true →
       ∃ m, _sanitize_meta meta = Some m ∧ m !! key = Some value)
  ∧ _sanitize_meta meta ≠ Some ∅
  ∧ (_sanitize_meta meta = None ↔
     ∀ key value, (meta ≫= (.!! key)) = Some value → kept key value = false).
Proof.
  split_and!.
  - intros m key value (m0 & -> & -> & _)%sanitize_meta_Some.
    rewrite sanitize_loop_lookup. simpl. unfold kept.
    destruct (m0 !! key) as [v|]; simpl; [|done].
    destruct (has_forbidden_hint key); simpl; [done|].
    destruct v; simpl; naive_solver.
  - intros key value Hl Hk Hv. destruct meta as [m0|]; [|done]. simpl in Hl.
    assert (map_fold sanitize_step ∅ m0 !! key = Some value) as Hkept.
    { rewrite sanitize_loop_lookup, Hl. simpl. unfold kept. by rewrite Hk, Hv. }
    exists (map_fold sanitize_step ∅ m0). split; [|done].
    apply sanitize_meta_Some. eexists; split_and!; try done.
    intros Hm. by rewrite Hm, lookup_empty in Hkept.
  - intros (m0 & _ & _ & ?)%sanitize_meta_Some. done.
  - split.
    + intros Hnone key value Hl.
      destruct (kept key value) eqn:Hk; [|done]. exfalso.
      destruct meta as [m0|]; [|done]. simpl in Hl.
      assert (map_fold sanitize_step ∅ m0 !! key = Some value) as Hkept.
      { by rewrite sanitize_loop_lookup, Hl; simpl; rewrite Hk. }
      assert (_sanitize_meta (Some m0) = Some (map_fold sanitize_step ∅ m0)) as E.
      { apply sanitize_meta_Some. eexists; split_and!; try done.
        intros Hm. by rewrite Hm, lookup_empty in Hkept. }
      congruence.
    + intros Hall. destruct (_sanitize_meta meta) as [m|] eqn:E; [|done]. exfalso.
      apply sanitize_meta_Some in E as (m0 & -> & -> & Hne).
      apply Hne. apply map_eq. intros key. rewrite lookup_empty, sanitize_loop_lookup.
      destruct (m0 !! key) as [v|] eqn:Hv; simpl; [|done].
      by rewrite (Hall key v).
Qed.

(** ** middleware.py *)

Section GateFacts.
Context `{L : Lib}.

(** What the middleware reads off a request. *)
Definition gate_headers (scope : Scope) : gmap string string :=
  decode_headers (default [] (scope_headers scope)).

Definition gate_cookies (scope : Scope) : gmap string string :=
  _parse_cookies (default "" (gate_headers scope !! "cookie")).

Definition session_cookie (scope : Scope) : option string :=
  gate_cookies scope !! SESSION_COOKIE_NAME.

Definition csrf_cookie (scope : Scope) : option string :=
  gate_cookies scope !! CSRF_COOKIE_NAME.

Definition csrf_header (scope : Scope) : option string :=
  gate_headers scope !! "x-csrf-token".

(** A state-changing request to a path that is not exempt. *)
Definition gated (scope : Scope) : Prop :=
  scope_type scope = "http"
  ∧ str_upper (default "" (scope_method scope)) ∈ STATE_CHANGING_METHODS
  ∧ default "" (scope_path scope) ∉ CSRF_EXEMPT_PATHS.

(** The CSRF cookie, the X-CSRF-Token header and the session's stored token
    are all present and equal. *)
Definition double_submit_ok (scope : Scope) (session : SessionData) : Prop :=
  ∃ c, c ≠ "" ∧ csrf_cookie scope = Some c ∧ csrf_header scope = Some c
       ∧ csrf_token session = c.

#[global] Instance double_submit_ok_dec scope session :
  Decision (double_submit_ok scope session).
Proof.
  unfold double_submit_ok.
  destruct (csrf_cookie scope) as [c|] eqn:Ec; [|right; naive_solver].
  destruct (decide (c ≠ "")); [|right; naive_solver].
  destruct (decide (csrf_header scope = Some c)); [|right; naive_solver].
  destruct (decide (csrf_token session = c)); [|right; naive_solver].
  left. by exists c.
Defined.

Lemma str_truthy_Some s : str_truthy (Some s) = true ↔ s ≠ "".
Proof.
  simpl. destruct (String.eqb_spec s ""); simpl; naive_solver.
Qed.

Lemma str_truthy_false s :
  str_truthy s = false ↔ s = None ∨ s = Some "".
Proof.
  destruct s as [s|]; simpl; [|naive_solver].
  destruct (String.eqb_spec s ""); simpl; naive_solver.
Qed.

Lemma get_session_no_token token w :
  str_truthy token = false → get_session token w = (Ok None, w).
Proof. intros H. unfold get_session. by rewrite H. Qed.

(** The gate, for a gated request, by the outcome of the session lookup. *)
Lemma CSRFMiddleware_gated scope app w :
  gated scope →
  CSRFMiddleware scope app w =
    match get_session (session_cookie scope) w with
    | (Ok None, w') => (Ok unauthorized_response, w')
    | (Ok (Some session), w') =>
        if decide (double_submit_ok scope session) then app w'
        else (Ok csrf_invalid_response, w')
    | (Raise e, w') => (Raise e, w')
    end.
Proof.
  intros (Ht & Hm & Hp). unfold CSRFMiddleware.
  rewrite Ht. simpl.
  assert (String.eqb (str_upper (default "" (scope_method scope))) "OPTIONS" = false)
    as ->.
  { apply String.eqb_neq. intros E. rewrite E in Hm.
    unfold STATE_CHANGING_METHODS in Hm. set_solver. }
  rewrite (bool_decide_eq_true_2 _ Hm), (bool_decide_eq_false_2 _ Hp). simpl.
  fold (gate_headers scope). fold (gate_cookies scope).
  fold (session_cookie scope).
  change (gate_cookies scope !! CSRF_COOKIE_NAME) with (csrf_cookie scope).
  change (gate_headers scope !! str_lower CSRF_HEADER_NAME) with (csrf_header scope).
  destruct (str_truthy (session_cookie scope)) eqn:Hs; simpl.
  2: { by rewrite get_session_no_token. }
  unfold mbind at 1, M_bind at 1.
  destruct (get_session (session_cookie scope) w) as [[[session|]|e] w']; try done.
  destruct (decide (double_submit_ok scope session)) as [(c & Hc & Hck & Hhd & Hst)|Hno].
  - rewrite Hck, Hhd. apply str_truthy_Some in Hc. rewrite Hc. simpl.
    rewrite bool_decide_eq_true_2 by done.
    rewrite bool_decide_eq_true_2 by (by rewrite Hst). done.
  - destruct (str_truthy (csrf_cookie scope)) eqn:Hck; simpl; [|done].
    destruct (str_truthy (csrf_header scope)) eqn:Hhd; simpl; [|done].
    destruct (bool_decide (csrf_cookie scope = csrf_header scope)) eqn:E1;
      simpl; [|done].
    destruct (bool_decide (Some (csrf_token session) = csrf_header scope)) eqn:E2;
      simpl; [|done].
    exfalso. apply Hno.
    apply bool_decide_eq_true_1 in E1, E2.
    exists (csrf_token session). rewrite E1, <- E2 in *.
    split_and!; try done. by apply str_truthy_Some.
Qed.

(** C5: on a state-changing request to a non-exempt path, a request whose
    session cookie resolves to no session is answered 401 UNAUTHORIZED; one
    with a session is answered 403 CSRF_INVALID unless the CSRF cookie, the
    X-CSRF-Token header and the session's stored token are all present and
    equal; and exactly in that last case the wrapped application runs.  The
    rejections do not depend on the application, which is never called. *)
Theorem csrf_gate (scope : Scope) (w : World) :
  gated scope →
  match get_session (session_cookie scope) w with
  | (Ok None, w') =>
      ∀ app, CSRFMiddleware scope app w = (Ok unauthorized_response, w')
  | (Ok (Some session), w') =>
      (double_submit_ok scope session →
       ∀ app, CSRFMiddleware scope app w = app w')
      ∧ (¬ double_submit_ok scope session →
         ∀ app, CSRFMiddleware scope app w = (Ok csrf_invalid_response, w'))
  | (Raise e, w') => ∀ app, CSRFMiddleware scope app w = (Raise e, w')
  end.
Proof.
  intros Hg.
  pose proof (λ app, CSRFMiddleware_gated scope app w Hg) as H.
  destruct (get_session (session_cookie scope) w) as [[[session|]|e] w']; try done.
  split; intros Hd app; rewrite H; by destruct (decide _).
Qed.

(** The two rejections are the documented error envelopes. *)
Lemma gate_responses :
  status_code unauthorized_response = 401
  ∧ status_code csrf_invalid_response = 403
  ∧ unauthorized_response =
      build_error_response 401 "UNAUTHORIZED" "Authentication required."
  ∧ csrf_invalid_response =
      build_error_response 403 "CSRF_INVALID" "Request not allowed.".
Proof. done. Qed.

End GateFacts.

(** ** routes/vault.py *)

(** The primary key of [entries]. *)
Definition db_wf (d : Database) : Prop := NoDup (map er_id (entries d)).

(** The row [_get_or_create_unlock_throttle] creates. *)
Definition fresh_throttle : UnlockThrottleRecord :=
  {| failed_attempts := 0; next_allowed_at := None |}.

(** The invariant of the throttle row, with the range of its counter. *)
Definition throttle_ok (t : UnlockThrottleRecord) : Prop :=
  0 ≤ failed_attempts t ∧ (failed_attempts t = 0 ↔ next_allowed_at t = None).

Definition throttle_inv (d : Database) : Prop :=
  ∀ t, unlock_throttle d = Some t → throttle_ok t.

(** A vault as [vault_setup] leaves it: a verifier, a salt of at least 16
    bytes and Argon2 parameters in the range the library accepts. *)
Definition vault_initialized (d : Database) : Prop :=
  ∃ md vault_salt mem time par,
    vault_metadata d = Some md
    ∧ str_truthy (pw_verifier md) = true
    ∧ argon2_salt md = Some vault_salt ∧ (16 ≤ length vault_salt)%nat
    ∧ argon2_memory_cost md = Some mem
    ∧ argon2_time_cost md = Some time
    ∧ argon2_parallelism md = Some par
    ∧ 1 ≤ time ∧ 1 ≤ par ∧ 8 * par ≤ mem.

Definition stored_verifier (d : Database) : string :=
  default "" (vault_metadata d ≫= pw_verifier).

(** The throttle row an unlock attempt works on. *)
Definition current_throttle (d : Database) : UnlockThrottleRecord :=
  default fresh_throttle (unlock_throttle d).

(** What the request's first [datetime.now(UTC)] returns. *)
Definition now_of (w : World) : datetime := Aware (clock w (clock_reads w)) 0.

Section LibContracts.
Context `{L : Lib}.

(** Argon2 returns the 32 bytes asked for when its parameters are legal. *)
Definition argon2_raw_ok : Prop :=
  ∀ secret raw_salt t m p,
    (16 ≤ length raw_salt)%nat → 1 ≤ t → 1 ≤ p → 8 * p ≤ m →
    ∃ k, hash_secret_raw secret raw_salt t m p = Some k ∧ length k = 32%nat.

(** HKDF returns the 32 bytes asked for. *)
Definition hkdf_length_ok : Prop :=
  ∀ info ikm, length (hkdf_sha256 info ikm) = 32%nat.


(** AES-GCM decrypts what it encrypted. *)
Definition aesgcm_ok : Prop :=
  ∀ key nonce data aad,
    aesgcm_decrypt key nonce (aesgcm_encrypt key nonce data aad) aad = Some data.

Definition utf8_ok : Prop := ∀ s, utf8_decode (utf8_encode s) = Some s.
Definition json_ok : Prop := ∀ v, json_loads (json_dumps v) = Ok v.
Definition b64_ok : Prop := ∀ b, b64decode (b64encode b) = Some b.

(** pydantic reads back the scalars it serialised. *)
Definition pydantic_ok : Prop :=
  (∀ b, validate_bool (PBool b) = Some b)
  ∧ (∀ z, validate_int (PInt z) = Some z)
  ∧ (∀ u, validate_uuid (PStr (uuid_str u)) = Some u)
  ∧ (∀ d, validate_datetime (PStr (serialize_datetime d)) = Some d).

End LibContracts.

#[local] Arguments _sanitize_meta : simpl never.

Ltac run :=
  unfold mbind, M_bind, mret, M_ret, lift, raise, get_world, put_world,
         db_read, db_write, db_commit, db_rollback, datetime_now, os_urandom,
         record_event in *; simpl in *.

Section VaultFacts.
Context `{L : Lib}.

Lemma str_truthy_eqb v : str_truthy (Some v) = negb (String.eqb v "").
Proof. done. Qed.

(** A mapping all of whose entries are kept is stored as it is. *)
Lemma sanitize_meta_all_kept (m : gmap string pyval) :
  m ≠ ∅ → map_Forall (λ k v, kept k v = true) m → _sanitize_meta (Some m) = Some m.
Proof.
  intros Hne Hall. apply sanitize_meta_Some. exists m. split; [done|].
  assert (map_fold sanitize_step ∅ m = m) as ->; [|done].
  apply map_eq. intros k. rewrite sanitize_loop_lookup.
  destruct (m !! k) as [v|] eqn:Hk; simpl; [|done]. by rewrite (Hall k v Hk).
Qed.

(** Where an unlock request can leave the persisted throttle row. *)
Lemma vault_unlock_throttle_cases payload w :
  let w' := snd (run_endpoint (vault_unlock payload) w) in
  unlock_throttle (committed w') = unlock_throttle (committed w)
  ∨ unlock_throttle (committed w') = Some fresh_throttle
  ∨ ∃ t, unlock_throttle (committed w') =
      Some {| failed_attempts := failed_attempts (current_throttle (committed w)) + 1;
              next_allowed_at := Some t |}.
Proof.
  unfold run_endpoint, vault_unlock, _get_vault_metadata, write_audit_event,
    _get_or_create_unlock_throttle, create_session, current_throttle, fresh_throttle.
  run.
  repeat (case_match; run; simplify_eq; try (left; done); try (right; left; done));
    by (right; right; eexists).
Qed.

Lemma vault_setup_throttle_cases payload w :
  let w' := snd (run_endpoint (vault_setup payload) w) in
  unlock_throttle (committed w') = unlock_throttle (committed w)
  ∨ unlock_throttle (committed w') = Some fresh_throttle.
Proof.
  unfold run_endpoint, vault_setup, _get_vault_metadata, write_audit_event,
    _get_or_create_unlock_throttle, _get_or_create_settings,
    generate_argon2_salt, hash_password_verifier, fresh_throttle.
  run.
  repeat (case_match; run; simplify_eq; try (left; done); try (right; done)).
Qed.

Lemma vault_lock_throttle_unchanged request w :
  unlock_throttle (committed (snd (run_endpoint (vault_lock request) w)))
  = unlock_throttle (committed w).
Proof.
  unfold run_endpoint, vault_lock, destroy_session, write_audit_event. run.
  repeat (case_match; run; simplify_eq; try done).
Qed.

(** C9: in the persisted throttle row, [failed_attempts] is 0 exactly when
    [next_allowed_at] is null.  This holds of the row as it is created, and
    every request that writes the row (setup and unlock, whichever branch
    they take) leaves a row of which it holds, given one of which it held
    before; the counter stays non-negative along the way. *)
Theorem throttle_invariant :
  throttle_ok fresh_throttle
  ∧ (∀ w, unlock_throttle (tx w) = None →
          _get_or_create_unlock_throttle w
          = (Ok fresh_throttle, with_tx w (set_unlock_throttle (tx w) fresh_throttle)))
  ∧ (∀ payload w, throttle_inv (committed w) →
       throttle_inv (committed (snd (run_endpoint (vault_setup payload) w))))
  ∧ (∀ payload w, throttle_inv (committed w) →
       throttle_inv (committed (snd (run_endpoint (vault_unlock payload) w)))).
Proof.
  assert (throttle_ok fresh_throttle) as Hfresh by (by split).
  split_and!; [done|..].
  - intros w Hnone. unfold _get_or_create_unlock_throttle. run. by rewrite Hnone.
  - intros payload w Hinv t.
    destruct (vault_setup_throttle_cases payload w) as [->| ->]; [apply Hinv|].
    by intros [= <-].
  - intros payload w Hinv t.
    destruct (vault_unlock_throttle_cases payload w) as [->|[->|[t' ->]]];
      [apply Hinv|by intros [= <-]|].
    intros [= <-]. unfold throttle_ok; simpl.
    assert (0 ≤ failed_attempts (current_throttle (committed w))) as Hge.
    { unfold current_throttle. destruct (unlock_throttle (committed w)) as [t0|] eqn:E.
      - by apply Hinv.
      - done. }
    split; [lia|]. split; [lia|done].
Qed.

Lemma derive_keys_ok pw vault_salt mem time par :
  argon2_raw_ok → hkdf_length_ok →
  (12 ≤ String.length pw ≤ 128)%nat → (16 ≤ length vault_salt)%nat →
  1 ≤ time → 1 ≤ par → 8 * par ≤ mem →
  ∃ master_key key,
    derive_master_key_raw pw vault_salt (Argon2Params_of mem time par) = Ok master_key
    ∧ derive_enc_key master_key = Ok key ∧ length key = 32%nat.
Proof.
  intros Ha Hh [Hlo Hhi] Hs Ht Hp Hm.
  destruct (Ha (utf8_encode pw) vault_salt time mem par) as (k & Hk & Hlen); try done.
  exists k, (hkdf_sha256 (ascii_bytes "vault/enc_key/v1") k).
  unfold derive_master_key_raw, derive_enc_key, _derive_key.
  apply Nat.leb_le in Hlo as ->. apply Nat.leb_le in Hhi as ->.
  destruct (Nat.ltb_spec (length vault_salt) 16); [lia|].
  cbn [negb andb time_cost memory_cost parallelism Argon2Params_of].
  rewrite Hk. cbn [or_raise]. rewrite Hlen. done.
Qed.

(** What the code does of C2: an unlock attempt on an initialized vault
    whose throttle gate evaluates and lets the attempt through, which it
    does on a row without a deadline.  If the master password does not
    verify, the persisted row has [failed_attempts] one higher and
    [next_allowed_at] at now plus min(300, 2^min(failed_attempts, 8))
    seconds, with the incremented count, and the request fails 401
    UNAUTHORIZED; if it verifies, the persisted row is (0, null) and the
    request succeeds.  On a row with a deadline as the database returns it
    the gate raises: see [unlock_after_failed_attempt]. *)
Theorem unlock_bumps_or_resets (payload : VaultUnlockRequest) (w : World) :
  argon2_raw_ok → hkdf_length_ok →
  vault_initialized (committed w) →
  db_wf (committed w) →
  (12 ≤ String.length (masterPassword payload) ≤ 128)%nat →
  0 ≤ failed_attempts (current_throttle (committed w)) →
  throttle_gate (current_throttle (committed w)) (now_of w) = Ok false →
  let result := run_endpoint (vault_unlock payload) w in
  let attempts := failed_attempts (current_throttle (committed w)) + 1 in
  (verify_password (masterPassword payload) (stored_verifier (committed w)) = Ok false →
     fst result = build_error_response 401 "UNAUTHORIZED" "Unlock failed."
     ∧ unlock_throttle (committed (snd result)) =
         Some {| failed_attempts := attempts;
                 next_allowed_at :=
                   Some (dt_add_seconds (now_of w)
                           (Z.min 300 (2 ^ Z.min attempts 8))) |})
  ∧ (verify_password (masterPassword payload) (stored_verifier (committed w)) = Ok true →
     status_code (fst result) = 200
     ∧ unlock_throttle (committed (snd result)) =
         Some {| failed_attempts := 0; next_allowed_at := None |}).
Proof.
  intros Ha Hh (md & vault_salt & mem & time & par & Hmd & Hv & Hs & Hsl & Hm & Ht
                & Hp & Ht1 & Hp1 & Hm1) Hwf Hpw Hfa Hgate result attempts.
  destruct (derive_keys_ok (masterPassword payload) vault_salt mem time par)
    as (master_key & key & Hmk & Hkey & Hklen); try done.
  subst result attempts.
  unfold stored_verifier, current_throttle, now_of in *. rewrite Hmd in *. simpl in *.
  destruct (pw_verifier md) as [verifier|] eqn:Hver; [|done]. simpl in *.
  unfold run_endpoint, vault_unlock, _get_vault_metadata, write_audit_event,
    _get_or_create_unlock_throttle, create_session, delay_seconds_of.
  run. rewrite Hmd. simpl. rewrite Hver, Hs, Hm, Ht, Hp. simpl. rewrite Hv. simpl.
  unfold db_wf in Hwf.
  split.
  - intros Hvp.
    destruct (unlock_throttle (committed w)) as [thr|] eqn:Hthr; run;
      try rewrite Hgate; run; rewrite Hvp; run;
      rewrite bool_decide_eq_true_2 by done; run; done.
  - intros Hvp.
    destruct (unlock_throttle (committed w)) as [thr|] eqn:Hthr; run;
      try rewrite Hgate; run; rewrite Hvp; run; rewrite Hmk; run; rewrite Hkey; run;
      rewrite Hklen; run; rewrite bool_decide_eq_true_2 by done; run; done.
Qed.

Lemma throttled_meta_kept n :
  _sanitize_meta (Some (<["reason" := PStr "throttled"]>
                          {[ "retry_after_seconds" := PInt n ]}))
  = Some (<["reason" := PStr "throttled"]> {[ "retry_after_seconds" := PInt n ]}).
Proof.
  apply sanitize_meta_all_kept.
  - apply insert_non_empty.
  - apply map_Forall_insert_2; [done|]. by apply map_Forall_singleton.
Qed.

(** The throttled branch as the specification describes it, for a deadline
    that carries its timezone: 429 RATE_LIMITED, the verifier not consulted,
    the row untouched, and a FAILURE audit event with the seconds left. *)
Lemma unlock_throttled_aware payload w thr t off :
  vault_initialized (committed w) → db_wf (committed w) →
  unlock_throttle (committed w) = Some thr →
  next_allowed_at thr = Some (Aware t off) →
  clock w (clock_reads w) < t →
  let result := run_endpoint (vault_unlock payload) w in
  fst result
    = build_error_response 429 "RATE_LIMITED" "Too many attempts. Try again later."
  ∧ events (snd result) = events w
  ∧ unlock_throttle (committed (snd result)) = Some thr
  ∧ ∃ r, audit (committed (snd result)) = audit (committed w) ++ [r]
         ∧ ar_type r = "VAULT_UNLOCK" ∧ ar_outcome r = "FAILURE"
         ∧ ar_meta r =
             Some (<["reason" := PStr "throttled"]>
                     {[ "retry_after_seconds" :=
                          PInt (Z.max 1 (Z.quot (t - clock w (clock_reads w)) 1000000)) ]}).
Proof.
  intros (md & vault_salt & mem & time & par & Hmd & Hv & Hs & Hsl & Hm & Ht
          & Hp & Ht1 & Hp1 & Hm1) Hwf Hthr Hnaa Hlt result.
  subst result.
  destruct (pw_verifier md) as [verifier|] eqn:Hver; [|done].
  unfold run_endpoint, vault_unlock, _get_vault_metadata, write_audit_event,
    _get_or_create_unlock_throttle, throttle_gate, total_seconds_int.
  run. rewrite Hmd. simpl. rewrite Hver, Hs, Hm, Ht, Hp. simpl. rewrite Hv. simpl.
  rewrite Hthr. simpl. rewrite Hnaa. simpl.
  apply Z.ltb_lt in Hlt as Hlt'. rewrite Hlt'. simpl.
  unfold db_wf in Hwf. rewrite bool_decide_eq_true_2 by done. simpl.
  split_and!; try done.
  eexists; split_and!; try done; apply throttled_meta_kept.
Qed.

(** The same request when the deadline comes back from the database without
    its timezone: the comparison with [now] raises, and the request ends as
    an unhandled error, with nothing committed. *)
Lemma unlock_naive_deadline_raises payload w thr t :
  vault_initialized (committed w) →
  unlock_throttle (committed w) = Some thr →
  next_allowed_at thr = Some (Naive t) →
  let result := run_endpoint (vault_unlock payload) w in
  fst result = build_error_response 500 "INTERNAL_ERROR" "Unexpected error."
  ∧ committed (snd result) = committed w
  ∧ sessions (snd result) = sessions w
  ∧ events (snd result) = events w.
Proof.
  intros (md & vault_salt & mem & time & par & Hmd & Hv & Hs & Hsl & Hm & Ht
          & Hp & Ht1 & Hp1 & Hm1) Hthr Hnaa.
  destruct (pw_verifier md) as [verifier|] eqn:Hver; [|done].
  unfold run_endpoint, vault_unlock, _get_vault_metadata,
    _get_or_create_unlock_throttle, throttle_gate.
  run. rewrite Hmd. simpl. rewrite Hver, Hs, Hm, Ht, Hp. simpl. rewrite Hv. simpl.
  rewrite Hthr. simpl. rewrite Hnaa. simpl. done.
Qed.

End VaultFacts.

(** ** sessions.py *)

Section SessionFacts.
Context `{L : Lib}.

(** Looking a session up touches the session table and the clock only. *)
Lemma get_session_frame token w :
  let w' := snd (get_session token w) in
  committed w' = committed w ∧ tx w' = tx w ∧ events w' = events w
  ∧ entropy_drawn w' = entropy_drawn w.
Proof.
  unfold get_session, idle_timeout_us. run.
  repeat (case_match; run; simplify_eq); done.
Qed.

Lemma get_session_with_tx token w d :
  get_session token (with_tx w d)
  = (fst (get_session token w), with_tx (snd (get_session token w)) d).
Proof.
  unfold get_session, idle_timeout_us. run.
  repeat (case_match; run; simplify_eq); done.
Qed.

(** The session table once [destroy_session token] has run. *)
Definition without_session (token : option string)
    (table : gmap string SessionData) : gmap string SessionData :=
  if str_truthy token then delete (default "" token) table else table.

Lemma without_session_gone tok table :
  tok ≠ "" → without_session (Some tok) table !! tok = None.
Proof.
  intros H%str_truthy_Some. unfold without_session. rewrite H. simpl.
  apply lookup_delete_eq.
Qed.

(** POST /vault/lock once it reaches its handler: there is no branch but the
    one that answers 204. *)
Lemma vault_lock_run request w :
  db_wf (committed w) →
  let result := run_endpoint (vault_lock request) w in
  fst result = {| status_code := 204; content := None;
                  cookie_ops := clear_session_cookies |}
  ∧ sessions (snd result)
      = without_session (request_cookies request !! SESSION_COOKIE_NAME) (sessions w)
  ∧ events (snd result) = events w
  ∧ ∃ r, committed (snd result) = add_audit (committed w) r
         ∧ ar_type r = "VAULT_LOCK" ∧ ar_outcome r = "SUCCESS" ∧ ar_meta r = None.
Proof.
  intros Hwf. unfold db_wf in Hwf.
  unfold run_endpoint, vault_lock, destroy_session, write_audit_event,
    without_session.
  run.
  destruct (str_truthy (request_cookies request !! SESSION_COOKIE_NAME)); run;
    rewrite bool_decide_eq_true_2 by done; run;
    (split_and!; try done; eexists; split_and!; done).
Qed.

(** A POST to /vault/lock. *)
Definition is_lock_request (request : Request) : Prop :=
  scope_type (request_scope request) = "http"
  ∧ str_upper (default "" (scope_method (request_scope request))) = "POST"
  ∧ scope_path (request_scope request) = Some "/vault/lock".

Lemma lock_request_gated request : is_lock_request request → gated (request_scope request).
Proof.
  intros (Ht & Hm & Hp). split_and!; [done|..].
  - rewrite Hm. unfold STATE_CHANGING_METHODS. set_solver.
  - rewrite Hp. simpl. unfold CSRF_EXEMPT_PATHS.
    rewrite !elem_of_cons, elem_of_nil. naive_solver.
Qed.

(** C7, as amended: /vault/lock is not an exempt path, so a POST /vault/lock
    is first screened by the request gate.  Without a session resolved from
    the session cookie it is answered 401 UNAUTHORIZED, with a session but
    without a matching CSRF cookie and header 403 CSRF_INVALID, and in both
    cases the handler does not run.  A request that passes the gate always
    succeeds with 204: the session named by the request's session cookie is
    destroyed, both cookies are cleared and a VAULT_LOCK SUCCESS audit event
    is committed; the handler itself has no error response. *)
Theorem lock_behind_gate (request : Request) (w : World) :
  is_lock_request request → db_wf (committed w) →
  let scope := request_scope request in
  let result := app_call request (vault_lock request) w in
  match get_session (session_cookie scope) w with
  | (Ok None, w1) => result = (unauthorized_response, w1)
  | (Ok (Some session), w1) =>
      (¬ double_submit_ok scope session → result = (csrf_invalid_response, w1))
      ∧ (double_submit_ok scope session →
         fst result = {| status_code := 204; content := None;
                         cookie_ops := clear_session_cookies |}
         ∧ sessions (snd result)
             = without_session (request_cookies request !! SESSION_COOKIE_NAME)
                 (sessions w1)
         ∧ ∃ r, committed (snd result) = add_audit (committed w) r
                ∧ ar_type r = "VAULT_LOCK" ∧ ar_outcome r = "SUCCESS"
                ∧ ar_meta r = None)
  | (Raise e, w1) => result = (exception_response e, w1)
  end.
Proof.
  intros Hlock Hwf scope result. subst result scope.
  unfold app_call. rewrite CSRFMiddleware_gated by (by apply lock_request_gated).
  pose proof (get_session_frame (session_cookie (request_scope request)) w) as Hframe.
  destruct (get_session (session_cookie (request_scope request)) w)
    as [[[session|]|e] w1]; simpl in Hframe; try done.
  destruct Hframe as (Hc & _ & _ & _).
  split; intros Hd; destruct (decide _) as [?|?]; try done.
  assert (db_wf (committed w1)) as Hwf1 by (by rewrite Hc).
  destruct (vault_lock_run request w1 Hwf1) as (Hr & Hs & _ & r & Hcm & Hrest).
  destruct (run_endpoint (vault_lock request) w1) as [resp w2]; simpl in *.
  split_and!; try done. exists r. by rewrite Hcm, Hc.
Qed.

End SessionFacts.

(** ** routes/backup.py: the filename check *)

Section ImportFacts.
Context `{L : Lib}.

(** The request's session cookie names a live session. *)
Definition unlocked (request : Request) (w : World) (session : SessionData)
    (w1 : World) : Prop :=
  get_session (request_cookies request !! SESSION_COOKIE_NAME) w
  = (Ok (Some session), w1).

Lemma reason_meta_kept reason :
  _sanitize_meta (Some {[ "reason" := PStr reason ]})
  = Some {[ "reason" := PStr reason ]}.
Proof.
  apply sanitize_meta_all_kept.
  - apply map_non_empty_singleton.
  - by apply map_Forall_singleton.
Qed.

(** A request turned away for its filename: the answer, and what is left
    behind. *)
Definition rejected_for_filename (event_type : string) (w : World)
    (result : Response * World) : Prop :=
  fst result
    = {| status_code := 200;
         content := Some (BackupImportPreviewResponse_model_dump
                            {| added := 0; updated := 0; skipped := 0;
                               errors := ["Invalid backup file."] |});
         cookie_ops := [] |}
  ∧ events (snd result) = events w
  ∧ entries (committed (snd result)) = entries (committed w)
  ∧ settings (committed (snd result)) = settings (committed w)
  ∧ ∃ r, committed (snd result) = add_audit (committed w) r
         ∧ ar_type r = event_type ∧ ar_outcome r = "FAILURE"
         ∧ ar_meta r = Some {[ "reason" := PStr "invalid_file_extension" ]}.

Lemma preview_bad_filename request file password w session w1 :
  unlocked request w session w1 → bad_backup_filename file = true →
  db_wf (committed w) →
  rejected_for_filename "BACKUP_IMPORT_PREVIEW" w
    (run_endpoint (import_endpoint (preview_import_backup request file password)) w).
Proof.
  intros Hs Hbad Hwf. unfold rejected_for_filename, db_wf, unlocked in *.
  pose proof (get_session_frame (request_cookies request !! SESSION_COOKIE_NAME) w)
    as Hframe.
  rewrite Hs in Hframe. simpl in Hframe. destruct Hframe as (Hc & _ & He & _).
  unfold run_endpoint, import_endpoint, preview_import_backup,
    _require_unlocked_session, write_audit_event.
  run. rewrite get_session_with_tx, Hs. simpl. rewrite Hbad. run.
  rewrite bool_decide_eq_true_2 by done. run.
  split_and!; try done. eexists; split_and!; try done; apply reason_meta_kept.
Qed.

Lemma apply_bad_filename request file password w session w1 :
  unlocked request w session w1 → bad_backup_filename file = true →
  db_wf (committed w) →
  rejected_for_filename "BACKUP_IMPORT_APPLY" w
    (run_endpoint (import_endpoint (apply_import_backup request file password)) w).
Proof.
  intros Hs Hbad Hwf. unfold rejected_for_filename, db_wf, unlocked in *.
  pose proof (get_session_frame (request_cookies request !! SESSION_COOKIE_NAME) w)
    as Hframe.
  rewrite Hs in Hframe. simpl in Hframe. destruct Hframe as (Hc & _ & He & _).
  unfold run_endpoint, import_endpoint, apply_import_backup,
    _require_unlocked_session, write_audit_event.
  run. rewrite get_session_with_tx, Hs. simpl. rewrite Hbad. run.
  rewrite bool_decide_eq_true_2 by done. run.
  split_and!; try done. eexists; split_and!; try done; apply reason_meta_kept.
Qed.

(** With a bad filename neither handler looks at the upload or the password. *)
Lemma bad_filename_ignores_upload request name content content' password password' w :
  let file := {| filename := name; file_content := content |} in
  let file' := {| filename := name; file_content := content' |} in
  bad_backup_filename file = true →
  preview_import_backup request file password w
    = preview_import_backup request file' password' w
  ∧ apply_import_backup request file password w
    = apply_import_backup request file' password' w.
Proof.
  intros file file' Hbad.
  assert (bad_backup_filename file' = true) as Hbad' by done.
  unfold preview_import_backup, apply_import_backup. run.
  rewrite Hbad, Hbad'. done.
Qed.

(** C10: in an unlocked session, POST /backup/import/preview and POST
    /backup/import/apply with an upload that has no filename, or one that
    does not end in ".json" whatever the case of its letters, answer HTTP 200
    with added = updated = skipped = 0 and errors = ["Invalid backup file."];
    the upload is never read (and so neither parsed nor decrypted: the
    outcome is the same for any content and any password), entries and
    settings stay as they were, and the one thing committed is a FAILURE
    audit event. *)
Theorem import_rejects_bad_filename (request : Request) (file : UploadFile)
    (password : option string) (w : World) session w1 :
  unlocked request w session w1 →
  bad_backup_filename file = true →
  db_wf (committed w) →
  rejected_for_filename "BACKUP_IMPORT_PREVIEW" w
    (run_endpoint (import_endpoint (preview_import_backup request file password)) w)
  ∧ rejected_for_filename "BACKUP_IMPORT_APPLY" w
      (run_endpoint (import_endpoint (apply_import_backup request file password)) w)
  ∧ ∀ content' password',
      let file' := {| filename := filename file; file_content := content' |} in
      run_endpoint (import_endpoint (preview_import_backup request file' password')) w
      = run_endpoint (import_endpoint (preview_import_backup request file password)) w
      ∧ run_endpoint (import_endpoint (apply_import_backup request file' password')) w
        = run_endpoint (import_endpoint (apply_import_backup request file password)) w.
Proof.
  intros Hs Hbad Hwf. split_and!.
  - by eapply preview_bad_filename.
  - by eapply apply_bad_filename.
  - intros content' password' file'. destruct file as [name content].
    destruct (bad_filename_ignores_upload request name content' content
                password' password (with_tx w (committed w))) as [H1 H2]; [done|].
    unfold run_endpoint, import_endpoint. run. subst file'. simpl.
    by rewrite H1, H2.
Qed.

End ImportFacts.

(** ** routes/entries.py: the listing *)

Section ListFacts.
Context `{L : Lib}.














Definition summary_fields : gset string :=
  {[ "id"; "title"; "username"; "url"; "favorite"; "updatedAt" ]}.

Lemma summary_dump_fields (s : EntrySummary) :
  ∃ m, EntrySummary_model_dump s = PDict m
       ∧ dom m = summary_fields
       ∧ m !! "password" = None ∧ m !! "notes" = None.
Proof.
  eexists. split; [reflexivity|]. split_and!; [|done|done].
  simpl. rewrite !dom_insert_L, dom_empty_L. unfold summary_fields. set_solver.
Qed.













End ListFacts.

(** ** schemas.py and backup.py: the round trip *)

Section BackupFacts.
Context `{L : Lib}.

(** The constraints of the schemas, on values of the field types. *)
Definition stripped (s : string) : Prop := strip_whitespace s = s.

Definition valid_str (min_length max_length : nat) (s : string) : Prop :=
  stripped s ∧ (min_length ≤ String.length s ≤ max_length)%nat.

Definition valid_url (u : option string) : Prop :=
  match u with
  | None => True
  | Some v =>
      stripped v ∧ v ≠ ""
      ∧ ∃ parts, urlsplit v = Some parts
                 ∧ str_lower (scheme parts) ∈ ["http"; "https"]
                 ∧ netloc parts ≠ ""
  end.

Definition valid_notes (n : option string) : Prop :=
  match n with
  | None => True
  | Some s => stripped s ∧ (String.length s ≤ 2000)%nat
  end.

Definition valid_tag (tag : string) : Prop :=
  valid_str 1 24 tag ∧ TAG_PATTERN_fullmatch tag = true.

Definition valid_entry (e : Entry) : Prop :=
  valid_str 1 128 (title e) ∧ valid_url (url e)
  ∧ valid_str 1 128 (username e) ∧ valid_str 1 256 (password e)
  ∧ valid_notes (notes e)
  ∧ (length (tags e) ≤ 10)%nat ∧ Forall valid_tag (tags e).

Definition valid_settings (s : SettingsModel) : Prop :=
  1 ≤ autoLockMinutes s ≤ 120 ∧ 5 ≤ clipboardClearSeconds s ≤ 120.

Lemma validate_str_valid min_length max_length s :
  valid_str min_length max_length s →
  validate_str true min_length (Some max_length) (PStr s) = Some s.
Proof.
  intros [Hs [Hlo Hhi]]. unfold validate_str. rewrite Hs.
  apply Nat.leb_le in Hlo as ->. by apply Nat.leb_le in Hhi as ->.
Qed.

Lemma validate_str_stripped s :
  stripped s → validate_str true 0 None (PStr s) = Some s.
Proof. intros Hs. unfold validate_str. by rewrite Hs. Qed.

Lemma validate_url_str_valid u :
  valid_url u →
  validate_optional (validate_str true 0 None) (dump_optional_str u) = Some u.
Proof.
  destruct u as [v|]; [|done]. intros (Hs & _).
  unfold dump_optional_str, validate_optional.
  by rewrite validate_str_stripped.
Qed.

Lemma validate_url_scheme_valid u : valid_url u → validate_url_scheme u = Some u.
Proof.
  destruct u as [v|]; [|done].
  intros (Hs & Hne & parts & Hsplit & Hscheme & Hnet). unfold validate_url_scheme.
  apply String.eqb_neq in Hne as ->. rewrite Hsplit. simpl.
  rewrite bool_decide_eq_true_2 by done. simpl.
  by apply String.eqb_neq in Hnet as ->.
Qed.

Lemma validate_notes_valid n :
  valid_notes n →
  validate_optional (validate_str true 0 (Some 2000%nat)) (dump_optional_str n)
  = Some n.
Proof.
  destruct n as [s|]; [|done]. intros [Hs Hlen].
  unfold dump_optional_str, validate_optional.
  rewrite validate_str_valid; [done|]. split; [done|lia].
Qed.

Lemma validate_tags_valid ts :
  (length ts ≤ 10)%nat → Forall valid_tag ts →
  (vs ← mapM (validate_str true 1 (Some 24%nat)) (PStr <$> ts);
   if (length vs <=? 10)%nat then validate_tags vs else None) = Some ts.
Proof.
  intros Hlen Hall.
  assert (mapM (validate_str true 1 (Some 24%nat)) (PStr <$> ts) = Some ts) as ->.
  { apply mapM_Some. rewrite Forall2_fmap_l. apply Forall_Forall2_diag.
    eapply Forall_impl; [|exact Hall]. intros t [Ht _].
    change (validate_str true 1 (Some 24%nat) (PStr t) = Some t).
    by apply validate_str_valid. }
  simpl. apply Nat.leb_le in Hlen as ->. unfold validate_tags.
  apply mapM_Some. apply Forall_Forall2_diag.
  eapply Forall_impl; [|exact Hall]. intros t [_ ->]. done.
Qed.

Lemma Entry_validate_dump e :
  Entry_model_validate (Entry_model_dump e) =
    (title ← validate_str true 1 (Some 128%nat) (PStr (title e));
     url ← validate_optional (validate_str true 0 None) (dump_optional_str (url e));
     url ← validate_url_scheme url;
     username ← validate_str true 1 (Some 128%nat) (PStr (username e));
     password ← validate_str true 1 (Some 256%nat) (PStr (password e));
     notes ← validate_optional (validate_str true 0 (Some 2000%nat))
               (dump_optional_str (notes e));
     tags ← (ts ← mapM (validate_str true 1 (Some 24%nat)) (PStr <$> tags e);
             if (length ts <=? 10)%nat then validate_tags ts else None);
     favorite ← validate_bool (PBool (favorite e));
     id ← validate_uuid (PStr (uuid_str (entry_id e)));
     updatedAt ← validate_datetime (PStr (serialize_datetime (updatedAt e)));
     Some {| title := title; url := url; username := username;
             password := password; notes := notes; tags := tags;
             favorite := favorite; entry_id := id; updatedAt := updatedAt |}).
Proof. reflexivity. Qed.

(** An entry that meets the schema is read back from its own dump. *)
Lemma Entry_round_trip e :
  pydantic_ok → valid_entry e → Entry_model_validate (Entry_model_dump e) = Some e.
Proof.
  intros (Hb & Hi & Hu & Hd) (Ht & Hurl & Hun & Hpw & Hn & Hlen & Htags).
  rewrite Entry_validate_dump.
  rewrite !validate_str_valid by done. simpl.
  rewrite validate_url_str_valid by done. simpl.
  rewrite validate_url_scheme_valid by done. simpl.
  rewrite validate_notes_valid by done. simpl.
  rewrite validate_tags_valid by done. simpl.
  rewrite Hb, Hu, Hd. simpl. by destruct e.
Qed.

Lemma Settings_round_trip s :
  pydantic_ok → valid_settings s →
  SettingsModel_model_validate (SettingsModel_model_dump s) = Some s.
Proof.
  intros (Hb & Hi & Hu & Hd) ([Ha1 Ha2] & [Hc1 Hc2]).
  unfold SettingsModel_model_validate, SettingsModel_model_dump.
  change (negb (no_extra_keys SettingsModel_fields _)) with false. cbv iota.
  change (list_to_map _ !! "autoLockMinutes")
    with (Some (PInt (autoLockMinutes s))).
  change (list_to_map _ !! "clipboardClearSeconds")
    with (Some (PInt (clipboardClearSeconds s))).
  change (list_to_map _ !! "requireReauthForCopy")
    with (Some (PBool (requireReauthForCopy s))).
  unfold required, validate_int_range. simpl. rewrite !Hi, Hb. simpl.
  apply Z.leb_le in Ha1 as ->, Ha2 as ->, Hc1 as ->, Hc2 as ->. simpl.
  by destruct s.
Qed.

Lemma Bundle_validate_dump b :
  BackupBundle_model_validate (BackupBundle_model_dump b) =
    (es ← mapM Entry_model_validate (Entry_model_dump <$> bundle_entries b);
     st ← SettingsModel_model_validate (SettingsModel_model_dump (bundle_settings b));
     ex ← validate_datetime (PStr (serialize_datetime (exportedAt b)));
     Some {| bundle_entries := es; bundle_settings := st; exportedAt := ex |}).
Proof. reflexivity. Qed.

(** A bundle of valid entries and settings is read back from its own dump. *)
Lemma Bundle_round_trip b :
  pydantic_ok → Forall valid_entry (bundle_entries b) →
  valid_settings (bundle_settings b) →
  BackupBundle_model_validate (BackupBundle_model_dump b) = Some b.
Proof.
  intros Hp He Hs. rewrite Bundle_validate_dump.
  assert (mapM Entry_model_validate (Entry_model_dump <$> bundle_entries b)
          = Some (bundle_entries b)) as ->.
  { apply mapM_Some. rewrite Forall2_fmap_l. apply Forall_Forall2_diag.
    eapply Forall_impl; [|exact He]. intros e Hv.
    change (Entry_model_validate (Entry_model_dump e) = Some e).
    by apply Entry_round_trip. }
  cbn [mbind option_bind]. rewrite Settings_round_trip by done.
  destruct Hp as (_ & _ & _ & ->). by destruct b.
Qed.

Lemma os_urandom_length n w : length (match os_urandom n w with
                                      | (Ok b, _) => b
                                      | _ => []
                                      end) = n.
Proof. unfold os_urandom. simpl. by rewrite length_map, length_seq. Qed.

(** What was encrypted under a key decrypts under it. *)
Lemma decrypt_encrypt key drawn obj :
  aesgcm_ok → utf8_ok → json_ok →
  length key = 32%nat → length drawn = 12%nat →
  decrypt_json key drawn (aesgcm_encrypt key drawn (_canonical_json obj) AES_GCM_AAD)
  = Ok obj.
Proof.
  intros Ha Hu Hj Hk Hn. rewrite decrypt_json_run by done.
  rewrite Ha. simpl. unfold _canonical_json. rewrite Hu. simpl. by rewrite Hj.
Qed.

(** The export passwords [build_backup_envelope] accepts: none (or the empty
    string, which counts as none), or one the KDF takes. *)
Definition export_password_ok (pw : option string) : Prop :=
  str_truthy pw = false
  ∨ ∃ p, pw = Some p ∧ (12 ≤ String.length p ≤ 128)%nat.

Lemma derive_backup_key_ok pw drawn_salt mem time par :
  argon2_raw_ok →
  (12 ≤ String.length pw ≤ 128)%nat → (16 ≤ length drawn_salt)%nat →
  1 ≤ time → 1 ≤ par → 8 * par ≤ mem →
  ∃ master_key,
    derive_master_key_raw pw drawn_salt (Argon2Params_of mem time par) = Ok master_key
    ∧ derive_backup_key master_key
      = Ok (hkdf_sha256 (ascii_bytes "vault/backup_key/v1") master_key)
    ∧ length master_key = 32%nat.
Proof.
  intros Ha [Hlo Hhi] Hs Ht Hp Hm.
  destruct (Ha (utf8_encode pw) drawn_salt time mem par) as (k & Hk & Hlen); try done.
  exists k.
  unfold derive_master_key_raw, derive_backup_key, _derive_key.
  apply Nat.leb_le in Hlo as ->. apply Nat.leb_le in Hhi as ->.
  destruct (Nat.ltb_spec (length drawn_salt) 16); [lia|].
  cbn [negb andb time_cost memory_cost parallelism Argon2Params_of].
  rewrite Hk. cbn [or_raise]. rewrite Hlen. done.
Qed.

(** A non-empty export password outside the KDF's range of 12 to 128
    characters makes the export fail. *)
Lemma build_rejects_password entries settings key p w :
  length key = 32%nat → p ≠ "" →
  ¬ (12 ≤ String.length p ≤ 128)%nat →
  fst (build_backup_envelope entries settings key (Some p) w)
  = Raise (ValueError "Master password must be between 12 and 128 characters.").
Proof.
  intros Hk Hp Hlen.
  assert (((12 <=? String.length p)%nat && (String.length p <=? 128)%nat) = false)
    as Hrange.
  { destruct (Nat.leb_spec 12 (String.length p)); simpl; [|done].
    destruct (Nat.leb_spec (String.length p) 128); simpl; [lia|done]. }
  unfold build_backup_envelope, generate_argon2_salt, derive_master_key_raw,
    str_truthy.
  change (default "" (Some p)) with p.
  rewrite Hk, Hrange. apply String.eqb_neq in Hp as ->. by run.
Qed.

#[local] Arguments BackupBundle_model_validate : simpl never.
#[local] Arguments BackupBundle_model_dump : simpl never.
#[local] Arguments decrypt_json : simpl never.
#[local] Arguments derive_master_key_raw : simpl never.
#[local] Arguments derive_backup_key : simpl never.

(** C3: for valid entries E, settings S, a 32-byte session key k and an
    export password pw that is absent or one the KDF takes,
    [build_backup_envelope E S k pw] returns an envelope, and loading
    that envelope returns a bundle with entries E and settings S: under the
    same session key when there was no password, and under the same password
    (with the KDF parameters and salt the envelope records) whatever the
    session key of the loading side. *)
Theorem backup_round_trip (E : list Entry) (S : SettingsModel) (k : bytes)
    (pw : option string) (w : World) :
  aesgcm_ok → utf8_ok → json_ok → b64_ok → pydantic_ok →
  argon2_raw_ok → hkdf_length_ok →
  Forall valid_entry E → valid_settings S → length k = 32%nat →
  export_password_ok pw →
  ∃ envelope w',
    build_backup_envelope E S k pw w = (Ok envelope, w')
    ∧ ∀ k', (str_truthy pw = false → k' = k) →
        ∃ bundle, load_backup_bundle envelope k' pw = Ok bundle
                  ∧ bundle_entries bundle = E ∧ bundle_settings bundle = S.
Proof.
  intros Ha Hu Hj Hb Hp Hr Hh HE HS Hk Hpw.
  pose (b := {| bundle_entries := E; bundle_settings := S;
                exportedAt := Aware (clock w (clock_reads w)) 0 |}).
  assert (BackupBundle_model_validate (BackupBundle_model_dump b) = Some b)
    as Hbundle by (by apply Bundle_round_trip).
  unfold b in Hbundle.
  unfold build_backup_envelope, load_backup_bundle, _resolve_import_key,
    encrypt_json, generate_argon2_salt, _b64encode, _b64decode.
  rewrite Hk. destruct Hpw as [Hnone|(p & -> & Hlen)].
  - rewrite Hnone. run. rewrite Hk. run.
    eexists _, _. split; [reflexivity|]. intros k' ->; [|done]. simpl.
    rewrite !Hb. simpl.
    match goal with |- context [decrypt_json _ ?n _] =>
      rewrite (decrypt_encrypt k n _ Ha Hu Hj Hk eq_refl) end.
    cbn [try_except outcome_bind]. 
    rewrite Hbundle.
    exists b. 
    cbn [or_raise]. 
    split; [reflexivity|]. 
    split; reflexivity.
  - assert (str_truthy (Some p) = true) as Htruthy.
    { apply str_truthy_Some. intros ->. simpl in Hlen. lia. }
    rewrite Htruthy. run.
    match goal with
    | |- context [derive_master_key_raw p ?s DEFAULT_ARGON2_PARAMS] =>
        set (drawn_salt := s)
    end.
    assert (16 ≤ length drawn_salt)%nat as Hsalt by (simpl; lia).
    destruct (derive_backup_key_ok p drawn_salt 65536 3 4 Hr Hlen Hsalt)
      as (mk & Hmk & Hbk & Hmklen); [lia..|].
    change (Argon2Params_of 65536 3 4) with DEFAULT_ARGON2_PARAMS in Hmk.
    rewrite Hmk. run. rewrite Hbk. run.
    rewrite (Hh (ascii_bytes "vault/backup_key/v1") mk). run.
    eexists _, _. split; [reflexivity|]. intros k' _. simpl.
    rewrite !Hb. simpl.
    change (Argon2Params_of 65536 3 4) with DEFAULT_ARGON2_PARAMS.
    rewrite Hmk. simpl. rewrite Hbk. simpl.
    match goal with |- context [decrypt_json _ ?n _] =>
      rewrite (decrypt_encrypt _ n _ Ha Hu Hj
                 (Hh (ascii_bytes "vault/backup_key/v1") mk) eq_refl) end.
    cbn [try_except outcome_bind]. rewrite Hbundle.
    exists b. cbn [or_raise]. split; [reflexivity|]. split; reflexivity.
Qed.

End BackupFacts.

(** * The model at work

    [plain_lib] meets the contracts assumed of the libraries, and the
    theorems above hold of a small vault run under it. *)

Lemma bits_of_pos p : bits_to_pos (pos_to_bits p) = p.
Proof. induction p as [p IH|p IH|]; simpl; by rewrite ?IH. Qed.

Lemma read_show `{Countable A} (a : A) : read (show a) = Some a.
Proof. unfold read, show. rewrite bits_of_pos. apply decode_encode. Qed.

Lemma bytes_of_text s : bytes_text (text_bytes s) = s.
Proof.
  unfold bytes_text, text_bytes. rewrite map_map.
  rewrite (map_ext _ id), map_id by apply ascii_of_byte_of_ascii.
  apply string_of_list_ascii_of_string.
Qed.

Lemma text_of_bytes b : text_bytes (bytes_text b) = b.
Proof.
  unfold bytes_text, text_bytes. rewrite list_ascii_of_string_of_list_ascii, map_map.
  rewrite (map_ext _ id), map_id by apply byte_of_ascii_of_byte. done.
Qed.

Lemma take_32_length (b : bytes) : length (take 32 (b ++ replicate 32 x00)) = 32%nat.
Proof. rewrite length_take, length_app, length_replicate. lia. Qed.

Lemma plain_aesgcm_ok : aesgcm_ok (L := plain_lib).
Proof.
  intros key nonce data aad. simpl. unfold bytes_eqb.
  rewrite take_app_length, drop_app_length. by rewrite bool_decide_eq_true_2.
Qed.

Lemma plain_utf8_ok : utf8_ok (L := plain_lib).
Proof. intros s. simpl. by rewrite bytes_of_text. Qed.

Lemma plain_json_ok : json_ok (L := plain_lib).
Proof.
  intros v. unfold json_loads. cbn [json_loads_result json_dumps plain_lib].
  by rewrite read_show.
Qed.

Lemma plain_b64_ok : b64_ok (L := plain_lib).
Proof. intros b. simpl. by rewrite text_of_bytes. Qed.

Lemma plain_pydantic_ok : pydantic_ok (L := plain_lib).
Proof. split_and!; try done; intros x; apply read_show. Qed.

Lemma plain_argon2_raw_ok : argon2_raw_ok (L := plain_lib).
Proof.
  intros secret raw_salt t m p _ _ _ _. eexists. split; [reflexivity|].
  rewrite app_assoc. apply take_32_length.
Qed.

Lemma plain_hkdf_length_ok : hkdf_length_ok (L := plain_lib).
Proof. intros info ikm. simpl. rewrite app_assoc. apply take_32_length. Qed.

(** Goals about the demo values are settled by evaluation. *)
Ltac evaluate := vm_compute; first [reflexivity | discriminate | set_solver].

(** ** crypto.py *)



(** ** audit.py *)

Lemma sanitize_meta_spec_witness :
  ∃ m, _sanitize_meta (Some demo_meta) = Some m
       ∧ m !! "count" = Some (PInt 3)
       ∧ m !! "password" = None
       ∧ m !! "errors" = None.
Proof.
  destruct (sanitize_meta_spec (Some demo_meta)) as (Hkept & Hkeeps & _ & _).
  destruct (Hkeeps "count" (PInt 3)) as (m & Hm & Hcount); [evaluate..|].
  exists m. split_and!; [exact Hm|exact Hcount|..].
  - destruct (m !! "password") as [v|] eqn:Hv; [|reflexivity].
    destruct (Hkept m "password" v Hm Hv) as (Hhint & _).
    vm_compute in Hhint. discriminate.
  - destruct (m !! "errors") as [v|] eqn:Hv; [|reflexivity].
    destruct (Hkept m "errors" v Hm Hv) as (_ & Hscalar & Hin).
    vm_compute in Hin. injection Hin as <-. discriminate.
Defined.

(** ** middleware.py *)

Lemma demo_gated method path headers :
  str_upper method ∈ STATE_CHANGING_METHODS → path ∉ CSRF_EXEMPT_PATHS →
  gated (demo_scope method path headers).
Proof. intros Hm Hp. by split_and!. Qed.

Lemma demo_session_resolved method path :
  get_session (session_cookie (request_scope (demo_authorized method path)))
    demo_unlocked
  = (Ok (Some demo_seen), demo_seen_world demo_unlocked).
Proof. vm_compute. reflexivity. Qed.

Lemma demo_double_submit method path :
  double_submit_ok (request_scope (demo_authorized method path)) demo_seen.
Proof. exists "csrf-1". split_and!; evaluate. Qed.

Lemma csrf_gate_witness :
  CSRFMiddleware (request_scope (demo_anonymous "POST" "/entries"))
    (vault_lock demo_lock_anonymous) demo_unlocked
  = (Ok unauthorized_response, demo_unlocked)
  ∧ CSRFMiddleware (request_scope (demo_no_csrf "POST" "/entries"))
      (vault_lock demo_lock_anonymous) demo_unlocked
    = (Ok csrf_invalid_response, demo_seen_world demo_unlocked)
  ∧ CSRFMiddleware (request_scope (demo_authorized "POST" "/entries"))
      (vault_lock demo_lock_anonymous) demo_unlocked
    = vault_lock demo_lock_anonymous (demo_seen_world demo_unlocked).
Proof.
  split_and!.
  - assert (gated (request_scope (demo_anonymous "POST" "/entries"))) as Hg
      by (apply demo_gated; evaluate).
    exact (csrf_gate _ demo_unlocked Hg _).
  - assert (gated (request_scope (demo_no_csrf "POST" "/entries"))) as Hg
      by (apply demo_gated; evaluate).
    pose proof (csrf_gate _ demo_unlocked Hg) as H.
    assert (get_session (session_cookie (request_scope (demo_no_csrf "POST" "/entries")))
              demo_unlocked
            = (Ok (Some demo_seen), demo_seen_world demo_unlocked)) as E
      by (vm_compute; reflexivity).
    rewrite E in H. apply H.
    intros (c & _ & _ & Hh & _). vm_compute in Hh. discriminate.
  - assert (gated (request_scope (demo_authorized "POST" "/entries"))) as Hg
      by (apply demo_gated; evaluate).
    pose proof (csrf_gate _ demo_unlocked Hg) as H.
    rewrite demo_session_resolved in H. apply H, demo_double_submit.
Defined.

(** ** routes/vault.py: lock *)

Lemma demo_vault_wf : db_wf (committed demo_vault).
Proof. vm_compute. constructor. Qed.

Lemma lock_behind_gate_witness :
  app_call demo_lock_anonymous (vault_lock demo_lock_anonymous) demo_unlocked
  = (unauthorized_response, demo_unlocked)
  ∧ fst (app_call demo_lock_authorized (vault_lock demo_lock_authorized)
           demo_unlocked)
    = {| status_code := 204; content := None; cookie_ops := clear_session_cookies |}
  ∧ sessions (snd (app_call demo_lock_authorized (vault_lock demo_lock_authorized)
                     demo_unlocked)) = ∅.
Proof.
  split.
  - assert (is_lock_request demo_lock_anonymous) as Hlock by (split_and!; evaluate).
    pose proof (lock_behind_gate _ demo_unlocked Hlock demo_vault_wf) as H.
    cbv zeta in H.
    assert (get_session (session_cookie (request_scope demo_lock_anonymous))
              demo_unlocked = (Ok None, demo_unlocked)) as E
      by (vm_compute; reflexivity).
    rewrite E in H. exact H.
  - assert (is_lock_request demo_lock_authorized) as Hlock by (split_and!; evaluate).
    pose proof (lock_behind_gate _ demo_unlocked Hlock demo_vault_wf) as H.
    cbv zeta in H. unfold demo_lock_authorized in H at 1.
    rewrite demo_session_resolved in H. destruct H as [_ H].
    destruct (H (demo_double_submit _ _)) as (Hresp & Hsessions & _).
    split; [exact Hresp|]. rewrite Hsessions. vm_compute. reflexivity.
Defined.

(** A POST /vault/lock without cookies, on a vault with a live session: the
    answer is 401 and not 204, the session is still there and nothing is
    audited. *)
Lemma lock_without_session_is_401 :
  status_code (fst (app_call demo_lock_anonymous (vault_lock demo_lock_anonymous)
                      demo_unlocked)) = 401
  ∧ status_code (fst (app_call demo_lock_anonymous (vault_lock demo_lock_anonymous)
                        demo_unlocked)) ≠ 204
  ∧ sessions (snd (app_call demo_lock_anonymous (vault_lock demo_lock_anonymous)
                     demo_unlocked)) = sessions demo_unlocked
  ∧ audit (committed (snd (app_call demo_lock_anonymous
                             (vault_lock demo_lock_anonymous) demo_unlocked)))
    = audit (committed demo_unlocked).
Proof. split_and!; evaluate. Qed.

(** ** routes/vault.py: unlock *)

Lemma demo_vault_initialized : vault_initialized (committed demo_vault).
Proof.
  exists {| schema_version := 1; hint := None;
            argon2_salt := Some (replicate 16 "a"%byte);
            argon2_memory_cost := Some 65536; argon2_time_cost := Some 3;
            argon2_parallelism := Some 4;
            pw_verifier := Some "$plain$CorrectHorseBatteryStaple!" |},
         (replicate 16 "a"%byte), 65536, 3, 4.
  split_and!; first [vm_compute; reflexivity|simpl; lia].
Qed.

Lemma unlock_bumps_or_resets_witness :
  (fst (run_endpoint (vault_unlock demo_wrong_unlock) demo_vault)
   = build_error_response 401 "UNAUTHORIZED" "Unlock failed."
   ∧ unlock_throttle
       (committed (snd (run_endpoint (vault_unlock demo_wrong_unlock) demo_vault)))
     = Some {| failed_attempts := 1;
               next_allowed_at := Some (dt_add_seconds (now_of demo_vault) 2) |})
  ∧ (status_code (fst (run_endpoint (vault_unlock demo_unlock) demo_vault)) = 200
     ∧ unlock_throttle
         (committed (snd (run_endpoint (vault_unlock demo_unlock) demo_vault)))
       = Some {| failed_attempts := 0; next_allowed_at := None |}).
Proof.
  split.
  - destruct (unlock_bumps_or_resets demo_wrong_unlock demo_vault
                plain_argon2_raw_ok plain_hkdf_length_ok
                demo_vault_initialized demo_vault_wf) as [H _];
      [vm_compute; lia|evaluate..|].
    apply H. vm_compute. reflexivity.
  - destruct (unlock_bumps_or_resets demo_unlock demo_vault
                plain_argon2_raw_ok plain_hkdf_length_ok
                demo_vault_initialized demo_vault_wf) as [_ H];
      [vm_compute; lia|evaluate..|].
    apply H. vm_compute. reflexivity.
Defined.

Lemma throttle_invariant_witness :
  throttle_inv (committed demo_vault)
  ∧ throttle_inv (committed (snd (run_endpoint (vault_unlock demo_wrong_unlock)
                                    demo_vault)))
  ∧ throttle_inv (committed (snd (run_endpoint (vault_unlock demo_unlock)
                                    demo_vault))).
Proof.
  destruct (throttle_invariant (L := plain_lib)) as (Hfresh & _ & Hsetup & Hunlock).
  assert (throttle_inv (committed demo_world)) as Hempty by (intros t; discriminate).
  assert (throttle_inv (committed demo_vault)) as Hvault
    by exact (Hsetup demo_setup demo_world Hempty).
  split_and!; [exact Hvault|by apply Hunlock..].
Defined.

(** C2 does not hold of the code: the attempt after a failed one.  The
    failed attempt on the fresh vault is answered 401 and commits the row
    (1, now + 2 s).  The next request reads that deadline back without its
    timezone.  Made a minute later, when the deadline has passed and the
    vault is not throttled, the attempt ends in the [TypeError] of
    [now < throttle.next_allowed_at], with the wrong password and with the
    right one: the answer is 500 INTERNAL_ERROR, the count is not
    incremented to 2, the row is not reset to (0, null), and no session is
    made. *)
Theorem unlock_after_failed_attempt :
  let failed := run_endpoint (vault_unlock demo_wrong_unlock) demo_vault in
  let later := with_clock_reads (next_request (snd failed)) 60 in
  let again := run_endpoint (vault_unlock demo_wrong_unlock) later in
  let right := run_endpoint (vault_unlock demo_unlock) later in
  fst failed = build_error_response 401 "UNAUTHORIZED" "Unlock failed."
  ∧ unlock_throttle (committed (snd failed))
    = Some {| failed_attempts := 1; next_allowed_at := Some (Aware 3000000 0) |}
  ∧ unlock_throttle (committed later)
    = Some {| failed_attempts := 1; next_allowed_at := Some (Naive 3000000) |}
  ∧ now_of later = Aware 60000000 0
  ∧ verify_password (masterPassword demo_wrong_unlock)
      (stored_verifier (committed later)) = Ok false
  ∧ fst again = build_error_response 500 "INTERNAL_ERROR" "Unexpected error."
  ∧ unlock_throttle (committed (snd again)) = unlock_throttle (committed later)
  ∧ verify_password (masterPassword demo_unlock)
      (stored_verifier (committed later)) = Ok true
  ∧ fst right = build_error_response 500 "INTERNAL_ERROR" "Unexpected error."
  ∧ unlock_throttle (committed (snd right)) = unlock_throttle (committed later)
  ∧ sessions (snd right) = ∅.
Proof. cbv zeta. split_and!; evaluate. Qed.

(** C4 does not hold of the code: the attempt after a failed one, with the
    deadline an hour ahead and without its timezone, as the database
    returns it.  [now < throttle.next_allowed_at] raises [TypeError]; the
    answer is 500 INTERNAL_ERROR, not 429 RATE_LIMITED, and no audit event
    is committed. *)
Theorem unlock_throttled_naive_deadline :
  throttle_gate (current_throttle (committed demo_throttled_naive))
    (now_of demo_throttled_naive)
  = Raise (TypeError "can't compare offset-naive and offset-aware datetimes")
  ∧ fst (run_endpoint (vault_unlock demo_wrong_unlock) demo_throttled_naive)
    = build_error_response 500 "INTERNAL_ERROR" "Unexpected error."
  ∧ status_code (fst (run_endpoint (vault_unlock demo_wrong_unlock)
                        demo_throttled_naive)) ≠ 429
  ∧ audit (committed (snd (run_endpoint (vault_unlock demo_wrong_unlock)
                             demo_throttled_naive)))
    = audit (committed demo_throttled_naive).
Proof. split_and!; evaluate. Qed.

(** ** routes/backup.py: the filename check *)

Lemma demo_unlocked_resolved method path :
  unlocked (demo_authorized method path) demo_unlocked demo_seen
    (demo_seen_world demo_unlocked).
Proof. vm_compute. reflexivity. Qed.

Lemma import_rejects_bad_filename_witness :
  rejected_for_filename "BACKUP_IMPORT_PREVIEW" demo_unlocked
    (run_endpoint (import_endpoint (preview_import_backup demo_import demo_upload None))
                  demo_unlocked)
  ∧ rejected_for_filename "BACKUP_IMPORT_APPLY" demo_unlocked
      (run_endpoint (import_endpoint (apply_import_backup demo_import demo_upload None))
                    demo_unlocked).
Proof.
  destruct (import_rejects_bad_filename demo_import demo_upload None demo_unlocked
              demo_seen (demo_seen_world demo_unlocked))
    as (Hpreview & Happly & _);
    [apply demo_unlocked_resolved|evaluate|exact demo_vault_wf|].
  split; [exact Hpreview|exact Happly].
Defined.

(** ** routes/entries.py: the listing *)

Lemma demo_listing_wf : db_wf (committed demo_listing).
Proof. unfold db_wf. apply (bool_decide_unpack _). vm_compute. exact I. Qed.

Lemma demo_listing_resolved :
  unlocked demo_list demo_listing demo_seen (demo_seen_world demo_listing).
Proof. vm_compute. reflexivity. Qed.


(** ** backup.py: the round trip *)

Lemma demo_entries_valid : Forall valid_entry demo_entries.
Proof.
  assert (∀ name stamp id,
            stripped name → (1 ≤ String.length name ≤ 128)%nat →
            valid_entry (demo_entry name stamp id)) as Hvalid.
  { intros name stamp id Hs Hlen.
    unfold valid_entry, valid_str, valid_url, valid_notes, valid_tag, valid_str.
    cbn [demo_entry title url username password notes tags].
    split_and!;
      first [exact Hs|exact I|discriminate|lia|simpl; lia|vm_compute; reflexivity|idtac].
    - exists {| scheme := "https"; netloc := "example.org/login" |}.
      split_and!; evaluate.
    - constructor; [|constructor].
      split_and!; first [simpl; lia|vm_compute; reflexivity]. }
  unfold demo_entries.
  constructor; [|constructor; [|constructor]];
    (apply Hvalid; [vm_compute; reflexivity|simpl; lia]).
Qed.

Lemma backup_round_trip_witness :
  (∃ envelope w',
     build_backup_envelope demo_entries demo_settings demo_key (Some demo_password)
       demo_world = (Ok envelope, w')
     ∧ ∃ bundle, load_backup_bundle envelope [] (Some demo_password) = Ok bundle
                 ∧ bundle_entries bundle = demo_entries
                 ∧ bundle_settings bundle = demo_settings)
  ∧ (∃ envelope w',
       build_backup_envelope demo_entries demo_settings demo_key None demo_world
         = (Ok envelope, w')
       ∧ ∃ bundle, load_backup_bundle envelope demo_key None = Ok bundle
                   ∧ bundle_entries bundle = demo_entries
                   ∧ bundle_settings bundle = demo_settings).
Proof.
  assert (valid_settings demo_settings) as Hsettings
    by (unfold valid_settings; simpl; lia).
  split.
  - destruct (backup_round_trip demo_entries demo_settings demo_key
                (Some demo_password) demo_world
                plain_aesgcm_ok plain_utf8_ok plain_json_ok plain_b64_ok
                plain_pydantic_ok plain_argon2_raw_ok plain_hkdf_length_ok
                demo_entries_valid Hsettings eq_refl)
      as (envelope & w' & Hbuild & Hload).
    { right. exists demo_password. split; [reflexivity|simpl; lia]. }
    exists envelope, w'. split; [exact Hbuild|]. apply Hload. discriminate.
  - destruct (backup_round_trip demo_entries demo_settings demo_key None demo_world
                plain_aesgcm_ok plain_utf8_ok plain_json_ok plain_b64_ok
                plain_pydantic_ok plain_argon2_raw_ok plain_hkdf_length_ok
                demo_entries_valid Hsettings eq_refl)
      as (envelope & w' & Hbuild & Hload).
    { left. reflexivity. }
    exists envelope, w'. split; [exact Hbuild|]. apply Hload. reflexivity.
Defined.

(** * Further properties *)

(** ** sessions.py: the store *)

Section StoreFacts.
Context `{L : Lib}.

(** [secrets.token_urlsafe(32)] returns a non-empty string. *)
Definition token_nonempty : Prop :=
  ∀ b, length b = 32%nat → token_urlsafe b ≠ "".

(** The clock of [w2] is [elapsed] microseconds past that of [w1]. *)
Definition elapsed_between (w1 w2 : World) (elapsed : Z) : Prop :=
  clock w2 (clock_reads w2) - clock w1 (clock_reads w1) = elapsed.

(** What [create_session] leaves: the new session, stored under its token. *)
Lemma create_session_run key w :
  length key = 32%nat →
  ∃ session w1 drawn,
    create_session key w = (Ok session, w1)
    ∧ sessions w1 = <[token session := session]> (sessions w)
    ∧ token session = token_urlsafe drawn ∧ length drawn = 32%nat
    ∧ enc_key session = key
    ∧ created_at session = now_of w ∧ last_seen session = now_of w
    ∧ committed w1 = committed w ∧ tx w1 = tx w ∧ events w1 = events w.
Proof.
  intros Hk. unfold create_session, now_of. rewrite Hk. run.
  eexists _, _, _. split; [reflexivity|]. done.
Qed.

Lemma get_session_live tok s w t off :
  tok ≠ "" → sessions w !! tok = Some s → last_seen s = Aware t off →
  clock w (clock_reads w) - t ≤ idle_timeout_us w →
  get_session (Some tok) w
  = (Ok (Some (set_last_seen s (now_of w))),
     with_sessions (with_clock_reads w (S (clock_reads w)))
       (<[tok := set_last_seen s (now_of w)]> (sessions w))).
Proof.
  intros Htok Hs Hseen Hidle. unfold get_session, now_of.
  apply str_truthy_Some in Htok. rewrite Htok. run.
  rewrite Hs, Hseen. run. unfold idle_timeout_us in *. simpl.
  destruct (Z.gtb_spec (clock w (clock_reads w) - t)
              (app_session_idle_minutes w * 60 * 1000000)); [lia|done].
Qed.

Lemma get_session_expired tok s w t off :
  tok ≠ "" → sessions w !! tok = Some s → last_seen s = Aware t off →
  idle_timeout_us w < clock w (clock_reads w) - t →
  get_session (Some tok) w
  = (Ok None,
     with_sessions (with_clock_reads w (S (clock_reads w)))
       (delete tok (sessions w))).
Proof.
  intros Htok Hs Hseen Hidle. unfold get_session, now_of.
  apply str_truthy_Some in Htok. rewrite Htok. run.
  rewrite Hs, Hseen. run. unfold idle_timeout_us in *. simpl.
  destruct (Z.gtb_spec (clock w (clock_reads w) - t)
              (app_session_idle_minutes w * 60 * 1000000)); [done|lia].
Qed.

Lemma get_session_unknown tok w :
  sessions w !! tok = None → fst (get_session (Some tok) w) = Ok None.
Proof.
  intros Hs. unfold get_session.
  destruct (str_truthy (Some tok)); [|done]. run. by rewrite Hs.
Qed.

Lemma peek_session_unknown tok w :
  sessions w !! tok = None → fst (peek_session (Some tok) w) = Ok None.
Proof.
  intros Hs. unfold peek_session.
  destruct (str_truthy (Some tok)); [|done]. run. by rewrite Hs.
Qed.

(** X1: a session made by [create_session] is found again under its token,
    with [last_seen] moved to the time of the lookup, as long as the lookup
    comes within the idle timeout; after the timeout the lookup finds
    nothing and the session is gone from the store.  A key that is not 32
    bytes long makes [create_session] raise and store nothing. *)
Theorem session_create_then_get (key : bytes) (w : World) :
  token_nonempty →
  (length key ≠ 32%nat →
   create_session key w
   = (Raise (ValueError "Session encryption key must be 32 bytes."), w))
  ∧ (length key = 32%nat →
     ∃ session w1,
       create_session key w = (Ok session, w1)
       ∧ enc_key session = key
       ∧ sessions w1 !! token session = Some session
       ∧ ∀ w2 elapsed,
           sessions w2 = sessions w1 → elapsed_between w w2 elapsed →
           (elapsed ≤ idle_timeout_us w2 →
            fst (get_session (Some (token session)) w2)
            = Ok (Some (set_last_seen session (now_of w2))))
           ∧ (idle_timeout_us w2 < elapsed →
              fst (get_session (Some (token session)) w2) = Ok None
              ∧ sessions (snd (get_session (Some (token session)) w2))
                  !! token session = None)).
Proof.
  intros Htoken. split.
  - intros Hk. unfold create_session.
    destruct (Nat.eqb_spec (length key) 32) as [|_]; [done|reflexivity].
  - intros Hk.
    destruct (create_session_run key w Hk)
      as (session & w1 & drawn & Hrun & Hs1 & Htok & Hdrawn & Hkey & _ & Hseen & _).
    exists session, w1. split; [exact Hrun|]. split; [exact Hkey|].
    assert (token session ≠ "") as Hne by (rewrite Htok; by apply Htoken).
    split; [rewrite Hs1; apply lookup_insert_eq|].
    intros w2 elapsed Hs2 Hel.
    assert (sessions w2 !! token session = Some session) as Hlook.
    { rewrite Hs2, Hs1. apply lookup_insert_eq. }
    unfold elapsed_between in Hel. unfold now_of in Hseen.
    split; intros Hidle.
    + erewrite get_session_live; [done..|]. lia.
    + erewrite get_session_expired; [|done..|lia]. simpl.
      split; [done|apply lookup_delete_eq].
Qed.

(** X2: the idle timeout runs from the last lookup, not from the creation
    of the session.  After a successful [get_session], a second one within
    the timeout of the first succeeds (however old the session is), and a
    second one later than that finds nothing. *)
Theorem session_timeout_slides (tok : string) (w : World) session w1 :
  get_session (Some tok) w = (Ok (Some session), w1) →
  ∀ w2 elapsed,
    sessions w2 = sessions w1 → elapsed_between w w2 elapsed →
    (elapsed ≤ idle_timeout_us w2 →
     fst (get_session (Some tok) w2) = Ok (Some (set_last_seen session (now_of w2))))
    ∧ (idle_timeout_us w2 < elapsed → fst (get_session (Some tok) w2) = Ok None).
Proof.
  intros Hget w2 elapsed Hs2 Hel.
  assert (tok ≠ "" ∧ sessions w1 !! tok = Some session
          ∧ last_seen session = now_of w) as (Htok & Hlook & Hseen).
  { unfold get_session in Hget.
    destruct (str_truthy (Some tok)) eqn:Htok; [|done].
    apply str_truthy_Some in Htok. run.
    destruct (sessions w !! tok) as [s|]; [|done]. run.
    destruct (last_seen s) as [|t off]; [done|].
    destruct (_ >? _); run; simplify_eq.
    split_and!; [done|apply lookup_insert_eq|done]. }
  rewrite <- Hs2 in Hlook. unfold elapsed_between in Hel. unfold now_of in Hseen.
  split; intros Hidle.
  - erewrite get_session_live; [done..|]. lia.
  - erewrite get_session_expired; [done..|]. lia.
Qed.

(** X3: once [destroy_session] has run on a token, no lookup of that token
    finds a session, whatever the time, and the other sessions are still
    in the store. *)
Theorem session_destroy_then_get (tok : string) (w : World) :
  fst (destroy_session (Some tok) w) = Ok tt
  ∧ (∀ other, other ≠ tok →
       sessions (snd (destroy_session (Some tok) w)) !! other = sessions w !! other)
  ∧ ∀ w2, sessions w2 = sessions (snd (destroy_session (Some tok) w)) →
          fst (get_session (Some tok) w2) = Ok None
          ∧ fst (peek_session (Some tok) w2) = Ok None.
Proof.
  unfold destroy_session.
  destruct (str_truthy (Some tok)) eqn:Htok; run.
  - split_and!; [done|by intros; apply lookup_delete_ne|].
    intros w2 Hs2.
    assert (sessions w2 !! tok = None) as Hnone by (rewrite Hs2; apply lookup_delete_eq).
    split; [by apply get_session_unknown|by apply peek_session_unknown].
  - split_and!; [done|done|]. intros w2 _.
    unfold get_session, peek_session.
    change (str_truthy (Some tok)) with (negb (tok =? "")%string).
    by rewrite Htok.
Qed.

End StoreFacts.

(** ** middleware.py: requests the gate lets through *)

Section PassFacts.
Context `{L : Lib}.

(** X4: a request that is not a state-changing request to a non-exempt
    path (a websocket or lifespan scope, a GET, HEAD or OPTIONS, a path such
    as /vault/unlock) goes to the application as it is: the middleware reads
    no cookie and looks up, refreshes or expires no session. *)
Theorem csrf_gate_passes (scope : Scope) (app : M Response) :
  ¬ gated scope → CSRFMiddleware scope app = app.
Proof.
  intros Hng. unfold CSRFMiddleware.
  destruct (String.eqb_spec (scope_type scope) "http") as [Ht|]; [|done]. simpl.
  destruct (String.eqb_spec (str_upper (default "" (scope_method scope))) "OPTIONS");
    [done|]. simpl.
  destruct (decide (str_upper (default "" (scope_method scope))
                    ∈ STATE_CHANGING_METHODS)) as [Hm|Hm].
  2: { by rewrite (bool_decide_eq_false_2 _ Hm). }
  destruct (decide (default "" (scope_path scope) ∈ CSRF_EXEMPT_PATHS)) as [Hp|Hp].
  { rewrite (bool_decide_eq_true_2 _ Hp). by rewrite orb_true_r. }
  by destruct Hng.
Qed.

End PassFacts.

(** ** routes/vault.py: status, setup and the ways into unlock *)

Section VaultMoreFacts.
Context `{L : Lib}.


(** The database has a vault: metadata with a non-empty verifier. *)
Definition has_verifier (d : Database) : bool :=
  str_truthy (vault_metadata d ≫= pw_verifier).

Lemma peek_session_frame token w :
  let w' := snd (peek_session token w) in
  committed w' = committed w ∧ tx w' = tx w ∧ events w' = events w
  ∧ entropy_drawn w' = entropy_drawn w
  ∧ ∀ tok s, sessions w' !! tok = Some s → sessions w !! tok = Some s.
Proof.
  unfold peek_session, idle_timeout_us. run.
  repeat (case_match; run; simplify_eq); split_and!; try done.
  intros tok' s'. rewrite lookup_delete_Some. naive_solver.
Qed.

Lemma peek_session_with_tx token w d :
  peek_session token (with_tx w d)
  = (fst (peek_session token w), with_tx (snd (peek_session token w)) d).
Proof.
  unfold peek_session, idle_timeout_us. run.
  repeat (case_match; run; simplify_eq); done.
Qed.

(** X5: GET /vault/status answers NO_VAULT when there is no verifier, and
    otherwise UNLOCKED or LOCKED by whether the session cookie names a live
    session.  It commits nothing, and it refreshes no session: every session
    left in the store is there as it was (an expired one is dropped). *)
Theorem vault_status_reads_only (request : Request) (w : World) :
  let result := run_endpoint (vault_status request) w in
  let cookie := request_cookies request !! SESSION_COOKIE_NAME in
  committed (snd result) = committed w
  ∧ events (snd result) = events w
  ∧ (∀ tok s, sessions (snd result) !! tok = Some s → sessions w !! tok = Some s)
  ∧ (has_verifier (committed w) = false →
     content (fst result) = Some (VaultStatusResponse_model_dump "NO_VAULT")
     ∧ sessions (snd result) = sessions w)
  ∧ (has_verifier (committed w) = true →
     (∀ session, fst (peek_session cookie w) = Ok (Some session) →
        content (fst result) = Some (VaultStatusResponse_model_dump "UNLOCKED"))
     ∧ (fst (peek_session cookie w) = Ok None →
        content (fst result) = Some (VaultStatusResponse_model_dump "LOCKED"))).
Proof.
  intros result cookie. subst result cookie.
  pose proof (peek_session_frame (request_cookies request !! SESSION_COOKIE_NAME) w)
    as Hframe.
  destruct (has_verifier (committed w)) eqn:Hv; unfold has_verifier in Hv;
    unfold run_endpoint, vault_status, _get_vault_metadata; run; rewrite Hv; run.
  2: { split_and!; done. }
  rewrite peek_session_with_tx.
  destruct (peek_session (request_cookies request !! SESSION_COOKIE_NAME) w)
    as [[[session|]|e] w1]; simpl in *;
    destruct Hframe as (Hc & _ & He & _ & Hs); split_and!; try done.
Qed.

(** X6: POST /vault/setup on a vault that has a verifier answers 409
    VAULT_EXISTS and leaves the vault as it is: the only thing committed is
    a FAILURE audit event. *)
Theorem vault_setup_refuses_second (payload : VaultSetupRequest) (w : World) :
  has_verifier (committed w) = true → db_wf (committed w) →
  let result := run_endpoint (vault_setup payload) w in
  fst result = build_error_response 409 "VAULT_EXISTS" "Vault already initialized."
  ∧ sessions (snd result) = sessions w
  ∧ ∃ r, committed (snd result) = add_audit (committed w) r
         ∧ ar_type r = "VAULT_SETUP" ∧ ar_outcome r = "FAILURE"
         ∧ ar_meta r = Some {[ "reason" := PStr "already_initialized" ]}.
Proof.
  intros Hv Hwf result. subst result. unfold has_verifier, db_wf in *.
  unfold run_endpoint, vault_setup, _get_vault_metadata, write_audit_event.
  run. rewrite Hv. run. rewrite bool_decide_eq_true_2 by done. run.
  split_and!; try done. eexists; split_and!; try done; apply reason_meta_kept.
Qed.

(** X7: POST /vault/unlock on a database without a verifier answers 400
    VAULT_NOT_INITIALIZED; the password verifier is not consulted, no
    throttle row is made or changed, and a FAILURE audit event is
    committed.  With a verifier but without the salt or an Argon2 parameter
    it answers 500 VAULT_INVALID and commits nothing. *)
Theorem vault_unlock_without_vault (payload : VaultUnlockRequest) (w : World) :
  db_wf (committed w) →
  let result := run_endpoint (vault_unlock payload) w in
  (has_verifier (committed w) = false →
   fst result
   = build_error_response 400 "VAULT_NOT_INITIALIZED" "Vault not initialized."
   ∧ events (snd result) = events w
   ∧ sessions (snd result) = sessions w
   ∧ ∃ r, committed (snd result) = add_audit (committed w) r
          ∧ ar_type r = "VAULT_UNLOCK" ∧ ar_outcome r = "FAILURE"
          ∧ ar_meta r = Some {[ "reason" := PStr "vault_missing" ]})
  ∧ (has_verifier (committed w) = true →
     (vault_metadata (committed w) ≫= argon2_salt) = None
     ∨ (vault_metadata (committed w) ≫= argon2_memory_cost) = None
     ∨ (vault_metadata (committed w) ≫= argon2_time_cost) = None
     ∨ (vault_metadata (committed w) ≫= argon2_parallelism) = None →
     fst result = build_error_response 500 "VAULT_INVALID" "Vault unavailable."
     ∧ events (snd result) = events w
     ∧ sessions (snd result) = sessions w
     ∧ committed (snd result) = committed w).
Proof.
  intros Hwf result. subst result. unfold has_verifier, db_wf in *.
  unfold run_endpoint, vault_unlock, _get_vault_metadata, write_audit_event.
  run. split.
  - intros Hv. rewrite Hv. run. rewrite bool_decide_eq_true_2 by done. run.
    split_and!; try done. eexists; split_and!; try done; apply reason_meta_kept.
  - intros Hv Hmissing. rewrite Hv. run.
    destruct (vault_metadata (committed w)) as [md|]; [|done]. simpl in *.
    destruct (pw_verifier md); [|done].
    destruct (argon2_salt md), (argon2_memory_cost md), (argon2_time_cost md),
      (argon2_parallelism md); run; try done; naive_solver.
Qed.

End VaultMoreFacts.

Section VaultFlowFacts.
Context `{L : Lib}.

(** The metadata row [vault_setup] writes for a password and the 16 bytes of
    salt it draws. *)
Definition setup_metadata (payload : VaultSetupRequest) (drawn_salt verifier_salt : bytes)
    : VaultMetadata :=
  {| schema_version := 1; hint := setup_hint payload;
     argon2_salt := Some drawn_salt;
     argon2_memory_cost := Some 65536; argon2_time_cost := Some 3;
     argon2_parallelism := Some 4;
     pw_verifier := Some (argon2_hash DEFAULT_ARGON2_PARAMS verifier_salt
                            (setup_masterPassword payload)) |}.

Definition default_settings : SettingsRecord :=
  {| auto_lock_minutes := 5; clipboard_clear_seconds := 15;
     require_reauth_for_copy := true |}.

Lemma hint_set_meta_kept b :
  _sanitize_meta (Some {[ "hint_set" := PBool b ]}) = Some {[ "hint_set" := PBool b ]}.
Proof.
  apply sanitize_meta_all_kept.
  - apply map_non_empty_singleton.
  - by apply map_Forall_singleton.
Qed.

(** POST /vault/setup on a database without a verifier. *)
Lemma vault_setup_run payload w :
  has_verifier (committed w) = false → db_wf (committed w) →
  let result := run_endpoint (vault_setup payload) w in
  ∃ drawn_salt verifier_salt r,
    committed (snd result)
    = add_audit
        (set_unlock_throttle
           (set_settings
              (set_vault_metadata (committed w)
                 (setup_metadata payload drawn_salt verifier_salt))
              (default default_settings (settings (committed w))))
           (current_throttle (committed w))) r
    ∧ length drawn_salt = 16%nat
    ∧ fst result = {| status_code := 201;
                      content := Some (GenericOkResponse_model_dump true);
                      cookie_ops := [] |}
    ∧ ar_type r = "VAULT_SETUP" ∧ ar_outcome r = "SUCCESS"
    ∧ ar_meta r = Some {[ "hint_set" := PBool (str_truthy (setup_hint payload)) ]}
    ∧ sessions (snd result) = sessions w ∧ events (snd result) = events w.
Proof.
  intros Hv Hwf result. subst result. unfold has_verifier, db_wf in *.
  unfold run_endpoint, vault_setup, _get_vault_metadata, write_audit_event,
    _get_or_create_settings, _get_or_create_unlock_throttle, generate_argon2_salt,
    hash_password_verifier, current_throttle, fresh_throttle, default_settings,
    setup_metadata.
  run. rewrite Hv. run.
  destruct (settings (committed w)) as [st|] eqn:Hst;
    destruct (unlock_throttle (committed w)) as [thr|] eqn:Hthr; run;
    rewrite ?Hst, ?Hthr; run; rewrite ?Hst, ?Hthr; run;
    rewrite bool_decide_eq_true_2 by done; run;
    (eexists _, _, _; split;
       [unfold add_audit, set_unlock_throttle, set_settings, set_vault_metadata;
        simpl; rewrite ?Hst, ?Hthr; reflexivity|];
     split_and!; try reflexivity; apply hint_set_meta_kept).
Qed.

(** POST /vault/unlock when the gate is open and the password verifies. *)
Lemma vault_unlock_success_run payload w md verifier vault_salt mem time par
    master_key key :
  vault_metadata (committed w) = Some md →
  pw_verifier md = Some verifier → verifier ≠ "" →
  argon2_salt md = Some vault_salt → argon2_memory_cost md = Some mem →
  argon2_time_cost md = Some time → argon2_parallelism md = Some par →
  db_wf (committed w) →
  throttle_gate (current_throttle (committed w)) (now_of w) = Ok false →
  verify_password (masterPassword payload) verifier = Ok true →
  derive_master_key_raw (masterPassword payload) vault_salt
    (Argon2Params_of mem time par) = Ok master_key →
  derive_enc_key master_key = Ok key → length key = 32%nat →
  let result := run_endpoint (vault_unlock payload) w in
  ∃ session drawn r,
    fst result
    = {| status_code := 200; content := Some (GenericOkResponse_model_dump true);
         cookie_ops := set_session_cookies session (app_session_idle_minutes w * 60) |}
    ∧ sessions (snd result) = <[token session := session]> (sessions w)
    ∧ token session = token_urlsafe drawn
    ∧ enc_key session = key
    ∧ last_seen session = Aware (clock w (S (clock_reads w))) 0
    ∧ events (snd result)
      = events w ++ [VerifierConsulted (masterPassword payload) verifier]
    ∧ committed (snd result)
      = add_audit (set_unlock_throttle (committed w) fresh_throttle) r
    ∧ ar_type r = "VAULT_UNLOCK" ∧ ar_outcome r = "SUCCESS" ∧ ar_meta r = None.
Proof.
  intros Hmd Hver Hne Hs Hm Ht Hp Hwf Hgate Hvp Hmk Hkey Hklen result.
  subst result. apply str_truthy_Some in Hne.
  unfold current_throttle, now_of, db_wf in *.
  unfold run_endpoint, vault_unlock, _get_vault_metadata, write_audit_event,
    _get_or_create_unlock_throttle, create_session, fresh_throttle.
  run. rewrite Hmd. simpl. rewrite Hver, Hs, Hm, Ht, Hp. simpl. rewrite Hne. simpl.
  destruct (unlock_throttle (committed w)) as [thr|] eqn:Hthr; run;
    try rewrite Hgate; run; rewrite Hvp; run; rewrite Hmk; run; rewrite Hkey; run;
    rewrite Hklen; run; rewrite bool_decide_eq_true_2 by done; run;
    (eexists _, _, _; split_and!; [reflexivity..]).
Qed.

(** X8: POST /vault/setup on a database without a verifier answers 201
    and commits, in one transaction, the metadata row (a fresh 16-byte salt,
    the default Argon2 parameters, the verifier hashed from the password and
    the hint), the settings row (5, 15, true) unless there was one, the
    throttle row (0, null) unless there was one, and a SUCCESS audit event;
    entries and sessions are not touched. *)
Theorem vault_setup_creates (payload : VaultSetupRequest) (w : World) :
  has_verifier (committed w) = false → db_wf (committed w) →
  let result := run_endpoint (vault_setup payload) w in
  status_code (fst result) = 201
  ∧ (∃ drawn_salt verifier_salt,
       length drawn_salt = 16%nat
       ∧ vault_metadata (committed (snd result))
         = Some (setup_metadata payload drawn_salt verifier_salt))
  ∧ settings (committed (snd result))
    = Some (default default_settings (settings (committed w)))
  ∧ unlock_throttle (committed (snd result))
    = Some (default fresh_throttle (unlock_throttle (committed w)))
  ∧ entries (committed (snd result)) = entries (committed w)
  ∧ sessions (snd result) = sessions w
  ∧ ∃ r, audit (committed (snd result)) = audit (committed w) ++ [r]
         ∧ ar_type r = "VAULT_SETUP" ∧ ar_outcome r = "SUCCESS"
         ∧ ar_meta r = Some {[ "hint_set" := PBool (str_truthy (setup_hint payload)) ]}.
Proof.
  intros Hv Hwf result.
  destruct (vault_setup_run payload w Hv Hwf)
    as (drawn_salt & verifier_salt & r & Hc & Hlen & Hresp & Hty & Hout & Hmeta & Hs & _).
  fold result in Hc, Hresp, Hs. rewrite Hc, Hresp. simpl.
  split_and!; try done.
  - by exists drawn_salt, verifier_salt.
  - by exists r.
Qed.


(** X10: a successful POST /vault/unlock consults the verifier once, sets
    the session cookie (HttpOnly) and the CSRF cookie (readable by scripts)
    with the idle timeout as max-age, and stores the session under the
    token in the cookie, with the key derived from the password and the
    stored salt and parameters. *)
Theorem vault_unlock_opens_session (payload : VaultUnlockRequest) (w : World)
    md verifier vault_salt mem time par master_key key :
  hkdf_length_ok →
  vault_metadata (committed w) = Some md →
  pw_verifier md = Some verifier → verifier ≠ "" →
  argon2_salt md = Some vault_salt → argon2_memory_cost md = Some mem →
  argon2_time_cost md = Some time → argon2_parallelism md = Some par →
  db_wf (committed w) →
  throttle_gate (current_throttle (committed w)) (now_of w) = Ok false →
  verify_password (masterPassword payload) verifier = Ok true →
  derive_master_key_raw (masterPassword payload) vault_salt
    (Argon2Params_of mem time par) = Ok master_key →
  derive_enc_key master_key = Ok key →
  let result := run_endpoint (vault_unlock payload) w in
  ∃ session,
    cookie_ops (fst result)
    = [ SetCookie "session_token" (token session) true false "lax" "/"
          (app_session_idle_minutes w * 60);
        SetCookie "csrf_token" (csrf_token session) false false "lax" "/"
          (app_session_idle_minutes w * 60) ]
    ∧ status_code (fst result) = 200
    ∧ sessions (snd result) = <[token session := session]> (sessions w)
    ∧ enc_key session = key
    ∧ events (snd result)
      = events w ++ [VerifierConsulted (masterPassword payload) verifier].
Proof.
  intros Hhkdf Hmd Hver Hne Hs Hm Ht Hp Hwf Hgate Hvp Hmk Hkey result.
  assert (length key = 32%nat) as Hklen.
  { unfold derive_enc_key, _derive_key in Hkey.
    destruct (negb _); [done|]. injection Hkey as <-. apply Hhkdf. }
  destruct (vault_unlock_success_run payload w md verifier vault_salt mem time par
              master_key key Hmd Hver Hne Hs Hm Ht Hp Hwf Hgate Hvp Hmk Hkey Hklen)
    as (session & drawn & r & Hresp & Hsess & _ & Hk & _ & Hev & _).
  fold result in Hresp, Hsess, Hev. exists session. rewrite Hresp. simpl.
  split_and!; done.
Qed.

End VaultFlowFacts.

(** ** schemas.py: what validation lets through *)

Section SchemaFacts.
Context `{L : Lib}.

(** A list that does not begin with an element that [p] holds of. *)
Definition head_kept {A} (p : A → bool) (l : list A) : Prop :=
  match l with [] => True | x :: _ => p x = false end.

Lemma drop_while_head_kept {A} (p : A → bool) l : head_kept p (drop_while p l).
Proof.
  induction l as [|x l IH]; simpl; [done|]. by destruct (p x) eqn:E.
Qed.

Lemma drop_while_id {A} (p : A → bool) l : head_kept p l → drop_while p l = l.
Proof. destruct l as [|x l]; simpl; [done|]. by intros ->. Qed.

Lemma drop_while_snoc {A} (p : A → bool) l x :
  p x = false → drop_while p (l ++ [x]) = drop_while p l ++ [x].
Proof.
  intros Hx. induction l as [|y l IH]; simpl; [by rewrite Hx|].
  by destruct (p y).
Qed.

(** Stripping leaves nothing to strip, at either end. *)
Lemma strip_chars_idemp p s : strip_chars p (strip_chars p s) = strip_chars p s.
Proof.
  unfold strip_chars. rewrite list_ascii_of_string_of_list_ascii.
  generalize (drop_while p (list_ascii_of_string s))
    (drop_while_head_kept p (list_ascii_of_string s)).
  intros l1 H1.
  assert (head_kept p (rev (drop_while p (rev l1)))) as H2.
  { destruct l1 as [|x t]; [exact I|]. simpl in H1. cbn [rev].
    rewrite drop_while_snoc by done. by rewrite rev_app_distr. }
  rewrite (drop_while_id p (rev (drop_while p (rev l1)))) by done.
  rewrite rev_involutive.
  rewrite (drop_while_id p (drop_while p (rev l1))) by apply drop_while_head_kept.
  done.
Qed.

Lemma strip_whitespace_stripped s : stripped (strip_whitespace s).
Proof. apply strip_chars_idemp. Qed.

Lemma validate_str_sound min_length max_length v s :
  validate_str true min_length (Some max_length) v = Some s →
  valid_str min_length max_length s.
Proof.
  unfold validate_str. destruct v as [| | | |x| |]; try done. simpl.
  destruct (Nat.leb_spec min_length (String.length (strip_whitespace x)));
    [|done]. simpl.
  destruct (Nat.leb_spec (String.length (strip_whitespace x)) max_length);
    [|done]. intros [= <-].
  split; [apply strip_whitespace_stripped|done].
Qed.

Lemma validate_str_unbounded_sound v s :
  validate_str true 0 None v = Some s → stripped s.
Proof.
  unfold validate_str. destruct v as [| | | |x| |]; try done. simpl. intros [= <-].
  apply strip_whitespace_stripped.
Qed.

Lemma validate_url_sound field u u' :
  with_default field (validate_optional (validate_str true 0 None)) None = Some u →
  validate_url_scheme u = Some u' → valid_url u'.
Proof.
  intros Hfield Hscheme.
  assert (∀ v, u = Some v → stripped v) as Hstripped.
  { intros v ->. destruct field as [x|]; simpl in Hfield; [|done].
    unfold validate_optional in Hfield. destruct x; simpl in Hfield; try done.
    injection Hfield as <-. apply strip_whitespace_stripped. }
  unfold validate_url_scheme in Hscheme. destruct u as [v|]; [|by simplify_eq].
  destruct (String.eqb_spec v ""); [by simplify_eq|].
  destruct (urlsplit v) as [parts|] eqn:Hsplit; simpl in Hscheme; [|done].
  destruct (bool_decide _) eqn:Hin; simpl in Hscheme; [|done].
  destruct (String.eqb_spec (netloc parts) ""); [done|]. injection Hscheme as <-.
  apply bool_decide_eq_true_1 in Hin. simpl.
  split_and!; [by apply Hstripped|done|]. by exists parts.
Qed.

Lemma validate_notes_sound field n :
  with_default field (validate_optional (validate_str true 0 (Some 2000%nat))) None
  = Some n → valid_notes n.
Proof.
  destruct field as [x|]; simpl; [|by intros [= <-]].
  unfold validate_optional. destruct x as [| | | |x| |]; simpl; try done;
    [by intros [= <-]|].
  destruct (Nat.leb_spec (String.length (strip_whitespace x)) 2000); [|done].
  intros [= <-]. split; [apply strip_whitespace_stripped|done].
Qed.

Lemma validate_tags_sound ts ts' :
  validate_tags ts = Some ts' →
  ts' = ts ∧ Forall (λ t, TAG_PATTERN_fullmatch t = true) ts.
Proof.
  unfold validate_tags. intros H%mapM_Some.
  induction H as [|t t' ts ts' Ht _ [-> IH]]; [done|].
  destruct (TAG_PATTERN_fullmatch t) eqn:E; [|done]. injection Ht as <-.
  split; [done|by constructor].
Qed.

Lemma validate_tag_list_sound l ts :
  (vs ← mapM (validate_str true 1 (Some 24%nat)) l;
   if (length vs <=? 10)%nat then validate_tags vs else None) = Some ts →
  (length ts ≤ 10)%nat ∧ Forall valid_tag ts.
Proof.
  intros (vs & Hvs & H)%bind_Some.
  destruct (Nat.leb_spec (length vs) 10) as [Hlen|]; [|done].
  apply validate_tags_sound in H as [-> Hpat]. split; [done|].
  apply mapM_Some in Hvs.
  assert (Forall (valid_str 1 24) vs) as Hstr.
  { clear -Hvs. induction Hvs as [|v s l vs Hv _ IH]; constructor; [|done].
    by eapply validate_str_sound. }
  clear Hvs Hlen. induction Hstr as [|t vs Ht _ IH]; [done|].
  inversion Hpat; subst. constructor; [by split|by apply IH].
Qed.

(** What [Entry.model_validate] returns meets the constraints of the schema. *)
Lemma Entry_validate_sound payload e :
  Entry_model_validate payload = Some e → valid_entry e.
Proof.
  unfold Entry_model_validate. destruct payload as [| | | | | |m]; try done.
  destruct (negb _); [done|].
  intros (t & Ht & H)%bind_Some.
  apply bind_Some in H as (u & Hu & H).
  apply bind_Some in H as (u' & Hu' & H).
  apply bind_Some in H as (un & Hun & H).
  apply bind_Some in H as (pw & Hpw & H).
  apply bind_Some in H as (n & Hn & H).
  apply bind_Some in H as (ts & Hts & H).
  apply bind_Some in H as (fav & _ & H).
  apply bind_Some in H as (id & _ & H).
  apply bind_Some in H as (stamp & _ & H).
  injection H as <-. unfold valid_entry. simpl.
  apply bind_Some in Ht as (? & _ & Ht%validate_str_sound).
  apply bind_Some in Hun as (? & _ & Hun%validate_str_sound).
  apply bind_Some in Hpw as (? & _ & Hpw%validate_str_sound).
  assert ((length ts ≤ 10)%nat ∧ Forall valid_tag ts) as [Hlen Htags].
  { destruct (m !! "tags") as [given|]; simpl in Hts;
      [|simplify_eq; split; [simpl; lia|constructor]].
    destruct given; try done. by eapply validate_tag_list_sound. }
  split_and!; try done.
  - by eapply validate_url_sound.
  - by eapply validate_notes_sound.
Qed.

(** X11: whatever [Entry.model_validate] accepts meets the constraints of
    the schema (title, username and password stripped and within their
    lengths, an http or https URL with a host or none, notes of at most 2000
    characters, at most 10 tags of 1 to 24 permitted characters), and
    validating the JSON dump of an accepted entry returns the same entry:
    validation is idempotent across a dump. *)
Theorem Entry_validate_idempotent (payload : pyval) (e : Entry) :
  pydantic_ok →
  Entry_model_validate payload = Some e →
  valid_entry e ∧ Entry_model_validate (Entry_model_dump e) = Some e.
Proof.
  intros Hp He. apply Entry_validate_sound in He as Hvalid.
  split; [done|by apply Entry_round_trip].
Qed.

End SchemaFacts.

(** ** audit.py, crypto.py and the throttle's delay *)

Section SmallFacts.
Context `{L : Lib}.

(** X12: [_sanitize_meta] is idempotent: what it returns, it returns
    unchanged when applied again. *)
Theorem sanitize_meta_idempotent (meta : option (gmap string pyval)) :
  _sanitize_meta (_sanitize_meta meta) = _sanitize_meta meta.
Proof.
  destruct (_sanitize_meta meta) as [m|] eqn:E; [|done].
  apply sanitize_meta_Some in E as (m0 & -> & -> & Hne).
  apply sanitize_meta_all_kept; [done|].
  intros k v. rewrite sanitize_loop_lookup.
  destruct (m0 !! k) as [v0|]; simpl; [|done].
  destruct (kept k v0) eqn:Hk; [|done]. by intros [= <-].
Qed.

(** X13: the delay after a failed unlock, for a count of at least one: it
    is 2^count seconds up to a count of 8 and 256 seconds from then on, so
    it never decreases with the count and the limit of 300 seconds is never
    what decides it. *)
Theorem delay_ladder (attempts : Z) :
  1 ≤ attempts →
  (attempts ≤ 8 → delay_seconds_of attempts = 2 ^ attempts)
  ∧ (8 ≤ attempts → delay_seconds_of attempts = 256)
  ∧ 2 ≤ delay_seconds_of attempts ≤ 256
  ∧ ∀ later, attempts ≤ later →
      delay_seconds_of attempts ≤ delay_seconds_of later.
Proof.
  intros H1. unfold delay_seconds_of.
  assert (∀ n, 1 ≤ n → 2 ≤ 2 ^ Z.min n 8 ≤ 256) as Hrange.
  { intros n Hn. split.
    - change 2 with (2 ^ 1) at 1. apply Z.pow_le_mono_r; lia.
    - change 256 with (2 ^ 8). apply Z.pow_le_mono_r; lia. }
  split_and!.
  - intros H8. rewrite (Z.min_l attempts 8) by lia.
    pose proof (Hrange attempts H1) as Hr. rewrite (Z.min_l attempts 8) in Hr by lia.
    lia.
  - intros H8. rewrite (Z.min_r attempts 8) by lia. reflexivity.
  - pose proof (Hrange attempts H1). lia.
  - pose proof (Hrange attempts H1). lia.
  - intros later Hl.
    pose proof (Hrange attempts H1). pose proof (Hrange later ltac:(lia)).
    assert (2 ^ Z.min attempts 8 ≤ 2 ^ Z.min later 8)
      by (apply Z.pow_le_mono_r; lia).
    lia.
Qed.

(** X14: [encrypt_json] under a 32-byte key draws a fresh 12-byte nonce and
    returns a payload that [decrypt_json] under the same key turns back into
    the object; under a key of any other length both raise [ValueError], and
    [encrypt_json] draws nothing. *)
Theorem encrypt_then_decrypt (key : bytes) (obj : pyval) (w : World) :
  aesgcm_ok → utf8_ok → json_ok →
  (length key = 32%nat →
   ∃ payload w',
     encrypt_json key obj w = (Ok payload, w')
     ∧ length (nonce payload) = 12%nat
     ∧ entropy_drawn w' = (entropy_drawn w + 12)%nat
     ∧ decrypt_json key (nonce payload) (ciphertext payload) = Ok obj)
  ∧ (length key ≠ 32%nat →
     encrypt_json key obj w
     = (Raise (ValueError "Encryption key must be 32 bytes."), w)
     ∧ ∀ drawn ct, decrypt_json key drawn ct
                   = Raise (ValueError "Encryption key must be 32 bytes.")).
Proof.
  intros Ha Hu Hj. split.
  - intros Hk. unfold encrypt_json. rewrite Hk. run.
    eexists _, _. split; [reflexivity|]. simpl. split_and!; [done|done|].
    by apply decrypt_encrypt.
  - intros Hk. split.
    + unfold encrypt_json.
      destruct (Nat.eqb_spec (length key) 32) as [|_]; [done|reflexivity].
    + intros drawn ct. by apply decrypt_json_bad_key.
Qed.

End SmallFacts.

(** ** routes/backup.py: the import summary *)

Section SummaryFacts.
Context `{L : Lib}.

(** The instant of a datetime in microseconds, a naive one read as UTC. *)
Definition utc_us (d : datetime) : Z :=
  match d with Naive x => x | Aware x _ => x end.

(** What the import does with one incoming entry, given the rows of the
    table: add it, overwrite the row of the same id, or leave that row. *)
Inductive import_verdict := WillAdd | WillUpdate | WillSkip.

#[global] Instance import_verdict_eq_dec : EqDecision import_verdict.
Proof. solve_decision. Defined.

Definition import_verdict_of (existing_map : gmap string EntryRecord)
    (incoming : Entry) : import_verdict :=
  match existing_map !! uuid_str (entry_id incoming) with
  | None => WillAdd
  | Some row =>
      if utc_us (er_updated_at row) <? utc_us (updatedAt incoming)
      then WillUpdate else WillSkip
  end.

Definition count_verdict (v : import_verdict)
    (existing_map : gmap string EntryRecord) (incoming : list Entry) : Z :=
  Z.of_nat (length (List.filter
                      (λ e, bool_decide (import_verdict_of existing_map e = v))
                      incoming)).

Lemma dt_gt_as_utc a b :
  dt_gt (as_utc a) (as_utc b) = Ok (utc_us b <? utc_us a).
Proof. by destruct a, b. Qed.

Lemma import_summary_step_run existing_map a u s incoming :
  import_summary_step existing_map (a, u, s) incoming
  = Ok (match import_verdict_of existing_map incoming with
        | WillAdd => (a + 1, u, s)
        | WillUpdate => (a, u + 1, s)
        | WillSkip => (a, u, s + 1)
        end).
Proof.
  unfold import_summary_step, import_verdict_of.
  destruct (existing_map !! _) as [row|]; [|done].
  rewrite dt_gt_as_utc. simpl. by destruct (_ <? _).
Qed.

Lemma import_summary_loop existing_map incoming a u s :
  for_loop (import_summary_step existing_map) (a, u, s) incoming
  = Ok (a + count_verdict WillAdd existing_map incoming,
        u + count_verdict WillUpdate existing_map incoming,
        s + count_verdict WillSkip existing_map incoming).
Proof.
  unfold count_verdict.
  revert a u s. induction incoming as [|e l IH]; intros a u s.
  - simpl. by rewrite !Z.add_0_r.
  - cbn [for_loop List.filter]. rewrite import_summary_step_run.
    destruct (import_verdict_of existing_map e); rewrite IH; simpl;
      f_equal; repeat (apply pair_equal_spec; split); lia.
Qed.

Lemma count_verdict_total existing_map incoming :
  count_verdict WillAdd existing_map incoming
  + count_verdict WillUpdate existing_map incoming
  + count_verdict WillSkip existing_map incoming
  = Z.of_nat (length incoming).
Proof.
  unfold count_verdict. induction incoming as [|e l IH]; [done|].
  cbn [List.filter length].
  destruct (import_verdict_of existing_map e); simpl in *; lia.
Qed.

Lemma compute_import_summary_run incoming w :
  _compute_import_summary incoming w
  = (Ok (count_verdict WillAdd (existing_map_of (entries (tx w))) incoming,
         count_verdict WillUpdate (existing_map_of (entries (tx w))) incoming,
         count_verdict WillSkip (existing_map_of (entries (tx w))) incoming,
         [], existing_map_of (entries (tx w))), w).
Proof.
  unfold _compute_import_summary. run. rewrite import_summary_loop. done.
Qed.

(** X15: [_compute_import_summary] never raises and never reports an
    error: naive timestamps are read as UTC before they are compared.  Each
    incoming entry is judged against the rows as they are before the
    import: added when no row has its id, updated when its updatedAt is
    strictly later than the row's, skipped otherwise; the three counts are
    not negative and add up to the number of incoming entries.  The
    database is only read. *)
Theorem import_summary_counts (incoming : list Entry) (w : World) :
  let existing_map := existing_map_of (entries (tx w)) in
  let added := count_verdict WillAdd existing_map incoming in
  let updated := count_verdict WillUpdate existing_map incoming in
  let skipped := count_verdict WillSkip existing_map incoming in
  _compute_import_summary incoming w
  = (Ok (added, updated, skipped, [], existing_map), w)
  ∧ 0 ≤ added ∧ 0 ≤ updated ∧ 0 ≤ skipped
  ∧ added + updated + skipped = Z.of_nat (length incoming).
Proof.
  intros existing_map added updated skipped.
  split; [|split_and!; try apply Nat2Z.is_nonneg; apply count_verdict_total].
  apply compute_import_summary_run.
Qed.

End SummaryFacts.

(** ** routes/entries.py: create, get, update, delete *)

Section EntryFacts.
Context `{L : Lib}.

(** The entry a handler builds from valid fields. *)
Definition entry_of_base (id : UUID) (payload : EntryBase) (stamp : datetime)
    : Entry :=
  {| title := base_title payload; url := base_url payload;
     username := base_username payload; password := base_password payload;
     notes := base_notes payload; tags := base_tags payload;
     favorite := base_favorite payload; entry_id := id; updatedAt := stamp |}.

(** The fields meet the constraints of [EntryBase], as they do when FastAPI
    has validated the request. *)
Definition valid_base (payload : EntryBase) : Prop :=
  valid_entry (entry_of_base {| uuid_int := 0 |} payload (Naive 0)).

Lemma valid_base_entry id payload stamp :
  valid_base payload → valid_entry (entry_of_base id payload stamp).
Proof. done. Qed.

Lemma Entry_init_valid id payload stamp :
  valid_base payload →
  Entry_init id payload stamp = Some (entry_of_base id payload stamp).
Proof.
  intros (Ht & Hurl & Hun & Hpw & Hn & Hlen & Htags). simpl in *.
  unfold Entry_init.
  rewrite !validate_str_valid by done. simpl.
  rewrite validate_url_str_valid by done. simpl.
  rewrite validate_url_scheme_valid by done. simpl.
  rewrite validate_notes_valid by done. simpl.
  rewrite validate_tags_valid by done. done.
Qed.

(** The row [create_entry] and [update_entry] store for an entry. *)
Definition row_of (key drawn : bytes) (e : Entry) (stamp : datetime) : EntryRecord :=
  {| er_id := uuid_str (entry_id e); er_nonce := drawn;
     er_ciphertext := aesgcm_encrypt key drawn (_canonical_json (Entry_model_dump e))
                        AES_GCM_AAD;
     er_updated_at := stamp |}.



Lemma db_get_entry_None rid d :
  db_get_entry rid d = None ↔ rid ∉ map er_id (entries d).
Proof.
  unfold db_get_entry. induction (entries d) as [|r l IH]; simpl.
  - split; [intros _; apply not_elem_of_nil|done].
  - rewrite not_elem_of_cons.
    destruct (String.eqb_spec (er_id r) rid) as [E|E]; [naive_solver|].
    rewrite IH. naive_solver.
Qed.

Lemma db_get_entry_Some rid d row :
  db_get_entry rid d = Some row → er_id row = rid ∧ row ∈ entries d.
Proof.
  unfold db_get_entry. intros H. apply find_some in H as [Hin Heq].
  apply String.eqb_eq in Heq. split; [done|by apply list_elem_of_In].
Qed.


Lemma delete_row_NoDup rid rows :
  NoDup (map er_id rows) → NoDup (map er_id (delete_row rid rows)).
Proof.
  unfold delete_row. induction rows as [|r l IH]; simpl; [done|].
  intros Hnd. inversion Hnd as [|? ? Hr Hl]; subst.
  destruct (negb _); simpl; [|by apply IH].
  constructor; [|by apply IH].
  intros Hin. apply Hr.
  apply list_elem_of_In, in_map_iff in Hin as (row & Hid & Hrow).
  apply filter_In in Hrow as [Hrow _].
  apply list_elem_of_In, in_map_iff. by exists row.
Qed.

Lemma assign_row_ids rid encrypted stamp rows :
  map er_id (assign_row rid encrypted stamp rows) = map er_id rows.
Proof.
  unfold assign_row. rewrite map_map. apply map_ext_in. intros row _.
  destruct (String.eqb_spec (er_id row) rid); simpl; done.
Qed.



Lemma entry_id_meta_kept rid :
  _sanitize_meta (Some {[ "entry_id" := PStr rid ]})
  = Some {[ "entry_id" := PStr rid ]}.
Proof.
  apply sanitize_meta_all_kept.
  - apply map_non_empty_singleton.
  - by apply map_Forall_singleton.
Qed.

Lemma not_found_meta_kept rid :
  _sanitize_meta (Some (not_found_meta rid)) = Some (not_found_meta rid).
Proof.
  apply sanitize_meta_all_kept.
  - apply insert_non_empty.
  - apply map_Forall_insert_2; [done|]. by apply map_Forall_singleton.
Qed.

(** The next [n] bytes of entropy from position [start]. *)
Definition bytes_from (w : World) (start n : nat) : bytes :=
  map (λ i, entropy w (start + i)%nat) (seq 0 n).



(** GET /entries/{id}. *)
Lemma get_entry_run id request w session w1 :
  unlocked request w session w1 → db_wf (committed w) →
  let result := run_endpoint (entry_endpoint 200 (get_entry id request)) w in
  match db_get_entry (uuid_str id) (committed w) with
  | None =>
      fst result = exception_response entry_not_found
      ∧ ∃ r, committed (snd result) = add_audit (committed w) r
             ∧ ar_type r = "ENTRY_GET" ∧ ar_outcome r = "FAILURE"
             ∧ ar_meta r = Some (not_found_meta (uuid_str id))
  | Some row =>
      match _decrypt_entry row (enc_key session) with
      | Ok e =>
          fst result = {| status_code := 200; content := Some (Entry_model_dump e);
                          cookie_ops := [] |}
          ∧ ∃ r, committed (snd result) = add_audit (committed w) r
                 ∧ ar_type r = "ENTRY_GET" ∧ ar_outcome r = "SUCCESS"
                 ∧ ar_meta r = Some {[ "entry_id" := PStr (uuid_str id) ]}
      | Raise err =>
          fst result = exception_response err
          ∧ committed (snd result) = committed w
      end
  end.
Proof.
  intros Hs Hwf result. subst result. unfold unlocked, db_wf in *.
  pose proof (get_session_frame (request_cookies request !! SESSION_COOKIE_NAME) w)
    as Hframe.
  rewrite Hs in Hframe. simpl in Hframe. destruct Hframe as (Hc & _ & He & _).
  unfold run_endpoint, entry_endpoint, get_entry, _require_unlocked_session,
    write_audit_event.
  run. rewrite get_session_with_tx, Hs. simpl.
  destruct (db_get_entry (uuid_str id) (committed w)) as [row|]; run.
  - destruct (_decrypt_entry row (enc_key session)) as [e|err]; run; [|done].
    rewrite bool_decide_eq_true_2 by done. run.
    split; [done|]. eexists. split; [reflexivity|].
    split_and!; try done; apply entry_id_meta_kept.
  - rewrite bool_decide_eq_true_2 by done. run.
    split; [done|]. eexists. split; [reflexivity|].
    split_and!; try done; apply not_found_meta_kept.
Qed.

(** DELETE /entries/{id}. *)
Lemma delete_entry_run id request w session w1 :
  unlocked request w session w1 → db_wf (committed w) →
  let result := run_endpoint (delete_entry_endpoint id request) w in
  match db_get_entry (uuid_str id) (committed w) with
  | None =>
      fst result = exception_response entry_not_found
      ∧ ∃ r, committed (snd result) = add_audit (committed w) r
             ∧ ar_type r = "ENTRY_DELETE" ∧ ar_outcome r = "FAILURE"
             ∧ ar_meta r = Some (not_found_meta (uuid_str id))
  | Some row =>
      fst result = {| status_code := 204; content := None; cookie_ops := [] |}
      ∧ ∃ r, committed (snd result)
             = add_audit (set_entries (committed w)
                            (delete_row (uuid_str id) (entries (committed w)))) r
             ∧ ar_type r = "ENTRY_DELETE" ∧ ar_outcome r = "SUCCESS"
             ∧ ar_meta r = Some {[ "entry_id" := PStr (uuid_str id) ]}
  end.
Proof.
  intros Hs Hwf result. subst result. unfold unlocked, db_wf in *.
  unfold run_endpoint, delete_entry_endpoint, delete_entry,
    _require_unlocked_session, write_audit_event.
  run. rewrite get_session_with_tx, Hs. simpl.
  destruct (db_get_entry (uuid_str id) _) as [row|] eqn:Hrow; run.
  - rewrite bool_decide_eq_true_2 by (by apply delete_row_NoDup). run.
    split; [done|]. eexists. split; [reflexivity|].
    split_and!; try done; apply entry_id_meta_kept.
  - rewrite bool_decide_eq_true_2 by done. run.
    split; [done|]. eexists. split; [reflexivity|].
    split_and!; try done; apply not_found_meta_kept.
Qed.

(** PUT /entries/{id} with valid fields. *)
Lemma update_entry_run id payload request w session w1 :
  unlocked request w session w1 → db_wf (committed w) →
  let result := run_endpoint (entry_endpoint 200 (update_entry id payload request)) w in
  let stamp := now_of w1 in
  let e := entry_of_base id payload stamp in
  let row' := row_of (enc_key session) (bytes_from w1 (entropy_drawn w1) 12) e stamp in
  match db_get_entry (uuid_str id) (committed w) with
  | None =>
      fst result = exception_response entry_not_found
      ∧ ∃ r, committed (snd result) = add_audit (committed w) r
             ∧ ar_type r = "ENTRY_UPDATE" ∧ ar_outcome r = "FAILURE"
             ∧ ar_meta r = Some (not_found_meta (uuid_str id))
  | Some row =>
      length (enc_key session) = 32%nat → valid_base payload →
      fst result = {| status_code := 200; content := Some (Entry_model_dump e);
                      cookie_ops := [] |}
      ∧ ∃ r, committed (snd result)
             = add_audit
                 (set_entries (committed w)
                    (assign_row (uuid_str id)
                       {| nonce := er_nonce row'; ciphertext := er_ciphertext row' |}
                       stamp (entries (committed w)))) r
             ∧ ar_type r = "ENTRY_UPDATE" ∧ ar_outcome r = "SUCCESS"
             ∧ ar_meta r = Some {[ "entry_id" := PStr (uuid_str id) ]}
  end.
Proof.
  intros Hs Hwf result stamp e row'. subst result.
  unfold unlocked, db_wf in *.
  unfold run_endpoint, entry_endpoint, update_entry, _require_unlocked_session,
    write_audit_event, encrypt_json.
  run. rewrite get_session_with_tx, Hs. simpl.
  destruct (db_get_entry (uuid_str id) _) as [row|] eqn:Hrow; run.
  - intros Hk Hvalid.
    rewrite (Entry_init_valid _ _ _ Hvalid). run. rewrite Hk. run.
    rewrite bool_decide_eq_true_2 by (by rewrite assign_row_ids). run.
    split; [done|]. eexists. split; [reflexivity|].
    split_and!; try done; apply entry_id_meta_kept.
  - rewrite bool_decide_eq_true_2 by done. run.
    split; [done|]. eexists. split; [reflexivity|].
    split_and!; try done; apply not_found_meta_kept.
Qed.



(** The answer to a request for an entry that is not there. *)
Definition answered_not_found (event_type : string) (id : UUID) (w : World)
    (result : Response * World) : Prop :=
  fst result = build_error_response 404 "ENTRY_NOT_FOUND" "Entry not found."
  ∧ entries (committed (snd result)) = entries (committed w)
  ∧ ∃ r, committed (snd result) = add_audit (committed w) r
         ∧ ar_type r = event_type ∧ ar_outcome r = "FAILURE"
         ∧ ar_meta r = Some (<["entry_id" := PStr (uuid_str id)]>
                               {[ "reason" := PStr "not_found" ]}).

(** X17: GET and DELETE /entries/{id} for an id that no row has answer 404
    ENTRY_NOT_FOUND; the rows are left as they are and a FAILURE audit
    event with the id and the reason not_found is committed.  So does PUT
    with a body that validates as [EntryUpdateRequest].  A PUT with a body
    that does not validate is answered 422 VALIDATION_ERROR by FastAPI,
    whether the id is there or not: the handler does not run, so that
    nothing is committed, no audit event is written, and the route leaves
    sessions and events as they are. *)
Theorem entry_not_found_404 (id : UUID) (request : Request) (w : World)
    session w1 :
  unlocked request w session w1 → db_wf (committed w) →
  uuid_str id ∉ map er_id (entries (committed w)) →
  answered_not_found "ENTRY_GET" id w
    (run_endpoint (entry_endpoint 200 (get_entry id request)) w)
  ∧ answered_not_found "ENTRY_DELETE" id w
      (run_endpoint (delete_entry_endpoint id request) w)
  ∧ ∀ body,
      let result := run_endpoint (update_entry_route id body request) w in
      (is_Some (EntryBase_model_validate body) →
       answered_not_found "ENTRY_UPDATE" id w result)
      ∧ (EntryBase_model_validate body = None →
         fst result = validation_error_response
         ∧ committed (snd result) = committed w
         ∧ sessions (snd result) = sessions w
         ∧ events (snd result) = events w).
Proof.
  intros Hs Hwf Hmissing%db_get_entry_None. unfold answered_not_found.
  pose proof (get_entry_run id request w session w1 Hs Hwf) as Hget.
  pose proof (delete_entry_run id request w session w1 Hs Hwf) as Hdel.
  cbv zeta in Hget, Hdel. rewrite Hmissing in Hget, Hdel.
  split; [|split].
  - destruct Hget as (-> & r & Hc & ?). rewrite Hc. split_and!; try done. by exists r.
  - destruct Hdel as (-> & r & Hc & ?). rewrite Hc. split_and!; try done. by exists r.
  - intros body. cbv zeta. unfold update_entry_route, with_body.
    destruct (EntryBase_model_validate body) as [payload|]; split.
    + intros _.
      pose proof (update_entry_run id payload request w session w1 Hs Hwf) as Hupd.
      cbv zeta in Hupd. rewrite Hmissing in Hupd.
      destruct Hupd as (-> & r & Hc & ?). rewrite Hc. split_and!; try done.
      by exists r.
    + done.
    + by intros [? ?].
    + intros _. unfold run_endpoint. run. done.
Qed.



End EntryFacts.

(** ** routes/settings.py *)

Section SettingsFacts.
Context `{L : Lib}.

Definition record_of_settings (s : SettingsModel) : SettingsRecord :=
  {| auto_lock_minutes := autoLockMinutes s;
     clipboard_clear_seconds := clipboardClearSeconds s;
     require_reauth_for_copy := requireReauthForCopy s |}.

Definition settings_of_record (r : SettingsRecord) : SettingsModel :=
  {| autoLockMinutes := auto_lock_minutes r;
     clipboardClearSeconds := clipboard_clear_seconds r;
     requireReauthForCopy := require_reauth_for_copy r |}.

Lemma SettingsModel_init_valid s :
  valid_settings s →
  SettingsModel_init (autoLockMinutes s) (clipboardClearSeconds s)
    (requireReauthForCopy s) = Some s.
Proof.
  intros ([Ha1 Ha2] & [Hc1 Hc2]). unfold SettingsModel_init.
  apply Z.leb_le in Ha1 as ->, Ha2 as ->, Hc1 as ->, Hc2 as ->. by destruct s.
Qed.


(** GET /settings. *)
Lemma get_settings_run request w session w1 :
  unlocked request w session w1 → db_wf (committed w) →
  let record := default default_settings (settings (committed w)) in
  valid_settings (settings_of_record record) →
  let result := run_endpoint (settings_endpoint (get_settings request)) w in
  fst result
  = {| status_code := 200;
       content := Some (SettingsModel_model_dump (settings_of_record record));
       cookie_ops := [] |}
  ∧ committed (snd result) = set_settings (committed w) record.
Proof.
  intros Hs Hwf record Hvalid result. subst result record.
  unfold unlocked, db_wf in *.
  apply SettingsModel_init_valid in Hvalid. simpl in Hvalid.
  unfold run_endpoint, settings_endpoint, get_settings, _require_unlocked,
    _get_or_create_settings, settings_model_of, default_settings in *.
  run. rewrite get_session_with_tx, Hs. simpl.
  destruct (settings (committed w)) as [st|] eqn:Hst; run;
    rewrite bool_decide_eq_true_2 by done; run; try rewrite Hvalid; run;
    (split; [done|]).
  - unfold set_settings. destruct (committed w); simpl in *. by subst.
  - done.
Qed.



(** X21: GET /settings on a database without a settings row answers with
    the defaults (auto-lock 5 minutes, clipboard 15 seconds, re-authentication
    required) and commits that row, with no audit event; the other tables
    are not touched. *)
Theorem settings_get_creates_defaults (request : Request) (w : World) session w1 :
  unlocked request w session w1 → db_wf (committed w) →
  settings (committed w) = None →
  let result := run_endpoint (settings_endpoint (get_settings request)) w in
  fst result
  = {| status_code := 200;
       content := Some (SettingsModel_model_dump
                          {| autoLockMinutes := 5; clipboardClearSeconds := 15;
                             requireReauthForCopy := true |});
       cookie_ops := [] |}
  ∧ committed (snd result) = set_settings (committed w) default_settings.
Proof.
  intros Hs Hwf Hnone result.
  destruct (get_settings_run request w session w1 Hs Hwf) as (Hresp & Hc).
  { rewrite Hnone. unfold valid_settings. simpl. lia. }
  fold result in Hresp, Hc. rewrite Hresp, Hc, Hnone. done.
Qed.

End SettingsFacts.

(** ** routes/audit.py and schemas.py: the meta on its way out *)

Section AuditReadFacts.
Context `{L : Lib}.

(** No key of the mapping has a forbidden hint. *)
Definition keys_clean (m : gmap string pyval) : Prop :=
  ∀ key value, m !! key = Some value → has_forbidden_hint key = false.

Lemma read_loop_lookup (m : gmap string pyval) key :
  map_fold routes_audit.sanitize_step ∅ m !! key =
    (v ← m !! key;
     if negb (has_forbidden_hint key) && routes_audit.is_meta_value v
     then Some v else None).
Proof.
  apply (map_fold_weak_ind
    (λ r m, r !! key = (v ← m !! key;
                        if negb (has_forbidden_hint key)
                           && routes_audit.is_meta_value v
                        then Some v else None))).
  - by rewrite !lookup_empty.
  - intros i x m' r Hi IH. unfold routes_audit.sanitize_step.
    destruct (decide (i = key)) as [->|Hne].
    + rewrite lookup_insert_eq. simpl.
      rewrite Hi in IH. simpl in IH.
      destruct (has_forbidden_hint key); simpl; [done|].
      destruct (routes_audit.is_meta_value x); [by rewrite lookup_insert_eq|done].
    + rewrite (lookup_insert_ne m') by done.
      destruct (has_forbidden_hint i); [done|].
      destruct (routes_audit.is_meta_value x); [by rewrite lookup_insert_ne|done].
Qed.

Lemma read_sanitize_Some meta m :
  routes_audit._sanitize_meta meta = Some m ↔
  ∃ m0, meta = Some m0 ∧ m = map_fold routes_audit.sanitize_step ∅ m0 ∧ m ≠ ∅.
Proof.
  unfold routes_audit._sanitize_meta. destruct meta as [m0|]; [|naive_solver].
  destruct (size m0 =? 0)%nat eqn:E0.
  - apply size_zero_empty in E0 as ->. split; [done|].
    intros (? & [= <-] & -> & Hne). by rewrite map_fold_empty in Hne.
  - destruct (size (map_fold routes_audit.sanitize_step ∅ m0) =? 0)%nat eqn:E1.
    + apply size_zero_empty in E1. split; [done|]. intros (? & [= <-] & -> & ?). done.
    + split.
      * intros [= <-]. eexists; split_and!; try done.
        intros Hm. apply size_zero_empty in Hm. congruence.
      * by intros (? & [= <-] & -> & ?).
Qed.

Lemma validate_meta_keys_clean m :
  keys_clean m → validate_meta_keys (Some m) = Some (Some m).
Proof.
  intros Hclean. unfold validate_meta_keys.
  destruct (existsb _ _) eqn:E; [|done]. exfalso.
  apply existsb_exists in E as ([k v] & Hin & Hk). simpl in Hk.
  apply list_elem_of_In, elem_of_map_to_list in Hin.
  by rewrite (Hclean k v Hin) in Hk.
Qed.

(** X22: on the way out, GET /audit sanitizes the stored meta again and
    [AuditEvent] checks its keys.  Whatever is stored, the sanitized meta
    has no key with a forbidden hint, so the check never fails; and a meta
    that audit.py's [_sanitize_meta] produced on the way in goes out
    unchanged. *)
Theorem audit_meta_on_read (stored written : option (gmap string pyval)) :
  validate_meta_keys (routes_audit._sanitize_meta stored)
  = Some (routes_audit._sanitize_meta stored)
  ∧ routes_audit._sanitize_meta (_sanitize_meta written) = _sanitize_meta written.
Proof.
  split.
  - destruct (routes_audit._sanitize_meta stored) as [m|] eqn:E; [|done].
    apply read_sanitize_Some in E as (m0 & -> & -> & _).
    apply validate_meta_keys_clean. intros key value.
    rewrite read_loop_lookup. destruct (m0 !! key) as [v|]; simpl; [|done].
    by destruct (has_forbidden_hint key).
  - destruct (_sanitize_meta written) as [m|] eqn:E; [|done].
    apply sanitize_meta_Some in E as (m0 & -> & -> & Hne).
    apply read_sanitize_Some. eexists. split; [done|]. split; [|done].
    apply map_eq. intros key. rewrite read_loop_lookup, sanitize_loop_lookup.
    destruct (m0 !! key) as [v|]; simpl; [|done]. unfold kept.
    destruct (has_forbidden_hint key) eqn:Hk; simpl; [done|].
    unfold routes_audit.is_meta_value.
    destruct (is_bool_str_int_float v) eqn:Hb; simpl; rewrite ?Hk, ?Hb; done.
Qed.

End AuditReadFacts.

(** ** utils.py: the log filter *)

Section LogFacts.
Variable percent_format : string → list pyval → option string.

(** The lowercase message has one of the blocked hints in it. *)
Definition mentions_secret (record : LogRecord) : option bool :=
  message ← getMessage percent_format record;
  Some (existsb (λ hint, str_contains hint (str_lower message)) BLOCKED_HINTS).

(** X23: [SecretFilter.filter] fails only where [getMessage] does (on
    arguments that do not fit the format); otherwise it returns [True], so
    no record is held back.  The message of the record it leaves has none
    of the hints password, secret, token, key in it, whatever the case of
    its letters: a record that has one is replaced as a whole by the
    redaction marker, without arguments, and any other record is left as it
    is.  Filtering the result again changes nothing. *)
Theorem secret_filter_redacts (record : LogRecord) :
  (getMessage percent_format record = None →
   SecretFilter_filter percent_format record = None)
  ∧ ∀ message,
      getMessage percent_format record = Some message →
      ∃ filtered,
        SecretFilter_filter percent_format record = Some (filtered, true)
        ∧ mentions_secret filtered = Some false
        ∧ (mentions_secret record = Some false → filtered = record)
        ∧ (mentions_secret record = Some true →
           filtered = {| log_msg := "[REDACTED_SENSITIVE_LOG]"; log_args := [] |})
        ∧ SecretFilter_filter percent_format filtered = Some (filtered, true).
Proof.
  unfold SecretFilter_filter, mentions_secret. split.
  - by intros ->.
  - intros message Hm. rewrite Hm. cbn [mbind option_bind].
    destruct (existsb _ BLOCKED_HINTS) eqn:E; eexists; (split; [reflexivity|]).
    + split_and!; done.
    + rewrite Hm. cbn [mbind option_bind]. rewrite E. split_and!; done.
Qed.

End LogFacts.

(** ** The session check of the routes *)

Section AuthFacts.
Context `{L : Lib}.

(** The endpoints that begin with [_require_unlocked_session] or
    [_require_unlocked]. *)
Inductive session_protected (request : Request) : M Response → Prop :=
| protected_list :
    session_protected request (list_entries_endpoint request)
| protected_create payload :
    session_protected request (entry_endpoint 201 (create_entry payload request))
| protected_get id :
    session_protected request (entry_endpoint 200 (get_entry id request))
| protected_update id payload :
    session_protected request (entry_endpoint 200 (update_entry id payload request))
| protected_delete id :
    session_protected request (delete_entry_endpoint id request)
| protected_get_settings :
    session_protected request (settings_endpoint (get_settings request))
| protected_update_settings payload :
    session_protected request (settings_endpoint (update_settings payload request))
| protected_import_preview file password :
    session_protected request
      (import_endpoint (preview_import_backup request file password))
| protected_import_apply file password :
    session_protected request
      (import_endpoint (apply_import_backup request file password))
| protected_export payload :
    session_protected request (export_endpoint (export_backup payload request)).

(** X24: when the session cookie of the request names no live session, the
    entries, settings, export and import endpoints answer 401 UNAUTHORIZED before
    anything else: nothing is read from the upload, nothing is decrypted or
    drawn, and nothing is committed, not even an audit event. *)
Theorem unauthenticated_is_401 (request : Request) (endpoint : M Response)
    (w w1 : World) :
  session_protected request endpoint →
  get_session (request_cookies request !! SESSION_COOKIE_NAME) w = (Ok None, w1) →
  let result := run_endpoint endpoint w in
  fst result = build_error_response 401 "UNAUTHORIZED" "Authentication required."
  ∧ committed (snd result) = committed w
  ∧ tx (snd result) = committed w
  ∧ events (snd result) = events w
  ∧ entropy_drawn (snd result) = entropy_drawn w
  ∧ sessions (snd result) = sessions w1.
Proof.
  intros Hp Hs result. subst result.
  pose proof (get_session_frame (request_cookies request !! SESSION_COOKIE_NAME) w)
    as Hframe.
  rewrite Hs in Hframe. simpl in Hframe. destruct Hframe as (Hc & _ & He & Hd).
  destruct Hp;
    unfold run_endpoint, list_entries_endpoint, list_entries, entry_endpoint,
      create_entry, get_entry, update_entry, delete_entry_endpoint, delete_entry,
      settings_endpoint, get_settings, update_settings, import_endpoint,
      preview_import_backup, apply_import_backup, export_endpoint, export_backup,
      _require_unlocked_session, _require_unlocked;
    run; rewrite get_session_with_tx, Hs; simpl; done.
Qed.

End AuthFacts.

(** ** routes/backup.py: a file that cannot be read *)

Section UnreadableFacts.
Context `{L : Lib}.

(** What the import handlers do with the upload: parse it, then decrypt and
    validate the bundle. *)
Definition read_backup (file : UploadFile) (key : bytes) (password : option string)
    : outcome BackupBundle :=
  envelope ← parse_backup_json (file_content file);
  load_backup_bundle envelope key password.

(** What [parse_backup_json] raises is a [ValueError], but for the
    [RecursionError] of [json.loads]. *)
Lemma parse_backup_json_raises raw e :
  parse_backup_json raw = Raise e → is_ValueError e = true ∨ e = RecursionError.
Proof.
  unfold parse_backup_json, json_loads, try_except, or_raise, invalid_backup_file.
  repeat (case_match; simpl in *; simplify_eq; try done);
    intros; simplify_eq; auto.
Qed.

(** The exceptions [load_backup_bundle] raises are [ValueError]s, but for
    the [HashingError] of Argon2 and the [RecursionError] of [json.loads]. *)
Lemma load_backup_bundle_raises envelope key password e :
  load_backup_bundle envelope key password = Raise e →
  is_ValueError e = true ∨ e = HashingError ∨ e = RecursionError.
Proof.
  unfold load_backup_bundle, _resolve_import_key, _b64decode,
    derive_master_key_raw, derive_backup_key, _derive_key, decrypt_json,
    json_loads, try_except, or_raise, invalid_backup_file.
  repeat (case_match; simpl in *; simplify_eq; try done);
    intros; simplify_eq; auto.
Qed.

(** A request turned away after the upload was read. *)
Definition rejected_after_read (event_type reason : string) (w : World)
    (result : Response * World) : Prop :=
  fst result
    = {| status_code := 200;
         content := Some (BackupImportPreviewResponse_model_dump
                            {| added := 0; updated := 0; skipped := 0;
                               errors := ["Invalid backup file."] |});
         cookie_ops := [] |}
  ∧ events (snd result) = events w ++ [FileRead]
  ∧ entries (committed (snd result)) = entries (committed w)
  ∧ settings (committed (snd result)) = settings (committed w)
  ∧ ∃ r, committed (snd result) = add_audit (committed w) r
         ∧ ar_type r = event_type ∧ ar_outcome r = "FAILURE"
         ∧ ar_meta r = Some {[ "reason" := PStr reason ]}.

(** X25: an upload with a .json name that cannot be read.  When reading
    it fails with a [ValueError] (not UTF-8, not JSON, an integer beyond
    the digit limit, not an envelope, a password missing or wrong, a
    ciphertext that does not authenticate, a bundle that does not
    validate), both import endpoints answer 200 with zero counts and the
    one error "Invalid backup file."; entries and settings are as they were
    and a FAILURE audit event is committed, whose reason is invalid_file, or
    decrypt_failed when the preview got as far as an envelope.  Any other
    exception is not caught: both requests end with 500 and nothing is
    committed, not even an audit event.  There are two of them: the
    [HashingError] of Argon2, and the [RecursionError] of [json.loads] on a
    text nested too deep, in the file or in the decrypted payload. *)
Theorem import_rejects_unreadable (request : Request) (file : UploadFile)
    (password : option string) (w : World) session w1 e :
  unlocked request w session w1 → db_wf (committed w) →
  bad_backup_filename file = false →
  read_backup file (enc_key session) password = Raise e →
  let preview :=
    run_endpoint (import_endpoint (preview_import_backup request file password)) w in
  let applied :=
    run_endpoint (import_endpoint (apply_import_backup request file password)) w in
  (is_ValueError e = true →
   rejected_after_read "BACKUP_IMPORT_APPLY" "invalid_file" w applied
   ∧ rejected_after_read "BACKUP_IMPORT_PREVIEW"
       (match parse_backup_json (file_content file) with
        | Raise _ => "invalid_file"
        | Ok _ => "decrypt_failed"
        end) w preview)
  ∧ (is_ValueError e = false →
     fst applied = build_error_response 500 "INTERNAL_ERROR" "Unexpected error."
     ∧ fst preview = build_error_response 500 "INTERNAL_ERROR" "Unexpected error."
     ∧ committed (snd applied) = committed w
     ∧ committed (snd preview) = committed w)
  ∧ (is_ValueError e = true ∨ e = HashingError ∨ e = RecursionError).
Proof.
  intros Hs Hwf Hname Hread preview applied. subst preview applied.
  unfold rejected_after_read, db_wf, unlocked in *.
  pose proof (get_session_frame (request_cookies request !! SESSION_COOKIE_NAME) w)
    as Hframe.
  rewrite Hs in Hframe. simpl in Hframe. destruct Hframe as (Hc & _ & He & _).
  assert (is_ValueError e = true ∨ e = HashingError ∨ e = RecursionError)
    as Hclass.
  { unfold read_backup in Hread.
    destruct (parse_backup_json (file_content file)) as [envelope|e'] eqn:Hparse.
    - simpl in Hread. by eapply load_backup_bundle_raises.
    - simpl in Hread. injection Hread as <-.
      apply parse_backup_json_raises in Hparse as [?|?]; auto. }
  assert (exception_response e
          = build_error_response 500 "INTERNAL_ERROR" "Unexpected error."
          ∨ is_ValueError e = true) as H500.
  { destruct Hclass as [?|[->| ->]]; auto. }
  match goal with
  | |- ?A ∧ ?B ∧ ?C => enough (A ∧ B) as [HA HB] by (split_and!; assumption)
  end.
  unfold read_backup in Hread.
  unfold run_endpoint, import_endpoint, preview_import_backup, apply_import_backup,
    _require_unlocked_session, write_audit_event, file_read.
  run. rewrite get_session_with_tx, Hs. simpl. rewrite Hname. run.
  destruct (parse_backup_json (file_content file)) as [envelope|e'] eqn:Hparse;
    simpl in Hread; [|injection Hread as ->]; run.
  - rewrite !Hread. run.
    destruct (is_ValueError e) eqn:Hv; run.
    + split; [|done]. intros _.
      rewrite bool_decide_eq_true_2 by done. run.
      split; (split_and!; try done; [by rewrite He|];
              eexists; split_and!; try done; apply reason_meta_kept).
    + split; [done|]. intros _. destruct H500 as [->|?]; done.
  - destruct (is_ValueError e) eqn:Hv; run.
    + split; [|done]. intros _.
      rewrite bool_decide_eq_true_2 by done. run.
      split; (split_and!; try done; [by rewrite He|];
              eexists; split_and!; try done; apply reason_meta_kept).
    + split; [done|]. intros _. destruct H500 as [->|?]; done.
Qed.

End UnreadableFacts.

(** ** routes/backup.py: the export *)

Section ExportFacts.
Context `{L : Lib}.

#[local] Arguments build_backup_envelope : simpl never.
#[local] Arguments _decrypt_rows_as_entries : simpl never.
#[local] Arguments BackupExportResponse_model_validate : simpl never.
#[local] Arguments BackupEnvelope_model_dump : simpl never.
#[local] Arguments BackupExportResponse_model_dump : simpl never.

(** The response made from an envelope: the same fields, the strings
    stripped. *)
Definition response_of (e : BackupEnvelope) : BackupExportResponse :=
  {| response_version := version e; response_createdAt := createdAt e;
     response_kdfParams := kdfParams e;
     response_salt := strip_whitespace <$> salt e;
     response_export :=
       {| blob_nonce := strip_whitespace (payload_nonce (export e));
          blob_ciphertext := strip_whitespace (payload_ciphertext (export e)) |};
     response_note := strip_whitespace (note e) |}.

(** The KDF parameters of an envelope, when it has some, are positive. *)
Definition valid_kdf (k : option BackupKDFParams) : Prop :=
  ∀ p, k = Some p → 0 < memoryCost p ∧ 0 < timeCost p ∧ 0 < kdf_parallelism p.

(** The sanitizer drops [password_protected], whose name has a forbidden
    hint in it. *)
Lemma export_meta_kept n b :
  _sanitize_meta (Some (export_meta n b))
  = Some {[ "entry_count" := PInt (Z.of_nat n) ]}.
Proof.
  apply sanitize_meta_Some. eexists. split; [done|]. split.
  - apply map_eq. intros k. rewrite sanitize_loop_lookup. unfold export_meta.
    destruct (decide (k = "entry_count")) as [->|Hk].
    { by rewrite lookup_insert_eq, lookup_singleton_eq. }
    rewrite lookup_insert_ne, lookup_singleton_ne by done.
    destruct (decide (k = "password_protected")) as [->|Hp].
    { by rewrite lookup_singleton_eq. }
    by rewrite lookup_singleton_ne.
  - apply map_non_empty_singleton.
Qed.

Lemma response_validate_dump e :
  pydantic_ok → valid_kdf (kdfParams e) →
  BackupExportResponse_model_validate (BackupEnvelope_model_dump e)
  = Some (response_of e).
Proof.
  intros (Hb & Hi & Hu & Hd) Hk.
  unfold BackupExportResponse_model_validate, BackupEnvelope_model_dump.
  change (negb (no_extra_keys _ _)) with false. cbv iota.
  change (list_to_map _ !! "version") with (Some (PInt (version e))).
  change (list_to_map _ !! "createdAt")
    with (Some (PStr (serialize_datetime (createdAt e)))).
  change (list_to_map _ !! "kdfParams")
    with (Some (from_option BackupKDFParams_model_dump PNone (kdfParams e))).
  change (list_to_map _ !! "salt") with (Some (dump_optional_str (salt e))).
  change (list_to_map _ !! "export")
    with (Some (PDict (list_to_map
                  [("nonce", PStr (payload_nonce (export e)));
                   ("ciphertext", PStr (payload_ciphertext (export e)))]))).
  change (list_to_map _ !! "note") with (Some (PStr (note e))).
  unfold with_default, required. cbn [mbind option_bind].
  rewrite Hi, Hd. cbn [mbind option_bind].
  assert (validate_optional BackupKDFParams_model_validate
            (from_option BackupKDFParams_model_dump PNone (kdfParams e))
          = Some (kdfParams e)) as ->.
  { destruct (kdfParams e) as [p|] eqn:Hp; [|done].
    destruct (Hk p eq_refl) as (Hm & Ht & Hpar).
    cbn [from_option]. unfold BackupKDFParams_model_dump, validate_optional.
    unfold BackupKDFParams_model_validate.
    change (negb (no_extra_keys _ _)) with false. cbv iota.
    change (list_to_map _ !! "memoryCost") with (Some (PInt (memoryCost p))).
    change (list_to_map _ !! "timeCost") with (Some (PInt (timeCost p))).
    change (list_to_map _ !! "parallelism") with (Some (PInt (kdf_parallelism p))).
    unfold required, validate_int_gt. cbn [mbind option_bind]. rewrite !Hi.
    cbn [mbind option_bind].
    apply Z.ltb_lt in Hm as ->, Ht as ->, Hpar as ->. by destruct p. }
  cbn [mbind option_bind].
  assert (validate_optional (validate_str true 0 None) (dump_optional_str (salt e))
          = Some (strip_whitespace <$> salt e)) as ->.
  { by destruct (salt e). }
  cbn [mbind option_bind].
  unfold BackupExportBlob_model_validate.
  change (negb (no_extra_keys _ _)) with false. cbv iota.
  change (list_to_map _ !! "nonce") with (Some (PStr (payload_nonce (export e)))).
  change (list_to_map _ !! "ciphertext")
    with (Some (PStr (payload_ciphertext (export e)))).
  done.
Qed.

Lemma build_backup_envelope_frame es st key pw w :
  committed (snd (build_backup_envelope es st key pw w)) = committed w
  ∧ tx (snd (build_backup_envelope es st key pw w)) = tx w.
Proof.
  unfold build_backup_envelope, generate_argon2_salt, encrypt_json. run.
  repeat (case_match; run; simplify_eq); done.
Qed.

(** [build_backup_envelope] under a 32-byte key and a password it accepts. *)
Lemma build_backup_envelope_run es st key pw w :
  argon2_raw_ok → hkdf_length_ok → length key = 32%nat → export_password_ok pw →
  ∃ envelope w',
    build_backup_envelope es st key pw w = (Ok envelope, w')
    ∧ valid_kdf (kdfParams envelope)
    ∧ (kdfParams envelope = None ↔ str_truthy pw = false)
    ∧ (salt envelope = None ↔ str_truthy pw = false).
Proof.
  intros Hr Hh Hk Hpw.
  unfold build_backup_envelope, encrypt_json, generate_argon2_salt, _b64encode.
  rewrite Hk. destruct Hpw as [Hnone|(p & -> & Hlen)].
  - rewrite Hnone. run. rewrite Hk. run.
    eexists _, _. split; [reflexivity|]. simpl. split_and!; try done.
  - assert (str_truthy (Some p) = true) as Htruthy.
    { apply str_truthy_Some. intros ->. simpl in Hlen. lia. }
    rewrite Htruthy. run.
    match goal with
    | |- context [derive_master_key_raw p ?s DEFAULT_ARGON2_PARAMS] =>
        set (drawn_salt := s)
    end.
    assert (16 ≤ length drawn_salt)%nat as Hsalt by (simpl; lia).
    destruct (derive_backup_key_ok p drawn_salt 65536 3 4 Hr Hlen Hsalt)
      as (mk & Hmk & Hbk & Hmklen); [lia..|].
    change (Argon2Params_of 65536 3 4) with DEFAULT_ARGON2_PARAMS in Hmk.
    rewrite Hmk. run. rewrite Hbk. run.
    rewrite (Hh (ascii_bytes "vault/backup_key/v1") mk). run.
    eexists _, _. split; [reflexivity|]. simpl. split_and!; try done.
    intros params [= <-]. simpl. lia.
Qed.

(** The 200 of an export, and what the request commits. *)
Definition exported (es : list Entry) (envelope : BackupEnvelope) (w : World)
    (result : Response * World) : Prop :=
  fst result
    = {| status_code := 200;
         content := Some (BackupExportResponse_model_dump (response_of envelope));
         cookie_ops := [] |}
  ∧ entries (committed (snd result)) = entries (committed w)
  ∧ vault_metadata (committed (snd result)) = vault_metadata (committed w)
  ∧ settings (committed (snd result))
    = Some (default default_settings (settings (committed w)))
  ∧ ∃ r, audit (committed (snd result)) = audit (committed w) ++ [r]
         ∧ ar_type r = "BACKUP_EXPORT" ∧ ar_outcome r = "SUCCESS"
         ∧ ar_meta r = Some {[ "entry_count" := PInt (Z.of_nat (length es)) ]}.

(** X26: POST /backup/export in a session with a 32-byte key.  A row that
    does not decrypt or validate ends the request with the error of that
    row and nothing committed.  Otherwise, with no password or one of 12 to
    128 characters, the answer is 200 with the envelope
    [build_backup_envelope] made of the decrypted entries and the settings
    (KDF parameters exactly when there is a password); the entries and the
    vault metadata are untouched, the settings row is made if there was
    none, and the audit event records the number of entries only: the
    sanitizer drops [password_protected].  A password of 1 to 11
    characters, which the request schema accepts, ends the request with 500
    and nothing committed. *)
Theorem export_backup_outcomes (payload : BackupExportRequest) (request : Request)
    (w : World) session w1 :
  pydantic_ok → argon2_raw_ok → hkdf_length_ok →
  unlocked request w session w1 → db_wf (committed w) →
  length (enc_key session) = 32%nat →
  let result := run_endpoint (export_endpoint (export_backup payload request)) w in
  let rows := entries (committed w) in
  let record := default default_settings (settings (committed w)) in
  (∀ e, _decrypt_rows_as_entries rows (enc_key session) = Raise e →
        fst result = exception_response e ∧ committed (snd result) = committed w)
  ∧ ∀ es st,
      _decrypt_rows_as_entries rows (enc_key session) = Ok es →
      SettingsModel_init (auto_lock_minutes record) (clipboard_clear_seconds record)
        (require_reauth_for_copy record) = Some st →
      (export_password_ok (exportPassword payload) →
       ∃ envelope w2 w3,
         build_backup_envelope es st (enc_key session) (exportPassword payload) w2
         = (Ok envelope, w3)
         ∧ (kdfParams envelope = None ↔ str_truthy (exportPassword payload) = false)
         ∧ exported es envelope w result)
      ∧ (¬ export_password_ok (exportPassword payload) →
         fst result = build_error_response 500 "INTERNAL_ERROR" "Unexpected error."
         ∧ committed (snd result) = committed w).
Proof.
  intros Hp Hr Hh Hs Hwf Hk result rows record. subst result rows record.
  unfold unlocked, db_wf, exported in *.
  pose proof (get_session_frame (request_cookies request !! SESSION_COOKIE_NAME) w)
    as Hframe.
  rewrite Hs in Hframe. simpl in Hframe. destruct Hframe as (Hc & _ & He & _).
  unfold run_endpoint, export_endpoint, export_backup, _require_unlocked_session,
    _load_settings, settings_model_of, write_audit_event.
  run. rewrite get_session_with_tx, Hs. simpl.
  destruct (_decrypt_rows_as_entries (entries (committed w)) (enc_key session))
    as [es|e] eqn:Hrows; run.
  2: { split; [|done]. by intros e' [= <-]. }
  split; [done|]. intros es' st [= ->] Hst.
  destruct (settings (committed w)) as [record|] eqn:Hset; simpl in Hst; run;
    [rewrite Hst|injection Hst as <-]; run.
  all: match goal with
       | |- context [build_backup_envelope ?a ?b ?k ?p ?W] =>
           pose proof (build_backup_envelope_frame a b k p W) as (Hbc & Hbt)
       end.
  all: split.
  all: try (intros Hpw;
    match goal with
    | |- context [build_backup_envelope ?a ?b ?k ?p ?W] =>
        destruct (build_backup_envelope_run a b k p W Hr Hh Hk Hpw)
          as (envelope & w' & Hbuild & Hkdf & Hnone & _)
    end;
    rewrite Hbuild in *; simpl in Hbc, Hbt;
    exists envelope; eexists _, _; (split; [exact Hbuild|]);
    (split; [exact Hnone|]);
    rewrite Hbt; simpl; rewrite bool_decide_eq_true_2 by done; run;
    rewrite response_validate_dump by done; run;
    split_and!; try done;
    eexists; split_and!; try done; apply export_meta_kept).
  all: intros Hpw.
  all: assert (∃ p, exportPassword payload = Some p ∧ p ≠ ""
                    ∧ ¬ (12 ≤ String.length p ≤ 128)%nat) as (p & Hpay & Hne & Hlen)
         by (destruct (exportPassword payload) as [p|];
             [|destruct Hpw; by left];
             exists p; split_and!; [done| |];
             [intros ->; destruct Hpw; by left
             |intros Hlen; destruct Hpw; right; by exists p]).
  all: rewrite Hpay in *.
  all: match goal with
       | |- context [build_backup_envelope ?a ?b ?k (Some ?q) ?W] =>
           pose proof (build_rejects_password a b k q W Hk Hne Hlen) as Hbuild;
           destruct (build_backup_envelope a b k (Some q) W) as [o w'] eqn:Hrun
       end.
  all: simpl in Hbuild, Hbc, Hbt; subst o; run.
  all: by rewrite Hbc.
Qed.

End ExportFacts.

(** ** routes/backup.py: a backup that can be read *)

Section ImportFacts2.
Context `{L : Lib}.

#[local] Arguments _compute_import_summary : simpl never.
#[local] Arguments BackupImportPreviewResponse_model_dump : simpl never.
#[local] Arguments summary_meta : simpl never.

(** The ids of the incoming entries that no row has, in their order: one
    row is added for each. *)
Definition new_ids (existing_map : gmap string EntryRecord) (incoming : list Entry)
    : list string :=
  flat_map (λ e, match existing_map !! uuid_str (entry_id e) with
                 | None => [uuid_str (entry_id e)]
                 | Some _ => []
                 end) incoming.

(** The counts both import endpoints report. *)
Definition import_counts (rows : list EntryRecord) (incoming : list Entry)
    : BackupImportPreviewResponse :=
  {| added := count_verdict WillAdd (existing_map_of rows) incoming;
     updated := count_verdict WillUpdate (existing_map_of rows) incoming;
     skipped := count_verdict WillSkip (existing_map_of rows) incoming;
     errors := [] |}.

Definition counts_meta (counts : BackupImportPreviewResponse) : gmap string pyval :=
  summary_meta (added counts) (updated counts) (skipped counts) 0.

(** The tables of [d'] other than [entries] are those of [d]. *)
Definition same_but_entries (d d' : Database) : Prop :=
  vault_metadata d' = vault_metadata d ∧ unlock_throttle d' = unlock_throttle d
  ∧ settings d' = settings d ∧ audit d' = audit d.

Lemma existing_map_of_None rows rid :
  existing_map_of rows !! rid = None ↔ rid ∉ map er_id rows.
Proof.
  unfold existing_map_of.
  assert (∀ acc : gmap string EntryRecord,
            fold_left (λ acc row, <[er_id row := row]> acc) rows acc !! rid = None
                 ↔ acc !! rid = None ∧ rid ∉ map er_id rows) as H.
  { induction rows as [|row rows IH]; intros acc; simpl.
    - split; [intros ?; split; [done|apply not_elem_of_nil]|by intros [? _]].
    - rewrite IH, lookup_insert_None, not_elem_of_cons. naive_solver. }
  rewrite H, lookup_empty. naive_solver.
Qed.

Lemma new_ids_fresh rows incoming rid :
  rid ∈ new_ids (existing_map_of rows) incoming → rid ∉ map er_id rows.
Proof.
  unfold new_ids. rewrite list_elem_of_In, in_flat_map.
  intros (e & _ & He). destruct (existing_map_of rows !! _) eqn:E; [done|].
  destruct He as [<-|[]]. by apply existing_map_of_None.
Qed.

Lemma summary_meta_kept a u s e :
  _sanitize_meta (Some (summary_meta a u s e)) = Some (summary_meta a u s e).
Proof.
  apply sanitize_meta_all_kept; unfold summary_meta.
  - apply insert_non_empty.
  - repeat (apply map_Forall_insert_2; [done|]). apply map_Forall_empty.
Qed.

(** One turn of the loop of [apply_import_backup], under a 32-byte key. *)
Lemma apply_import_step_run key existing_map incoming w :
  length key = 32%nat →
  ∃ w',
    apply_import_step key existing_map tt incoming w = (Ok tt, w')
    ∧ committed w' = committed w ∧ events w' = events w
    ∧ sessions w' = sessions w ∧ same_but_entries (tx w) (tx w')
    ∧ map er_id (entries (tx w'))
      = map er_id (entries (tx w)) ++ new_ids existing_map [incoming].
Proof.
  intros Hk. unfold apply_import_step, encrypt_json, same_but_entries, new_ids.
  rewrite Hk. run.
  destruct (existing_map !! uuid_str (entry_id incoming)) as [original|]; run.
  - rewrite dt_gt_as_utc. run. destruct (_ <? _); run.
    + eexists. split; [reflexivity|]. simpl.
      rewrite assign_row_ids, app_nil_r. done.
    + eexists. split; [reflexivity|]. simpl. rewrite app_nil_r. done.
  - eexists. split; [reflexivity|]. simpl. rewrite map_app. done.
Qed.

Lemma apply_import_loop_run key existing_map incoming w :
  length key = 32%nat →
  ∃ w',
    for_loopM (apply_import_step key existing_map) tt incoming w = (Ok tt, w')
    ∧ committed w' = committed w ∧ events w' = events w
    ∧ sessions w' = sessions w ∧ same_but_entries (tx w) (tx w')
    ∧ map er_id (entries (tx w'))
      = map er_id (entries (tx w)) ++ new_ids existing_map incoming.
Proof.
  intros Hk. revert w. induction incoming as [|e l IH]; intros w.
  - exists w. unfold same_but_entries. simpl. rewrite app_nil_r. done.
  - destruct (apply_import_step_run key existing_map e w Hk)
      as (w1 & Hstep & Hc1 & He1 & Hs1 & Hd1 & Hi1).
    destruct (IH w1) as (w2 & Hloop & Hc2 & He2 & Hs2 & Hd2 & Hi2).
    exists w2. cbn [for_loopM]. unfold mbind, M_bind. rewrite Hstep, Hloop.
    unfold same_but_entries in *.
    split_and!; try congruence; [naive_solver congruence..|].
    rewrite Hi2, Hi1. unfold new_ids. simpl. by rewrite !app_nil_r, <- app_assoc.
Qed.

Lemma NoDup_with_new_ids rows incoming :
  NoDup (map er_id rows) →
  NoDup (map er_id rows ++ new_ids (existing_map_of rows) incoming)
  ↔ NoDup (new_ids (existing_map_of rows) incoming).
Proof.
  intros Hrows. rewrite list.NoDup_app. split; [naive_solver|].
  intros Hnew. split_and!; [done| |done].
  intros rid Hin Hnew'. by apply new_ids_fresh in Hnew'.
Qed.

(** X27: a backup that can be read, in a session with a 32-byte key.  The
    preview answers with the counts of [_compute_import_summary] and
    commits nothing but a SUCCESS audit event.  Applying it is all or
    nothing: when the incoming entries that are new have distinct ids, the
    answer is the one of the preview, one row is added for each of them
    after the rows there were, the settings are those of the backup, and a
    SUCCESS audit event is committed; when two of them share an id, the
    commit fails, the answer is 400 IMPORT_FAILED, and nothing but a FAILURE
    audit event is committed. *)
Theorem import_applies_or_rolls_back (request : Request) (file : UploadFile)
    (password : option string) (w : World) session w1 bundle :
  unlocked request w session w1 → db_wf (committed w) →
  length (enc_key session) = 32%nat →
  bad_backup_filename file = false →
  read_backup file (enc_key session) password = Ok bundle →
  let rows := entries (committed w) in
  let incoming := bundle_entries bundle in
  let counts := import_counts rows incoming in
  let answer := {| status_code := 200;
                   content := Some (BackupImportPreviewResponse_model_dump counts);
                   cookie_ops := [] |} in
  let preview :=
    run_endpoint (import_endpoint (preview_import_backup request file password)) w in
  let applied :=
    run_endpoint (import_endpoint (apply_import_backup request file password)) w in
  (fst preview = answer
   ∧ ∃ r, committed (snd preview) = add_audit (committed w) r
          ∧ ar_type r = "BACKUP_IMPORT_PREVIEW" ∧ ar_outcome r = "SUCCESS"
          ∧ ar_meta r = Some (counts_meta counts))
  ∧ (NoDup (new_ids (existing_map_of rows) incoming) →
     fst applied = answer
     ∧ map er_id (entries (committed (snd applied)))
       = map er_id rows ++ new_ids (existing_map_of rows) incoming
     ∧ settings (committed (snd applied))
       = Some (record_of_settings (bundle_settings bundle))
     ∧ vault_metadata (committed (snd applied)) = vault_metadata (committed w)
     ∧ ∃ r, audit (committed (snd applied)) = audit (committed w) ++ [r]
            ∧ ar_type r = "BACKUP_IMPORT_APPLY" ∧ ar_outcome r = "SUCCESS"
            ∧ ar_meta r = Some (counts_meta counts))
  ∧ (¬ NoDup (new_ids (existing_map_of rows) incoming) →
     fst applied = build_error_response 400 "IMPORT_FAILED" "Import failed."
     ∧ ∃ r, committed (snd applied) = add_audit (committed w) r
            ∧ ar_type r = "BACKUP_IMPORT_APPLY" ∧ ar_outcome r = "FAILURE"
            ∧ ar_meta r = Some {[ "reason" := PStr "transaction_failed" ]}).
Proof.
  intros Hs Hwf Hk Hname Hread rows incoming counts answer preview applied.
  subst rows incoming counts answer preview applied.
  unfold db_wf, unlocked, counts_meta, import_counts in *.
  pose proof (get_session_frame (request_cookies request !! SESSION_COOKIE_NAME) w)
    as Hframe.
  rewrite Hs in Hframe. simpl in Hframe. destruct Hframe as (Hc & _ & He & _).
  unfold read_backup in Hread.
  destruct (parse_backup_json (file_content file)) as [envelope|e'] eqn:Hparse;
    [|done].
  simpl in Hread.
  split.
  - unfold run_endpoint, import_endpoint, preview_import_backup,
      _require_unlocked_session, write_audit_event, file_read.
    run. rewrite get_session_with_tx, Hs. simpl. rewrite Hname. run.
    rewrite Hparse, Hread. rewrite compute_import_summary_run. run.
    rewrite bool_decide_eq_true_2 by done. run.
    split; [done|]. eexists; split_and!; try done; apply summary_meta_kept.
  - unfold run_endpoint, import_endpoint, apply_import_backup,
      _require_unlocked_session, write_audit_event, file_read, try_exceptM.
    run. rewrite get_session_with_tx, Hs. simpl. rewrite Hname. run.
    rewrite Hparse. run. rewrite Hread. rewrite compute_import_summary_run. run.
    match goal with
    | |- context [for_loopM _ tt ?l ?W] =>
        destruct (apply_import_loop_run (enc_key session)
                    (existing_map_of (entries (committed w))) l W Hk)
          as (w' & Hloop & Hc' & He' & Hs' & (Hm & Ht & Hset & Ha) & Hids)
    end.
    rewrite Hloop. simpl in Hc', He', Hs', Hm, Ht, Hset, Ha, Hids. run.
    rewrite Hids. split.
    + intros Hnd. rewrite bool_decide_eq_true_2 by (by apply NoDup_with_new_ids).
      run. rewrite summary_meta_kept, Ha.
      split_and!; try done. eexists; split_and!; done.
    + intros Hnd.
      rewrite bool_decide_eq_false_2 by (by rewrite NoDup_with_new_ids).
      run. rewrite Hc', Hc. rewrite bool_decide_eq_true_2 by done. run.
      split; [done|]. eexists; split_and!; try done; apply reason_meta_kept.
Qed.

End ImportFacts2.

(** ** The audit log over every request *)

Section AuditInvariant.
Context `{L : Lib}.

(** The invariant of audit rows: no key of the meta has one of the hints
    password, secret, token, key, master in it, and every value is a bool,
    a number or a string. *)
Definition meta_clean (meta : option (gmap string pyval)) : Prop :=
  ∀ m key value,
    meta = Some m → m !! key = Some value →
    has_forbidden_hint key = false ∧ is_bool_str_int_float value = true.

Definition audit_clean (d : Database) : Prop :=
  Forall (λ r, meta_clean (ar_meta r)) (audit d).

Lemma sanitize_meta_clean meta : meta_clean (_sanitize_meta meta).
Proof.
  intros m key value (m0 & -> & -> & _)%sanitize_meta_Some.
  rewrite sanitize_loop_lookup. destruct (m0 !! key) as [v|]; simpl; [|done].
  unfold kept. destruct (has_forbidden_hint key); simpl; [done|].
  destruct (is_bool_str_int_float v) eqn:E; [|done]. by intros [= <-].
Qed.

(** Both the database file and the transaction in progress have clean
    audit rows. *)
Definition clean (w : World) : Prop :=
  audit_clean (committed w) ∧ audit_clean (tx w).

(** [m] keeps the audit rows clean, and [P] holds of what it returns. *)
Definition hoare {A} (m : M A) (P : A → Prop) : Prop :=
  ∀ w, clean w → clean (snd (m w)) ∧ ∀ a, fst (m w) = Ok a → P a.

Lemma hoare_weaken {A} (m : M A) (P Q : A → Prop) :
  hoare m P → (∀ a, P a → Q a) → hoare m Q.
Proof. intros Hm HPQ w Hw. destruct (Hm w Hw) as [? HP]. auto. Qed.

Lemma hoare_ret {A} (a : A) (P : A → Prop) : P a → hoare (mret a) P.
Proof. intros HP w Hw. split; [done|]. by intros ? [= <-]. Qed.

Lemma hoare_bind {A B} (m : M A) (f : A → M B) (P : A → Prop) (Q : B → Prop) :
  hoare m P → (∀ a, P a → hoare (f a) Q) → hoare (m ≫= f) Q.
Proof.
  intros Hm Hf w Hw. destruct (Hm w Hw) as [Hw' HP].
  unfold mbind, M_bind. destruct (m w) as [[a|e] w']; simpl in *; [|done].
  by apply Hf; [apply HP|].
Qed.

Lemma hoare_lift {A} (o : outcome A) (P : A → Prop) :
  (∀ a, o = Ok a → P a) → hoare (lift o) P.
Proof. intros HP w Hw. split; [done|]. simpl. auto. Qed.

Lemma hoare_raise {A} (e : exn) (P : A → Prop) : hoare (raise e) P.
Proof. intros w Hw. split; done. Qed.

Lemma hoare_db_read : hoare db_read audit_clean.
Proof. intros w [Hc Ht]. split; [done|]. by intros ? [= <-]. Qed.

Lemma hoare_db_write d : audit_clean d → hoare (db_write d) (λ _, True).
Proof. intros Hd w [Hc Ht]. split; done. Qed.

Lemma hoare_db_commit : hoare db_commit (λ _, True).
Proof.
  intros w [Hc Ht]. unfold db_commit. by destruct (bool_decide _).
Qed.

Lemma hoare_db_rollback : hoare db_rollback (λ _, True).
Proof. intros w [Hc Ht]. split; done. Qed.

(** A computation that leaves both databases alone. *)
Lemma hoare_frame {A} (m : M A) :
  (∀ w, committed (snd (m w)) = committed w ∧ tx (snd (m w)) = tx w) →
  hoare m (λ _, True).
Proof.
  intros Hm w [Hc Ht]. destruct (Hm w) as [Ec Et].
  unfold clean. rewrite Ec, Et. done.
Qed.

Lemma hoare_datetime_now : hoare datetime_now (λ _, True).
Proof. by apply hoare_frame. Qed.

Lemma hoare_get_world : hoare get_world (λ _, True).
Proof. by apply hoare_frame. Qed.

Lemma hoare_os_urandom n : hoare (os_urandom n) (λ _, True).
Proof. by apply hoare_frame. Qed.

Lemma hoare_record_event e : hoare (record_event e) (λ _, True).
Proof. by apply hoare_frame. Qed.

Lemma hoare_get_session token : hoare (get_session token) (λ _, True).
Proof.
  apply hoare_frame. intros w. by destruct (get_session_frame token w) as (? & ? & _).
Qed.

Lemma hoare_peek_session token : hoare (peek_session token) (λ _, True).
Proof.
  apply hoare_frame. intros w. by destruct (peek_session_frame token w) as (? & ? & _).
Qed.

Lemma hoare_destroy_session token : hoare (destroy_session token) (λ _, True).
Proof.
  apply hoare_frame. intros w. unfold destroy_session.
  by destruct (negb _).
Qed.

Lemma hoare_create_session key : hoare (create_session key) (λ _, True).
Proof.
  apply hoare_frame. intros w. unfold create_session.
  by destruct (negb _).
Qed.

Lemma hoare_encrypt_json key obj : hoare (encrypt_json key obj) (λ _, True).
Proof.
  apply hoare_frame. intros w. unfold encrypt_json.
  by destruct (negb _).
Qed.

Lemma hoare_build_backup_envelope es st key pw :
  hoare (build_backup_envelope es st key pw) (λ _, True).
Proof.
  apply hoare_frame. intros w.
  unfold build_backup_envelope, generate_argon2_salt, encrypt_json. run.
  repeat (case_match; run; simplify_eq); done.
Qed.

Lemma hoare_write_audit_event event_type outcome meta :
  hoare (write_audit_event event_type outcome meta) (λ _, True).
Proof.
  intros w [Hc Ht]. unfold write_audit_event. run.
  split; [|done]. split; [done|]. unfold audit_clean in *. simpl.
  apply Forall_app. split; [done|]. constructor; [|done].
  apply sanitize_meta_clean.
Qed.

Lemma hoare_for_loopM {A S} (body : S → A → M S) (s : S) (l : list A) :
  (∀ s x, hoare (body s x) (λ _, True)) →
  hoare (for_loopM body s l) (λ _, True).
Proof.
  intros Hbody. revert s. induction l as [|x l IH]; intros s.
  - by apply hoare_ret.
  - simpl. eapply hoare_bind; [apply Hbody|]. intros s' _. apply IH.
Qed.

Lemma hoare_try_exceptM {A} (body : M A) catches (handler : exn → M A) P :
  hoare body P → (∀ e, hoare (handler e) P) →
  hoare (try_exceptM body catches handler) P.
Proof.
  intros Hb Hh w Hw. destruct (Hb w Hw) as [Hw' HP].
  unfold try_exceptM. destruct (body w) as [[a|e] w']; simpl in *; [done|].
  destruct (catches e); [by apply Hh|done].
Qed.

(** The request as a whole: the transaction begins as the database file. *)
Lemma hoare_run_endpoint (endpoint : M Response) P w :
  hoare endpoint P → audit_clean (committed w) →
  audit_clean (committed (snd (run_endpoint endpoint w))).
Proof.
  intros He Hw. destruct (He (with_tx w (committed w))) as [[Hc _] _]; [done|].
  unfold run_endpoint. by destruct (endpoint _) as [[r|e] w'].
Qed.

End AuditInvariant.

(** One step through a handler: the rule of the construct at its head. *)
Ltac hoare_rule rule :=
  first [ apply rule | eapply hoare_weaken; [apply rule|by intros] ].

Ltac hoare_clean_db :=
  unfold audit_clean in *; simpl; first [assumption | done].

Ltac hoare_step :=
  lazymatch goal with
  | |- hoare (mbind _ _) _ => eapply hoare_bind; [|intros ? ?]
  | |- hoare (mret _) ?P =>
      tryif is_evar P
      then (apply (hoare_ret _ (λ _, True)); exact I)
      else (apply hoare_ret; first [exact I | done])
  | |- hoare (lift _) _ =>
      first [ apply (hoare_lift _ (λ _, True)); done
            | apply hoare_lift; by intros ]
  | |- hoare (raise _) _ => apply hoare_raise
  | |- hoare db_read _ => hoare_rule hoare_db_read
  | |- hoare (db_write _) _ => hoare_rule hoare_db_write; hoare_clean_db
  | |- hoare db_commit _ => hoare_rule hoare_db_commit
  | |- hoare db_rollback _ => hoare_rule hoare_db_rollback
  | |- hoare datetime_now _ => hoare_rule hoare_datetime_now
  | |- hoare get_world _ => hoare_rule hoare_get_world
  | |- hoare (os_urandom _) _ => hoare_rule hoare_os_urandom
  | |- hoare (record_event _) _ => hoare_rule hoare_record_event
  | |- hoare (get_session _) _ => hoare_rule hoare_get_session
  | |- hoare (peek_session _) _ => hoare_rule hoare_peek_session
  | |- hoare (destroy_session _) _ => hoare_rule hoare_destroy_session
  | |- hoare (create_session _) _ => hoare_rule hoare_create_session
  | |- hoare (encrypt_json _ _) _ => hoare_rule hoare_encrypt_json
  | |- hoare (build_backup_envelope _ _ _ _) _ =>
      hoare_rule hoare_build_backup_envelope
  | |- hoare (write_audit_event _ _ _) _ => hoare_rule hoare_write_audit_event
  | |- hoare (for_loopM _ _ _) _ => hoare_rule hoare_for_loopM; intros ? ?
  | |- hoare (try_exceptM _ _ _) _ => apply hoare_try_exceptM; [|intros ?]
  | |- hoare (if ?b then _ else _) _ => destruct b
  | |- hoare (match ?x with _ => _ end) _ => destruct x
  end.

Ltac hoare_auto := repeat hoare_step.

Section AuditEverywhere.
Context `{L : Lib}.

(** The endpoints of the model. *)
Inductive endpoint_of_app : M Response → Prop :=
| ep_vault_status request : endpoint_of_app (vault_status request)
| ep_vault_setup payload : endpoint_of_app (vault_setup payload)
| ep_vault_unlock payload : endpoint_of_app (vault_unlock payload)
| ep_vault_lock request : endpoint_of_app (vault_lock request)
| ep_list_entries request : endpoint_of_app (list_entries_endpoint request)
| ep_create_entry payload request :
    endpoint_of_app (entry_endpoint 201 (create_entry payload request))
| ep_get_entry id request :
    endpoint_of_app (entry_endpoint 200 (get_entry id request))
| ep_update_entry id payload request :
    endpoint_of_app (entry_endpoint 200 (update_entry id payload request))
| ep_delete_entry id request :
    endpoint_of_app (delete_entry_endpoint id request)
| ep_get_settings request :
    endpoint_of_app (settings_endpoint (get_settings request))
| ep_update_settings payload request :
    endpoint_of_app (settings_endpoint (update_settings payload request))
| ep_import_preview request file password :
    endpoint_of_app (import_endpoint (preview_import_backup request file password))
| ep_import_apply request file password :
    endpoint_of_app (import_endpoint (apply_import_backup request file password))
| ep_export payload request :
    endpoint_of_app (export_endpoint (export_backup payload request))
| ep_create_entry_route body request :
    endpoint_of_app (create_entry_route body request)
| ep_update_entry_route id body request :
    endpoint_of_app (update_entry_route id body request).

Lemma hoare_endpoint endpoint :
  endpoint_of_app endpoint → hoare endpoint (λ _, True).
Proof.
  destruct 1;
    unfold create_entry_route, update_entry_route, with_body,
      vault_status, vault_setup, vault_unlock, vault_lock,
      list_entries_endpoint, list_entries, entry_endpoint, create_entry,
      get_entry, update_entry, delete_entry_endpoint, delete_entry,
      settings_endpoint, get_settings, update_settings, settings_model_of,
      import_endpoint, preview_import_backup, apply_import_backup,
      export_endpoint, export_backup, _load_settings, settings_model_of,
      _compute_import_summary, apply_import_step, file_read,
      _require_unlocked_session, _require_unlocked, _get_vault_metadata,
      _get_or_create_unlock_throttle, _get_or_create_settings,
      generate_argon2_salt, hash_password_verifier;
    hoare_auto.
Qed.

(** X28: no request puts a forbidden key into the audit log.  If every
    audit row of the database has a meta without a key that contains
    password, secret, token, key or master, and with scalar values only,
    then so has every audit row after any request to any endpoint of the
    model, whatever the request carries and whichever way it ends. *)
Theorem audit_log_stays_clean (endpoint : M Response) (w : World) :
  endpoint_of_app endpoint → audit_clean (committed w) →
  audit_clean (committed (snd (run_endpoint endpoint w))).
Proof.
  intros He Hw. eapply hoare_run_endpoint; [by apply hoare_endpoint|done].
Qed.

End AuditEverywhere.

(** ** The further properties at work *)

Lemma plain_token_nonempty : token_nonempty (L := plain_lib).
Proof. intros [|b l] Hb; [discriminate|]. simpl. discriminate. Qed.



Lemma session_create_then_get_witness :
  ∃ session,
    fst (create_session demo_key demo_vault) = Ok session
    ∧ enc_key session = demo_key
    ∧ fst (get_session (Some (token session))
             (snd (create_session demo_key demo_vault)))
      = Ok (Some (set_last_seen session
                    (now_of (snd (create_session demo_key demo_vault))))).
Proof.
  destruct (session_create_then_get demo_key demo_vault plain_token_nonempty)
    as [_ H].
  destruct (H eq_refl) as (session & w1 & Hrun & Hkey & _ & Hget).
  rewrite Hrun. exists session. split_and!; [done|done|].
  destruct (Hget w1 1000000 eq_refl) as [Hin _].
  - vm_compute in Hrun. injection Hrun as _ <-. vm_compute. reflexivity.
  - apply Hin. vm_compute in Hrun. injection Hrun as _ <-. evaluate.
Defined.

Lemma session_timeout_slides_witness :
  fst (get_session (Some "session-1") (demo_seen_world demo_unlocked))
  = Ok (Some (set_last_seen demo_seen (now_of (demo_seen_world demo_unlocked))))
  ∧ fst (get_session (Some "session-1")
           (with_clock_reads (demo_seen_world demo_unlocked) 5000))
    = Ok None.
Proof.
  assert (get_session (Some "session-1") demo_unlocked
          = (Ok (Some demo_seen), demo_seen_world demo_unlocked)) as Hget
    by (vm_compute; reflexivity).
  split.
  - destruct (session_timeout_slides "session-1" demo_unlocked demo_seen
                (demo_seen_world demo_unlocked) Hget
                (demo_seen_world demo_unlocked) _ eq_refl eq_refl) as [H _].
    apply H. evaluate.
  - destruct (session_timeout_slides "session-1" demo_unlocked demo_seen
                (demo_seen_world demo_unlocked) Hget
                (with_clock_reads (demo_seen_world demo_unlocked) 5000)
                _ eq_refl eq_refl) as [_ H].
    apply H. evaluate.
Defined.

Lemma csrf_gate_passes_witness :
  CSRFMiddleware (demo_scope "POST" "/vault/unlock" []) (vault_unlock demo_unlock)
  = vault_unlock demo_unlock.
Proof.
  apply (csrf_gate_passes (demo_scope "POST" "/vault/unlock" [])).
  intros (_ & _ & Hp). apply Hp. evaluate.
Defined.

Lemma demo_world_wf : db_wf (committed demo_world).
Proof. vm_compute. constructor. Qed.

Lemma vault_setup_refuses_second_witness :
  fst (run_endpoint (vault_setup demo_setup) demo_vault)
  = build_error_response 409 "VAULT_EXISTS" "Vault already initialized.".
Proof.
  assert (has_verifier (committed demo_vault) = true) as Hv
    by (vm_compute; reflexivity).
  pose proof (vault_setup_refuses_second demo_setup demo_vault Hv demo_vault_wf)
    as H.
  cbv zeta in H. exact (proj1 H).
Defined.

Lemma vault_unlock_without_vault_witness :
  fst (run_endpoint (vault_unlock demo_unlock) demo_world)
  = build_error_response 400 "VAULT_NOT_INITIALIZED" "Vault not initialized.".
Proof.
  pose proof (vault_unlock_without_vault demo_unlock demo_world demo_world_wf) as H.
  cbv zeta in H. destruct H as [H _]. apply H. vm_compute. reflexivity.
Defined.

Lemma vault_setup_creates_witness :
  status_code (fst (run_endpoint (vault_setup demo_setup) demo_world)) = 201
  ∧ unlock_throttle
      (committed (snd (run_endpoint (vault_setup demo_setup) demo_world)))
    = Some fresh_throttle.
Proof.
  assert (has_verifier (committed demo_world) = false) as Hv
    by (vm_compute; reflexivity).
  pose proof (vault_setup_creates demo_setup demo_world Hv demo_world_wf) as H.
  cbv zeta in H. destruct H as (Hs & _ & _ & Ht & _). split; [exact Hs|exact Ht].
Defined.


Lemma vault_unlock_opens_session_witness :
  status_code (fst (run_endpoint (vault_unlock demo_unlock) demo_vault)) = 200
  ∧ events (snd (run_endpoint (vault_unlock demo_unlock) demo_vault))
    = events demo_vault
      ++ [VerifierConsulted demo_password "$plain$CorrectHorseBatteryStaple!"].
Proof.
  edestruct (vault_unlock_opens_session demo_unlock demo_vault)
    as (session & _ & Hs & _ & _ & He);
    [exact plain_hkdf_length_ok
    |first [exact demo_vault_wf|vm_compute; reflexivity|evaluate]..|].
  split; [exact Hs|exact He].
Defined.

Lemma Entry_validate_idempotent_witness :
  valid_entry (demo_entry "mail" 1000000 1)
  ∧ Entry_model_validate (Entry_model_dump (demo_entry "mail" 1000000 1))
    = Some (demo_entry "mail" 1000000 1).
Proof.
  apply (Entry_validate_idempotent (Entry_model_dump (demo_entry "mail" 1000000 1))
           _ plain_pydantic_ok).
  vm_compute. reflexivity.
Defined.

Lemma delay_ladder_witness :
  delay_seconds_of 3 = 2 ^ 3 ∧ delay_seconds_of 20 = 256.
Proof.
  split.
  - destruct (delay_ladder 3) as (H & _); [lia|]. apply H. lia.
  - destruct (delay_ladder 20) as (_ & H & _); [lia|]. apply H. lia.
Defined.

Lemma encrypt_then_decrypt_witness :
  ∃ payload,
    fst (encrypt_json demo_key (PStr "hunter2") demo_world) = Ok payload
    ∧ decrypt_json demo_key (nonce payload) (ciphertext payload)
      = Ok (PStr "hunter2").
Proof.
  destruct (encrypt_then_decrypt demo_key (PStr "hunter2") demo_world
              plain_aesgcm_ok plain_utf8_ok plain_json_ok) as [H _].
  destruct (H eq_refl) as (payload & w' & He & _ & _ & Hd).
  exists payload. rewrite He. split; [reflexivity|exact Hd].
Defined.


Lemma demo_key_length : length (enc_key demo_seen) = 32%nat.
Proof. vm_compute. reflexivity. Qed.

Lemma demo_unlocked_wf : db_wf (committed demo_unlocked).
Proof. vm_compute. constructor. Qed.


Lemma entry_not_found_404_witness :
  fst (run_endpoint (delete_entry_endpoint {| uuid_int := 7 |} demo_list)
         demo_unlocked)
  = build_error_response 404 "ENTRY_NOT_FOUND" "Entry not found."
  ∧ fst (run_endpoint (update_entry_route {| uuid_int := 7 |} demo_body demo_list)
           demo_unlocked)
    = build_error_response 404 "ENTRY_NOT_FOUND" "Entry not found."
  ∧ fst (run_endpoint (update_entry_route {| uuid_int := 7 |} demo_bad_body
                         demo_list) demo_unlocked)
    = build_error_response 422 "VALIDATION_ERROR" "Invalid request data.".
Proof.
  assert (uuid_str {| uuid_int := 7 |}
          ∉ map er_id (entries (committed demo_unlocked))) as Hnew
    by (vm_compute; apply not_elem_of_nil).
  pose proof (entry_not_found_404 {| uuid_int := 7 |} demo_list
                demo_unlocked demo_seen (demo_seen_world demo_unlocked)
                (demo_unlocked_resolved "GET" "/entries") demo_unlocked_wf Hnew)
    as (_ & Hdelete & Hput).
  split_and!.
  - exact (proj1 Hdelete).
  - pose proof (Hput demo_body) as H. cbv zeta in H. destruct H as [H _].
    apply H. vm_compute. by eexists.
  - pose proof (Hput demo_bad_body) as H. cbv zeta in H. destruct H as [_ H].
    apply H. vm_compute. reflexivity.
Defined.






Lemma settings_get_creates_defaults_witness :
  settings (committed (snd (run_endpoint (settings_endpoint (get_settings demo_list))
                              demo_bare)))
  = Some default_settings.
Proof.
  assert (unlocked demo_list demo_bare (demo_seen_at demo_bare)
            (demo_seen_world demo_bare)) as Hs by (vm_compute; reflexivity).
  assert (db_wf (committed demo_bare)) as Hwf by (vm_compute; constructor).
  pose proof (settings_get_creates_defaults demo_list demo_bare _ _ Hs Hwf eq_refl)
    as H.
  cbv zeta in H. destruct H as [_ ->]. reflexivity.
Defined.

Lemma unauthenticated_is_401_witness :
  fst (run_endpoint (list_entries_endpoint (demo_anonymous "GET" "/entries"))
         demo_listing)
  = build_error_response 401 "UNAUTHORIZED" "Authentication required."
  ∧ fst (run_endpoint
           (import_endpoint
              (apply_import_backup (demo_anonymous "POST" "/backup/import/apply")
                 demo_json_upload None)) demo_listing)
    = build_error_response 401 "UNAUTHORIZED" "Authentication required.".
Proof.
  split.
  - assert (get_session
              (request_cookies (demo_anonymous "GET" "/entries")
                 !! SESSION_COOKIE_NAME) demo_listing
            = (Ok None, demo_listing)) as Hs by (vm_compute; reflexivity).
    pose proof (unauthenticated_is_401 (demo_anonymous "GET" "/entries") _
                  demo_listing demo_listing
                  (protected_list (demo_anonymous "GET" "/entries")) Hs) as H.
    cbv zeta in H. exact (proj1 H).
  - assert (get_session
              (request_cookies (demo_anonymous "POST" "/backup/import/apply")
                 !! SESSION_COOKIE_NAME) demo_listing
            = (Ok None, demo_listing)) as Hs by (vm_compute; reflexivity).
    pose proof (unauthenticated_is_401 (demo_anonymous "POST" "/backup/import/apply")
                  _ demo_listing demo_listing
                  (protected_import_apply _ demo_json_upload None) Hs) as H.
    cbv zeta in H. exact (proj1 H).
Defined.

Lemma import_rejects_unreadable_witness :
  (rejected_after_read "BACKUP_IMPORT_APPLY" "invalid_file" demo_unlocked
     (run_endpoint (import_endpoint (apply_import_backup demo_import
                                       demo_json_upload None)) demo_unlocked)
   ∧ rejected_after_read "BACKUP_IMPORT_PREVIEW" "invalid_file" demo_unlocked
       (run_endpoint (import_endpoint (preview_import_backup demo_import
                                         demo_json_upload None)) demo_unlocked))
  ∧ (fst (run_endpoint (import_endpoint (apply_import_backup demo_import
                                           demo_deep_upload None)) demo_unlocked)
     = build_error_response 500 "INTERNAL_ERROR" "Unexpected error."
     ∧ committed (snd (run_endpoint
                         (import_endpoint (preview_import_backup demo_import
                                             demo_deep_upload None))
                         demo_unlocked))
       = committed demo_unlocked).
Proof.
  split.
  - assert (read_backup demo_json_upload (enc_key demo_seen) None
            = Raise invalid_backup_file) as Hread by (vm_compute; reflexivity).
    assert (bad_backup_filename demo_json_upload = false) as Hname
      by (vm_compute; reflexivity).
    pose proof (import_rejects_unreadable demo_import demo_json_upload None
                  demo_unlocked demo_seen (demo_seen_world demo_unlocked)
                  invalid_backup_file
                  (demo_unlocked_resolved "POST" "/backup/import/apply")
                  demo_unlocked_wf Hname Hread) as H.
    cbv zeta in H. destruct H as [H _].
    assert (parse_backup_json (file_content demo_json_upload)
            = Raise invalid_backup_file) as Hparse by (vm_compute; reflexivity).
    rewrite Hparse in H. apply H. reflexivity.
  - assert (read_backup demo_deep_upload (enc_key demo_seen) None
            = Raise RecursionError) as Hread by (vm_compute; reflexivity).
    assert (bad_backup_filename demo_deep_upload = false) as Hname
      by (vm_compute; reflexivity).
    pose proof (import_rejects_unreadable demo_import demo_deep_upload None
                  demo_unlocked demo_seen (demo_seen_world demo_unlocked)
                  RecursionError
                  (demo_unlocked_resolved "POST" "/backup/import/apply")
                  demo_unlocked_wf Hname Hread) as H.
    cbv zeta in H. destruct H as (_ & H & _).
    destruct (H eq_refl) as (Happlied & _ & _ & Hpreview).
    split; [exact Happlied|exact Hpreview].
Defined.

Lemma audit_log_stays_clean_witness :
  audit_clean (committed (snd (run_endpoint (vault_setup demo_setup) demo_world)))
  ∧ audit_clean
      (committed (snd (run_endpoint (vault_unlock demo_wrong_unlock)
                         (snd (run_endpoint (vault_setup demo_setup) demo_world))))).
Proof.
  assert (audit_clean (committed demo_world)) as Hempty.
  { unfold audit_clean. vm_compute. constructor. }
  pose proof (audit_log_stays_clean (vault_setup demo_setup) demo_world
                (ep_vault_setup demo_setup) Hempty) as Hvault.
  split; [exact Hvault|].
  exact (audit_log_stays_clean (vault_unlock demo_wrong_unlock) _
           (ep_vault_unlock demo_wrong_unlock) Hvault).
Defined.

Lemma export_backup_outcomes_witness :
  status_code (fst (run_endpoint (export_endpoint (export_backup demo_export demo_list))
                      demo_listing)) = 200
  ∧ fst (run_endpoint (export_endpoint (export_backup demo_export_short demo_list))
           demo_listing)
    = build_error_response 500 "INTERNAL_ERROR" "Unexpected error.".
Proof.
  split.
  - pose proof (export_backup_outcomes demo_export demo_list demo_listing demo_seen
                  (demo_seen_world demo_listing) plain_pydantic_ok
                  plain_argon2_raw_ok plain_hkdf_length_ok demo_listing_resolved
                  demo_listing_wf demo_key_length) as H.
    cbv zeta in H. destruct H as [_ H].
    edestruct H as [Hok _]; [vm_compute; reflexivity..|].
    destruct Hok as (envelope & w2 & w3 & _ & _ & Hfst & _); [by left|].
    by rewrite Hfst.
  - pose proof (export_backup_outcomes demo_export_short demo_list demo_listing
                  demo_seen (demo_seen_world demo_listing) plain_pydantic_ok
                  plain_argon2_raw_ok plain_hkdf_length_ok demo_listing_resolved
                  demo_listing_wf demo_key_length) as H.
    cbv zeta in H. destruct H as [_ H].
    edestruct H as [_ Hbad]; [vm_compute; reflexivity..|].
    apply Hbad. intros [Hnone|(p & [= <-] & Hlen)]; [discriminate|].
    simpl in Hlen. lia.
Defined.

Lemma import_applies_or_rolls_back_witness :
  fst (run_endpoint (import_endpoint (apply_import_backup demo_import demo_backup None))
         demo_unlocked)
  = {| status_code := 200;
       content := Some (BackupImportPreviewResponse_model_dump
                          {| added := 1; updated := 0; skipped := 0; errors := [] |});
       cookie_ops := [] |}
  ∧ map er_id (entries (committed (snd (run_endpoint
        (import_endpoint (apply_import_backup demo_import demo_backup None))
        demo_unlocked))))
    = [uuid_str {| uuid_int := 1 |}].
Proof.
  assert (bad_backup_filename demo_backup = false) as Hname
    by (vm_compute; reflexivity).
  assert (read_backup demo_backup (enc_key demo_seen) None
          = Ok {| bundle_entries := [demo_entry "mail" 1000000 1];
                  bundle_settings := demo_settings;
                  exportedAt := Aware 0 0 |}) as Hread
    by (vm_compute; reflexivity).
  pose proof (import_applies_or_rolls_back demo_import demo_backup None
                demo_unlocked demo_seen (demo_seen_world demo_unlocked) _
                (demo_unlocked_resolved "POST" "/backup/import/apply")
                demo_unlocked_wf demo_key_length Hname Hread) as H.
  cbv zeta in H. destruct H as (_ & H & _).
  destruct H as (Hfst & Hids & _).
  { vm_compute. apply NoDup_singleton. }
  split; [rewrite Hfst|rewrite Hids]; vm_compute; reflexivity.
Defined.
